(** * FlowGuard: validation gate, test executor and stability score

    A shallow embedding of the deterministic core of FlowGuard
    (services/validation_service.py, services/test_executor.py,
    services/stability_score.py, services/agent2_service.py and the
    analyze-failures route of routers/schema_routes.py), followed by the
    properties of that code.  The embedding goes on to the suite and its
    stored rows, the upload, run-tests and final-report routes, the
    cleaning of a model reply, [get_current_user] of core/security.py and
    the signup route of routers/auth_routes.py.

    Modelling conventions.
    - A Python [str] is a [string] of ASCII characters; [lower] and [upper]
      change the 26 letters only.
    - The depth of nesting at which the recursion of the interpreter gives
      out is a parameter, [recursion_limit].
    - A Python value that comes out of a JSON document is a [pyval]; a dict
      keeps its items in insertion order, as an association list.  Numbers
      are integers.
    - A Python exception is an explicit [Raise] result.
    - The floats of the score are rationals: every value the score takes is
      an integer of small magnitude, on which binary64 arithmetic is exact.
    - The database is a record of lists and maps; a query is a filter or a
      find, a commit always succeeds, and the id of a new row is given.  A
      column that a constructor does not set reads as [None] or false.
    - The external models, the decoders, the hashing of passwords and the
      verification of tokens are parameters. *)

From Stdlib Require Import ZArith QArith Qround Qminmax Qcanon String Ascii List Bool.
From Stdlib Require Import Lia DecimalString Permutation Sorted OrderedTypeEx.
From stdpp Require Import base option list gmap.
Import ListNotations.

Local Open Scope string_scope.
Local Open Scope Z_scope.

(* ================================================================== *)
(** * Python strings *)
(* ================================================================== *)

Module PyStr.

Definition is_upper (c : ascii) : bool :=
  ((65 <=? nat_of_ascii c) && (nat_of_ascii c <=? 90))%nat.

Definition is_lower (c : ascii) : bool :=
  ((97 <=? nat_of_ascii c) && (nat_of_ascii c <=? 122))%nat.

Definition is_digit (c : ascii) : bool :=
  ((48 <=? nat_of_ascii c) && (nat_of_ascii c <=? 57))%nat.

Definition lower_ascii (c : ascii) : ascii :=
  if is_upper c then ascii_of_nat (nat_of_ascii c + 32) else c.

Definition upper_ascii (c : ascii) : ascii :=
  if is_lower c then ascii_of_nat (nat_of_ascii c - 32) else c.

(** [s.lower()] *)
Fixpoint lower (s : string) : string :=
  match s with
  | EmptyString => EmptyString
  | String c s' => String (lower_ascii c) (lower s')
  end.

(** [s.upper()] *)
Fixpoint upper (s : string) : string :=
  match s with
  | EmptyString => EmptyString
  | String c s' => String (upper_ascii c) (upper s')
  end.

(** [s.startswith(p)] *)
Definition startswith (s p : string) : bool := String.prefix p s.

(** [sub in s] *)
Fixpoint contains (sub s : string) : bool :=
  String.prefix sub s ||
  match s with
  | EmptyString => false
  | String _ s' => contains sub s'
  end.

(** [s.rstrip(c)] for a one-character argument *)
Fixpoint rstrip (c : ascii) (s : string) : string :=
  match s with
  | EmptyString => EmptyString
  | String a s' =>
      match rstrip c s' with
      | EmptyString => if Ascii.eqb a c then EmptyString else String a EmptyString
      | r => String a r
      end
  end.

(** [s[:n]] *)
Definition slice_to (n : nat) (s : string) : string := String.substring 0 n s.

(** [sep.join(l)] *)
Fixpoint join (sep : string) (l : list string) : string :=
  match l with
  | [] => EmptyString
  | [x] => x
  | x :: rest => x ++ sep ++ join sep rest
  end.

(** [str(z)] for an int *)
Definition of_Z (z : Z) : string := NilZero.string_of_int (Z.to_int z).

(** [str(n)] for an index produced by [enumerate] *)
Definition of_nat (n : nat) : string := of_Z (Z.of_nat n).

Definition hex_digit (n : nat) : ascii :=
  if (n <? 10)%nat then ascii_of_nat (48 + n) else ascii_of_nat (87 + n).

(** [repr(s)]: single quotes unless the text holds a single quote and no
    double quote; backslash, the chosen quote, tab, newline and carriage
    return are escaped, the other control characters are written \xNN. *)
Definition repr_char (quote c : ascii) : string :=
  let n := nat_of_ascii c in
  if Ascii.eqb c quote || Ascii.eqb c "\" then String "\" (String c EmptyString)
  else if (n =? 9)%nat then "\t"
  else if (n =? 10)%nat then "\n"
  else if (n =? 13)%nat then "\r"
  else if (n <? 32)%nat || (n =? 127)%nat then
    String "\" (String "x" (String (hex_digit (n / 16)) (String (hex_digit (n mod 16)) EmptyString)))
  else String c EmptyString.

Fixpoint repr_body (quote : ascii) (s : string) : string :=
  match s with
  | EmptyString => EmptyString
  | String c s' => repr_char quote c ++ repr_body quote s'
  end.

Definition squote : ascii := ascii_of_nat 39.
Definition dquote : ascii := ascii_of_nat 34.

Fixpoint has_char (c : ascii) (s : string) : bool :=
  match s with
  | EmptyString => false
  | String a s' => Ascii.eqb a c || has_char c s'
  end.

Definition repr (s : string) : string :=
  let q := if has_char squote s && negb (has_char dquote s) then dquote else squote in
  String q (repr_body q s ++ String q EmptyString).

(** Does every character of [s] pass [p]? *)
(** [s.isascii()] *)
Fixpoint isascii (s : string) : bool :=
  match s with
  | EmptyString => true
  | String a s' => (nat_of_ascii a <? 128)%nat && isascii s'
  end.

Fixpoint all_chars (p : ascii -> bool) (s : string) : bool :=
  match s with
  | EmptyString => true
  | String a s' => p a && all_chars p s'
  end.

(** The characters [str] prints an int with. *)
Definition is_int_char (c : ascii) : bool := is_digit c || Ascii.eqb c "-".

End PyStr.

(* ================================================================== *)
(** * Python values and exceptions *)
(* ================================================================== *)

Module Py.

(** A value decoded from JSON. *)
#[warnings="-register-all"]
Inductive pyval : Type :=
| PNone
| PBool (b : bool)
| PInt (z : Z)
| PStr (s : string)
| PList (l : list pyval)
| PDict (d : list (string * pyval)).

(** The items of a dict, in insertion order. *)
Definition pydict : Type := list (string * pyval).

Inductive exn : Type :=
| AttributeError
| TypeError.

Inductive result (A : Type) : Type :=
| Ok (a : A)
| Raise (e : exn).
Arguments Ok {A} a.
Arguments Raise {A} e.

Definition bind {A B : Type} (k : A -> result B) (m : result A) : result B :=
  match m with
  | Ok a => k a
  | Raise e => Raise e
  end.

#[export] Instance result_ret : MRet result := @Ok.
#[export] Instance result_bind : MBind result := @bind.

(** [key in d] *)
Fixpoint dict_get (d : pydict) (key : string) : option pyval :=
  match d with
  | [] => None
  | (k, v) :: rest => if String.eqb k key then Some v else dict_get rest key
  end.

Definition dict_has (d : pydict) (key : string) : bool :=
  match dict_get d key with Some _ => true | None => false end.

(** [d.get(key, default)] *)
Definition dict_get_default (d : pydict) (key : string) (default : pyval) : pyval :=
  match dict_get d key with Some v => v | None => default end.

(** [d[key] = v]: an existing key keeps its place, a new one goes last. *)
Fixpoint dict_set (d : pydict) (key : string) (v : pyval) : pydict :=
  match d with
  | [] => [(key, v)]
  | (k, w) :: rest =>
      if String.eqb k key then (k, v) :: rest else (k, w) :: dict_set rest key v
  end.

(** [bool(v)] *)
Definition truthy (v : pyval) : bool :=
  match v with
  | PNone => false
  | PBool b => b
  | PInt z => negb (z =? 0)%Z
  | PStr s => negb (String.eqb s EmptyString)
  | PList l => match l with [] => false | _ => true end
  | PDict d => match d with [] => false | _ => true end
  end.

(** [v == s] for a string literal [s] *)
Definition eq_str (v : pyval) (s : string) : bool :=
  match v with
  | PStr t => String.eqb t s
  | _ => false
  end.

(** [v in [s1, ..., sn]] for a list of string literals *)
Definition in_strs (v : pyval) (l : list string) : bool := existsb (eq_str v) l.

Definition hashable (v : pyval) : bool :=
  match v with
  | PList _ | PDict _ => false
  | _ => true
  end.

(** [a == b] on hashable values; [True == 1] and [False == 0]. *)
Definition eq_hashable (a b : pyval) : bool :=
  match a, b with
  | PNone, PNone => true
  | PBool x, PBool y => Bool.eqb x y
  | PBool x, PInt y | PInt y, PBool x => ((if x then 1 else 0) =? y)%Z
  | PInt x, PInt y => (x =? y)%Z
  | PStr x, PStr y => String.eqb x y
  | _, _ => false
  end.

(** [repr(v)] *)
Fixpoint repr (v : pyval) : string :=
  match v with
  | PNone => "None"
  | PBool true => "True"
  | PBool false => "False"
  | PInt z => PyStr.of_Z z
  | PStr s => PyStr.repr s
  | PList l => "[" ++ PyStr.join ", " (map repr l) ++ "]"
  | PDict d =>
      "{" ++ PyStr.join ", "
               (map (fun kv => match kv with
                               | (k, w) => PyStr.repr k ++ ": " ++ repr w
                               end) d) ++ "}"
  end.

(** [str(v)], which an f-string applies to each field *)
Definition str (v : pyval) : string :=
  match v with
  | PStr s => s
  | _ => repr v
  end.

End Py.


(* ================================================================== *)
(** * The [json] module of the Python library *)
(* ================================================================== *)

Module Json.
Import Py.

Definition hex4 (n : nat) : string :=
  String (PyStr.hex_digit (n / 4096))
    (String (PyStr.hex_digit ((n / 256) mod 16))
       (String (PyStr.hex_digit ((n / 16) mod 16))
          (String (PyStr.hex_digit (n mod 16)) EmptyString))).

(** One character of a string literal, with [ensure_ascii] on. *)
Definition encode_char (c : ascii) : string :=
  let n := nat_of_ascii c in
  if Ascii.eqb c PyStr.dquote then String "\" (String PyStr.dquote EmptyString)
  else if Ascii.eqb c "\" then "\\"
  else if (n =? 10)%nat then "\n"
  else if (n =? 13)%nat then "\r"
  else if (n =? 9)%nat then "\t"
  else if (n =? 12)%nat then "\f"
  else if (n =? 8)%nat then "\b"
  else if (n <? 32)%nat || (126 <? n)%nat then "\u" ++ hex4 n
  else String c EmptyString.

Fixpoint encode_body (s : string) : string :=
  match s with
  | EmptyString => EmptyString
  | String c s' => encode_char c ++ encode_body s'
  end.

Definition encode_string (s : string) : string :=
  String PyStr.dquote (encode_body s ++ String PyStr.dquote EmptyString).

(** [sorted(d.items())]: a stable insertion sort on the keys, in the order
    of the character codes. *)
Fixpoint insert_item {A : Type} (kv : string * A) (l : list (string * A))
  : list (string * A) :=
  match l with
  | [] => [kv]
  | kv' :: rest =>
      if String.ltb (fst kv) (fst kv') then kv :: l
      else kv' :: insert_item kv rest
  end.

Fixpoint sort_items {A : Type} (l : list (string * A)) : list (string * A) :=
  match l with
  | [] => []
  | kv :: rest => insert_item kv (sort_items rest)
  end.

Fixpoint spaces (n : nat) : string :=
  match n with
  | O => EmptyString
  | S n' => String " " (spaces n')
  end.

Definition newline : string := String (ascii_of_nat 10) EmptyString.

(** The text between two items, and before the first and after the last,
    at nesting depth [depth]. *)
Definition item_sep (indent : option nat) (depth : nat) : string :=
  match indent with
  | None => ", "
  | Some w => "," ++ newline ++ spaces (w * depth)
  end.

Definition opening (indent : option nat) (depth : nat) : string :=
  match indent with
  | None => EmptyString
  | Some w => newline ++ spaces (w * depth)
  end.

(** [json.dumps(v, indent=indent, sort_keys=sort_keys)] *)
Fixpoint dumps_at (indent : option nat) (sort_keys : bool) (depth : nat)
  (v : pyval) : string :=
  match v with
  | PNone => "null"
  | PBool true => "true"
  | PBool false => "false"
  | PInt z => PyStr.of_Z z
  | PStr s => encode_string s
  | PList [] => "[]"
  | PList l =>
      "[" ++ opening indent (S depth)
          ++ PyStr.join (item_sep indent (S depth))
               (map (dumps_at indent sort_keys (S depth)) l)
          ++ opening indent depth ++ "]"
  | PDict [] => "{}"
  | PDict d =>
      let items :=
        map (fun kv => match kv with
                       | (k, w) => (k, dumps_at indent sort_keys (S depth) w)
                       end) d in
      let items := if sort_keys then sort_items items else items in
      "{" ++ opening indent (S depth)
          ++ PyStr.join (item_sep indent (S depth))
               (map (fun kv => encode_string (fst kv) ++ ": " ++ snd kv) items)
          ++ opening indent depth ++ "}"
  end.

Definition dumps (indent : option nat) (sort_keys : bool) (v : pyval) : string :=
  dumps_at indent sort_keys 0 v.

(** What [dumps] makes of one item of a dict before it sorts the items. *)
Definition dump_item (indent : option nat) (depth : nat) (kv : string * pyval)
  : string * string :=
  (fst kv, dumps_at indent true depth (snd kv)).

(** Two values that are equal when dicts are read as maps: the same keys
    with the same values, in whatever order the items were inserted, at
    every depth.  The keys of a dict are distinct. *)
Inductive same_value : pyval -> pyval -> Prop :=
| SameNone : same_value PNone PNone
| SameBool b : same_value (PBool b) (PBool b)
| SameInt z : same_value (PInt z) (PInt z)
| SameStr s : same_value (PStr s) (PStr s)
| SameList l1 l2 : same_list l1 l2 -> same_value (PList l1) (PList l2)
| SameDict d1 d2 d2' :
    List.NoDup (map fst d1) -> same_items d1 d2' -> Permutation d2' d2 ->
    same_value (PDict d1) (PDict d2)
with same_list : list pyval -> list pyval -> Prop :=
| SameNil : same_list [] []
| SameCons v1 v2 l1 l2 :
    same_value v1 v2 -> same_list l1 l2 -> same_list (v1 :: l1) (v2 :: l2)
with same_items : pydict -> pydict -> Prop :=
| SameItemsNil : same_items [] []
| SameItemsCons k v1 v2 d1 d2 :
    same_value v1 v2 -> same_items d1 d2 ->
    same_items ((k, v1) :: d1) ((k, v2) :: d2).

Scheme same_value_mut := Minimality for same_value Sort Prop
  with same_list_mut := Minimality for same_list Sort Prop
  with same_items_mut := Minimality for same_items Sort Prop.

Combined Scheme same_mutind from same_value_mut, same_list_mut, same_items_mut.

(** The order [sorted] puts the items of a dict in. *)
Definition key_lt {A : Type} (a b : string * A) : Prop :=
  String.ltb (fst a) (fst b) = true.

End Json.

(* ================================================================== *)
(** * services/test_executor.py *)
(* ================================================================== *)

Module TestExecutor.
Import Py.

Inductive TestResult : Type := PASSED | FAILED | ERROR | TIMEOUT.

(** [TestResult] is a [str] enum: a member compares equal to its value. *)
Definition TestResult_value (r : TestResult) : string :=
  match r with
  | PASSED => "passed"
  | FAILED => "failed"
  | ERROR => "error"
  | TIMEOUT => "timeout"
  end.

(** The dict [execute_test_case] returns.  [response_time_ms], a clock
    reading, is left out. *)
Record ExecutionResult : Type := {
  test_case : pydict;
  status_code : option Z;
  response_body : string;
  headers : list (string * string);
  result : TestResult;
  failure_reason : option string
}.

Definition REDACTED : string := "***REDACTED***".

Definition sensitive_keys : list string :=
  ["password"; "token"; "secret"; "key"; "authorization";
   "credit_card"; "ssn"; "phone"; "email"; "address"].

(** [any(sensitive in key.lower() for sensitive in sensitive_keys)] *)
Definition is_sensitive (key : string) : bool :=
  existsb (fun sensitive => PyStr.contains sensitive (PyStr.lower key)) sensitive_keys.

(** The inner function [sanitize_dict] of [_sanitize_response].  The loop
    over [list(obj.keys())] assigns to each key once, in place, which on the
    items of the dict is a [map]. *)
Fixpoint sanitize_dict (obj : pyval) : pyval :=
  match obj with
  | PDict d =>
      PDict (map (fun kv =>
                    match kv with
                    | (key, v) =>
                        if is_sensitive key then (key, PStr REDACTED)
                        else match v with
                             | PDict _ | PList _ => (key, sanitize_dict v)
                             | _ => (key, v)
                             end
                    end) d)
  | PList l => PList (map sanitize_dict l)
  | _ => obj
  end.

(** What the sanitizer makes of one item of a dict. *)
Definition sanitize_item (kv : string * pyval) : string * pyval :=
  (fst kv, if is_sensitive (fst kv) then PStr REDACTED else sanitize_dict (snd kv)).

(** A step into a value: a key of a dict or an index of a list; a path is
    a list of steps from the top. *)
Inductive step : Type :=
| Key (k : string)
| Index (i : nat).

Fixpoint lookup_path (v : pyval) (p : list step) : option pyval :=
  match p with
  | [] => Some v
  | Key k :: p' =>
      match v with
      | PDict d =>
          match dict_get d k with
          | Some x => lookup_path x p'
          | None => None
          end
      | _ => None
      end
  | Index i :: p' =>
      match v with
      | PList l =>
          match nth_error l i with
          | Some x => lookup_path x p'
          | None => None
          end
      | _ => None
      end
  end.

(** A step that does not go through a sensitive key. *)
Definition clear_step (s : step) : bool :=
  match s with
  | Key k => negb (is_sensitive k)
  | Index _ => true
  end.

Definition is_container (v : pyval) : bool :=
  match v with
  | PDict _ | PList _ => true
  | _ => false
  end.

(** The keys of a dict in order, the length of a list: the outline that a
    value keeps when its leaves change. *)
Inductive outline : Type :=
| Leaf
| Keys (ks : list string)
| Length (n : nat).

Definition outline_of (v : pyval) : outline :=
  match v with
  | PDict d => Keys (map fst d)
  | PList l => Length (length l)
  | _ => Leaf
  end.

(** How many containers lie one inside the other in a document. *)
Fixpoint depth (v : pyval) : nat :=
  match v with
  | PDict d =>
      S (fold_right (fun kv n => match kv with
                                 | (_, x) => Nat.max (depth x) n
                                 end) 0%nat d)
  | PList l => S (fold_right (fun x n => Nat.max (depth x) n) 0%nat l)
  | _ => 0%nat
  end.

(** A document put inside [n] lists. *)
Fixpoint nest (n : nat) (v : pyval) : pyval :=
  match n with
  | O => v
  | S n' => PList [nest n' v]
  end.

Section Sanitize.
(** [json.loads], [None] standing for the exception it raises on a text
    that is not JSON. *)
Variable json_loads : string -> option pyval.
(** How many containers, one inside the other, the recursion of
    [sanitize_dict] and of [json.dumps] can go into before the interpreter
    raises [RecursionError].  Both go into the containers that the
    sanitizer keeps, which are those of the sanitized document. *)
Variable recursion_limit : nat.

(** [_sanitize_response].  The [except:] of the source has no exception
    type: it takes the error of [json.loads] and also the
    [RecursionError] of [sanitize_dict] or [json.dumps], and returns the
    start of the body as it came. *)
Definition _sanitize_response (response_body : string) : string :=
  if String.eqb response_body EmptyString then EmptyString
  else match json_loads response_body with
       | Some data =>
           let sanitized := sanitize_dict data in
           if (depth sanitized <=? recursion_limit)%nat
           then Json.dumps (Some 2%nat) false sanitized
           else PyStr.slice_to 1000 response_body
       | None => PyStr.slice_to 1000 response_body
       end.
End Sanitize.

Definition safe_header_names : list string :=
  ["content-type"; "content-length"; "server"; "date";
   "cache-control"; "x-request-id"; "x-response-time"].

Definition _get_safe_headers (hs : list (string * string)) : list (string * string) :=
  List.filter (fun kv => existsb (String.eqb (PyStr.lower (fst kv))) safe_header_names) hs.

Definition stack_trace_indicators : list string :=
  ["Traceback"; "at line"; "File " ++ String PyStr.dquote EmptyString; "Exception:";
   "java.lang."; "System.Exception"; "stack trace";
   "error occurred"; "internal server error"].

Definition _detects_stack_trace (response_body : string) : bool :=
  let response_lower := PyStr.lower response_body in
  existsb (fun indicator => PyStr.contains (PyStr.lower indicator) response_lower)
          stack_trace_indicators.

(** [_analyze_response]; [response_time] is not read by the rules. *)
Definition _analyze_response (status_code : Z) (response_body : string)
  (response_time : Q) (test_case : pydict) : TestResult * option string :=
  let test_type := dict_get_default test_case "test_type" (PStr EmptyString) in
  let expected_failure := dict_get_default test_case "expected_failure" (PBool false) in
  (* Rule 1: 5xx errors are failures *)
  if 500 <=? status_code then
    (FAILED, Some ("5xx Server Error (" ++ PyStr.of_Z status_code ++ ")"))
  (* Rule 3: invalid success *)
  else if truthy expected_failure && (status_code <? 400) then
    (FAILED, Some "Invalid success - bad input was accepted")
  (* Rule 4: stack trace or sensitive info leakage *)
  else if _detects_stack_trace response_body then
    (FAILED, Some "Stack trace or sensitive info leaked")
  (* Rule 5: based on test type *)
  else if eq_str test_type "sql_injection" && (status_code <? 400) then
    (FAILED, Some "SQL injection attempt succeeded")
  else if eq_str test_type "xss" && (status_code <? 400) then
    (FAILED, Some "XSS attempt succeeded")
  else (PASSED, None).

(** What a single attempt against the target ends in. *)
Inductive attempt : Type :=
| Responded (status : Z) (body : string) (hs : list (string * string))
| TimedOut
| Failed (message : string).

(** The test case once [execute_test_case] has prepared the request: when
    it has a [headers] dict without [Content-Type] and a truthy payload,
    [headers['Content-Type'] = 'application/json'] is written into that
    dict, which is the test case's own.  The write is reached when
    [method.upper()] has not raised, and then whatever the request ends in. *)
Definition with_default_headers (test_case : pydict) : pydict :=
  match dict_get_default test_case "method" (PStr "GET") with
  | PStr _ =>
      match dict_get test_case "headers" with
      | Some (PDict hs) =>
          if negb (dict_has hs "Content-Type")
             && truthy (dict_get_default test_case "payload" (PDict []))
          then dict_set test_case "headers"
                 (PDict (dict_set hs "Content-Type" (PStr "application/json")))
          else test_case
      | _ => test_case
      end
  | _ => test_case
  end.

Section Execute.
Variable json_loads : string -> option pyval.
Variable recursion_limit : nat.

(** [execute_test_case], given how the one request ended. *)
Definition execute_test_case (tc : pydict) (a : attempt) : ExecutionResult :=
  let test_case := with_default_headers tc in
  match a with
  | Responded status body hs =>
      let sanitized_body := _sanitize_response json_loads recursion_limit body in
      let '(res, reason) :=
        _analyze_response status sanitized_body 0%Q test_case in
      {| test_case := test_case; status_code := Some status;
         response_body := PyStr.slice_to 500 sanitized_body;
         headers := _get_safe_headers hs;
         result := res; failure_reason := reason |}
  | TimedOut =>
      {| test_case := test_case; status_code := None;
         response_body := EmptyString;
         headers := []; result := TIMEOUT;
         failure_reason := Some "Request timeout" |}
  | Failed message =>
      {| test_case := test_case; status_code := None;
         response_body := EmptyString;
         headers := []; result := ERROR;
         failure_reason := Some ("Execution error: " ++ message) |}
  end.
End Execute.

End TestExecutor.

(* ================================================================== *)
(** * services/stability_score.py *)
(* ================================================================== *)

Module StabilityScore.
Import Py TestExecutor.

(** The two keys of [test_results] the calculator reads. *)
Record TestResults : Type := {
  all_results : list ExecutionResult;
  failures_to_analyze : list ExecutionResult
}.

(** [round(x, 2)], to the nearest hundredth, ties to the even one. *)
Definition round2 (x : Q) : Q :=
  let y := (x * 100)%Q in
  let f := Qfloor y in
  let r := (y - inject_Z f)%Q in
  let n := match (r ?= 1 # 2)%Q with
           | Lt => f
           | Gt => f + 1
           | Eq => if Z.even f then f else f + 1
           end in
  Qred (n # 100).

(** The three counters of the loop. *)
Record counters : Type := {
  num_5xx_errors : Z;
  num_invalid_success : Z;
  num_timeouts : Z
}.

(** One iteration of [for result in results_to_check]. *)
Definition count_result (c : counters) (r : ExecutionResult) : counters :=
  let failure_reason :=
    match failure_reason r with Some s => s | None => EmptyString end in
  let status_code := status_code r in
  let result_type := TestResult_value (result r) in
  (* Count 5xx errors *)
  let n5 :=
    if match status_code with
       | Some code => negb (code =? 0)%Z && (500 <=? code)
       | None => false
       end
    then num_5xx_errors c + 1
    else if PyStr.contains "5xx" failure_reason
            || PyStr.contains "Server Error" failure_reason
    then num_5xx_errors c + 1
    else num_5xx_errors c in
  (* Count invalid successes *)
  let ni :=
    if PyStr.contains "Invalid success" failure_reason
       || PyStr.contains "bad input was accepted" (PyStr.lower failure_reason)
    then num_invalid_success c + 1
    else num_invalid_success c in
  (* Count timeouts *)
  let nt :=
    if PyStr.contains "timeout" (PyStr.lower failure_reason)
       || String.eqb result_type "timeout"
    then num_timeouts c + 1
    else num_timeouts c in
  {| num_5xx_errors := n5; num_invalid_success := ni; num_timeouts := nt |}.

(** The three tests of the loop body, each taken on its own. *)
Definition reason_of (r : ExecutionResult) : string :=
  match failure_reason r with Some s => s | None => EmptyString end.

Definition counts_5xx (r : ExecutionResult) : bool :=
  match status_code r with
  | Some code => 500 <=? code
  | None => false
  end
  || PyStr.contains "5xx" (reason_of r)
  || PyStr.contains "Server Error" (reason_of r).

Definition counts_invalid_success (r : ExecutionResult) : bool :=
  PyStr.contains "Invalid success" (reason_of r)
  || PyStr.contains "bad input was accepted" (PyStr.lower (reason_of r)).

Definition counts_timeout (r : ExecutionResult) : bool :=
  PyStr.contains "timeout" (PyStr.lower (reason_of r))
  || match result r with TIMEOUT => true | _ => false end.

(** How many results of [l] pass the test [p]. *)
Definition tally (p : ExecutionResult -> bool) (l : list ExecutionResult) : Z :=
  Z.of_nat (length (List.filter p l)).

(** How many counters one result is added to. *)
Definition counters_hit (r : ExecutionResult) : Z :=
  let c := count_result
             {| num_5xx_errors := 0; num_invalid_success := 0; num_timeouts := 0 |} r in
  num_5xx_errors c + num_invalid_success c + num_timeouts c.

(** [clamp(x, 0, 100)] on integers *)
Definition clamp (x : Z) : Z := Z.max 0 (Z.min 100 x).

Definition results_to_check (t : TestResults) : list ExecutionResult :=
  match all_results t with
  | [] => failures_to_analyze t
  | _ => all_results t
  end.

Definition count_results (l : list ExecutionResult) : counters :=
  fold_left count_result l
    {| num_5xx_errors := 0; num_invalid_success := 0; num_timeouts := 0 |}.

Definition calculate_stability_score (test_results : TestResults) : Q :=
  let score := 100%Q in
  let c := count_results (results_to_check test_results) in
  let score := (score - inject_Z (5 * num_5xx_errors c))%Q in
  let score := (score - inject_Z (3 * num_invalid_success c))%Q in
  let score := (score - inject_Z (2 * num_timeouts c))%Q in
  let score := Qmax 0 (Qmin 100 score) in
  round2 score.

End StabilityScore.

(* ================================================================== *)
(** * The score as the specification words it *)
(* ================================================================== *)

Module ScoreSpec.
Import Py TestExecutor StabilityScore.

Inductive score_class : Type := Class5xx | ClassInvalidSuccess | ClassTimeout.

(** Following the specification: a result goes to one class at most, the
    first of 5xx, invalid success and timeout whose test it passes. *)
Definition classified (r : ExecutionResult) : option score_class :=
  if counts_5xx r then Some Class5xx
  else if counts_invalid_success r then Some ClassInvalidSuccess
  else if counts_timeout r then Some ClassTimeout
  else None.

Definition is_class (c : score_class) (r : ExecutionResult) : bool :=
  match classified r, c with
  | Some Class5xx, Class5xx => true
  | Some ClassInvalidSuccess, ClassInvalidSuccess => true
  | Some ClassTimeout, ClassTimeout => true
  | _, _ => false
  end.

(** Following the specification: clamp(100 - 5a - 3b - 2c, 0, 100) with
    a, b and c the numbers of results classified 5xx, invalid success and
    timeout. *)
Definition classified_score (l : list ExecutionResult) : Z :=
  clamp (100 - 5 * tally (is_class Class5xx) l
             - 3 * tally (is_class ClassInvalidSuccess) l
             - 2 * tally (is_class ClassTimeout) l).

End ScoreSpec.

(* ================================================================== *)
(** * The [re] module: regular expressions and [re.match] *)
(* ================================================================== *)

Module Re.

Inductive regex : Type :=
| Void
| Eps
| Chr (p : ascii -> bool)
| Cat (r1 r2 : regex)
| Alt (r1 r2 : regex)
| Star (r : regex).

Fixpoint nullable (r : regex) : bool :=
  match r with
  | Void => false
  | Eps => true
  | Chr _ => false
  | Cat r1 r2 => nullable r1 && nullable r2
  | Alt r1 r2 => nullable r1 || nullable r2
  | Star _ => true
  end.

(** The derivative of [r] by the character [c]. *)
Fixpoint deriv (c : ascii) (r : regex) : regex :=
  match r with
  | Void => Void
  | Eps => Void
  | Chr p => if p c then Eps else Void
  | Cat r1 r2 =>
      if nullable r1 then Alt (Cat (deriv c r1) r2) (deriv c r2)
      else Cat (deriv c r1) r2
  | Alt r1 r2 => Alt (deriv c r1) (deriv c r2)
  | Star r1 => Cat (deriv c r1) (Star r1)
  end.

(** Does [r] match the whole of [s]? *)
Fixpoint fullmatch (r : regex) (s : string) : bool :=
  match s with
  | EmptyString => nullable r
  | String c s' => fullmatch (deriv c r) s'
  end.

(** The texts a pattern matches. *)
Inductive matches : regex -> string -> Prop :=
| MEps : matches Eps EmptyString
| MChr p c : p c = true -> matches (Chr p) (String c EmptyString)
| MCat r1 r2 s1 s2 :
    matches r1 s1 -> matches r2 s2 -> matches (Cat r1 r2) (s1 ++ s2)
| MAltL r1 r2 s : matches r1 s -> matches (Alt r1 r2) s
| MAltR r1 r2 s : matches r2 s -> matches (Alt r1 r2) s
| MStarNil r : matches (Star r) EmptyString
| MStarApp r s1 s2 :
    matches r s1 -> matches (Star r) s2 -> matches (Star r) (s1 ++ s2).

Definition char (c : ascii) : regex := Chr (Ascii.eqb c).

Fixpoint lit (s : string) : regex :=
  match s with
  | EmptyString => Eps
  | String c s' => Cat (char c) (lit s')
  end.

Definition opt (r : regex) : regex := Alt r Eps.
Definition plus (r : regex) : regex := Cat r (Star r).

Definition is_newline (c : ascii) : bool := Ascii.eqb c (ascii_of_nat 10).

(** [.]: any character but the newline *)
Definition dot : regex := Chr (fun c => negb (is_newline c)).

(** [$]: the end of the text, or the newline that ends it *)
Definition dollar : regex := opt (Chr is_newline).

(** [\d] *)
Definition digit : regex := Chr PyStr.is_digit.

End Re.

(* ================================================================== *)
(** * [hashlib.sha256] *)
(* ================================================================== *)

Module Sha256.

Definition w32 (x : Z) : Z := x mod 0x100000000.
Definition add32 (x y : Z) : Z := w32 (x + y).
Definition rotr (n x : Z) : Z := Z.lor (Z.shiftr x n) (w32 (Z.shiftl x (32 - n))).
Definition not32 (x : Z) : Z := Z.lxor x 0xffffffff.

Definition Ch (x y z : Z) : Z := Z.lxor (Z.land x y) (Z.land (not32 x) z).
Definition Maj (x y z : Z) : Z :=
  Z.lxor (Z.lxor (Z.land x y) (Z.land x z)) (Z.land y z).
Definition Sigma0 (x : Z) : Z := Z.lxor (Z.lxor (rotr 2 x) (rotr 13 x)) (rotr 22 x).
Definition Sigma1 (x : Z) : Z := Z.lxor (Z.lxor (rotr 6 x) (rotr 11 x)) (rotr 25 x).
Definition sigma0 (x : Z) : Z := Z.lxor (Z.lxor (rotr 7 x) (rotr 18 x)) (Z.shiftr x 3).
Definition sigma1 (x : Z) : Z := Z.lxor (Z.lxor (rotr 17 x) (rotr 19 x)) (Z.shiftr x 10).

(** The constants of the standard are read off the first primes: the
    round constants are the first 32 bits of the fractional parts of their
    cube roots, the initial hash those of their square roots. *)
Definition is_prime (n : Z) : bool :=
  forallb (fun d => negb (n mod d =? 0))
          (map Z.of_nat (seq 2 (Z.to_nat (Z.sqrt n) - 1))).

Definition primes : list Z :=
  List.filter is_prime (map Z.of_nat (seq 2 310)).

(** The integer cube root of [n], one bit at a time from bit [i - 1] down. *)
Fixpoint cube_root (i : nat) (n r : Z) : Z :=
  match i with
  | O => r
  | S i' =>
      let r' := r + 2 ^ Z.of_nat i' in
      cube_root i' n (if r' * r' * r' <=? n then r' else r)
  end.

Definition K : list Z :=
  map (fun p => w32 (cube_root 36 (p * 2 ^ 96) 0)) primes.

Definition H0 : list Z :=
  map (fun p => w32 (Z.sqrt (p * 2 ^ 64))) (firstn 8 primes).

Fixpoint bytes_of_string (s : string) : list Z :=
  match s with
  | EmptyString => []
  | String c s' => Z.of_nat (nat_of_ascii c) :: bytes_of_string s'
  end.

(** The [n] low bytes of [x], most significant first. *)
Fixpoint be_bytes (n : nat) (x : Z) : list Z :=
  match n with
  | O => []
  | S n' => be_bytes n' (Z.shiftr x 8) ++ [x mod 256]
  end.

Definition pad (msg : list Z) : list Z :=
  let len := Z.of_nat (length msg) in
  let zeros := Z.to_nat ((55 - len) mod 64) in
  msg ++ [0x80] ++ repeat 0 zeros ++ be_bytes 8 (8 * len).

(** The big-endian words of a run of bytes, four bytes a word. *)
Fixpoint words (n : nat) (bs : list Z) : list Z :=
  match n, bs with
  | S n', b0 :: b1 :: b2 :: b3 :: rest =>
      (((b0 * 256 + b1) * 256 + b2) * 256 + b3) :: words n' rest
  | _, _ => []
  end.

(** The message schedule: [n] more words after those of [w]. *)
Fixpoint schedule (n : nat) (w : list Z) : list Z :=
  match n with
  | O => w
  | S n' =>
      let t := length w in
      let x := add32 (add32 (sigma1 (nth (t - 2) w 0)) (nth (t - 7) w 0))
                     (add32 (sigma0 (nth (t - 15) w 0)) (nth (t - 16) w 0)) in
      schedule n' (w ++ [x])
  end.

Definition round (st : list Z) (kw : Z * Z) : list Z :=
  match st with
  | [a; b; c; d; e; f; g; h] =>
      let t1 := add32 (add32 (add32 h (Sigma1 e)) (add32 (Ch e f g) (fst kw))) (snd kw) in
      let t2 := add32 (Sigma0 a) (Maj a b c) in
      [add32 t1 t2; a; b; c; add32 d t1; e; f; g]
  | _ => st
  end.

Definition compress (h : list Z) (block : list Z) : list Z :=
  let w := schedule 48 (words 16 block) in
  let st := fold_left round (combine K w) h in
  map (fun p => add32 (fst p) (snd p)) (combine h st).

(** The hash state after the blocks of [bs], at most [n] of them. *)
Fixpoint blocks (n : nat) (h : list Z) (bs : list Z) : list Z :=
  match n, bs with
  | S n', _ :: _ => blocks n' (compress h (firstn 64 bs)) (skipn 64 bs)
  | _, _ => h
  end.

Definition hex_of_word (x : Z) : string :=
  fold_right (fun b acc =>
                String (PyStr.hex_digit (Z.to_nat (b / 16)))
                  (String (PyStr.hex_digit (Z.to_nat (b mod 16))) acc))
             EmptyString (be_bytes 4 x).

(** [hashlib.sha256(s.encode()).hexdigest()] *)
Definition hexdigest (s : string) : string :=
  let bs := pad (bytes_of_string s) in
  String.concat EmptyString (map hex_of_word (blocks (length bs) H0 bs)).

End Sha256.

(* ================================================================== *)
(** * services/validation_service.py *)
(* ================================================================== *)

Module ValidationService.
Import Py.

(** [[m.value for m in HTTPMethod]] *)
Definition HTTPMethod_values : list string :=
  ["GET"; "POST"; "PUT"; "DELETE"; "PATCH"; "HEAD"; "OPTIONS"].

Definition required_fields : list string :=
  ["status"; "normalized_schema"; "test_cases"; "errors"].

Definition required_test_fields : list string :=
  ["endpoint"; "method"; "test_type"; "expected_failure"].

Definition valid_test_types : list string :=
  ["missing_field"; "wrong_type"; "boundary_values";
   "malformed_json"; "sql_injection"; "xss";
   "rate_limit"; "auth_bypass"; "timeout"; "invalid_auth"].

(** [for field in fields: if field not in d: errors.append(msg(field))] *)
Definition missing_fields (d : pydict) (fields : list string)
  (msg : string -> string) : list string :=
  map msg (List.filter (fun field => negb (dict_has d field)) fields).

(** [v.upper()]: only a [str] has the method. *)
Definition py_upper (v : pyval) : result string :=
  match v with
  | PStr s => Ok (PyStr.upper s)
  | _ => Raise AttributeError
  end.

(** The body of the loop over [normalized_schema] for one element: the
    errors it appends, and the element after [endpoint['method'] = method]. *)
Definition check_endpoint (idx : nat) (endpoint : pyval)
  : result (list string * pyval) :=
  match endpoint with
  | PDict d =>
      let e1 :=
        match dict_get d "endpoint" with
        | None => ["Endpoint at index " ++ PyStr.of_nat idx ++ " missing 'endpoint'"]
        | Some (PStr endpoint_path) =>
            if PyStr.startswith endpoint_path "/" then []
            else ["Endpoint path must start with '/': " ++ endpoint_path]
        | Some _ => ["Endpoint path must be string at index " ++ PyStr.of_nat idx]
        end in
      '(e2, d) ←
        match dict_get d "method" with
        | None => Ok (["Endpoint at index " ++ PyStr.of_nat idx ++ " missing 'method'"], d)
        | Some m =>
            method ← py_upper m;
            Ok ((if existsb (String.eqb method) HTTPMethod_values then []
                 else ["Invalid HTTP method at index " ++ PyStr.of_nat idx
                         ++ ": " ++ method]),
                dict_set d "method" (PStr method))
        end;
      let e3 :=
        if in_strs (dict_get_default d "method" PNone) ["POST"; "PUT"; "PATCH"]
           && negb (dict_has d "request_body")
        then ["Endpoint " ++ str (dict_get_default d "endpoint" PNone)
                ++ " (" ++ str (dict_get_default d "method" PNone)
                ++ ") missing 'request_body'"]
        else [] in
      Ok ((e1 ++ e2 ++ e3)%list, PDict d)
  | _ =>
      Ok (["Endpoint at index " ++ PyStr.of_nat idx ++ " must be a dictionary"],
          endpoint)
  end.

(** [for idx, endpoint in enumerate(normalized_schema)], from index [idx] on *)
Fixpoint check_endpoints (idx : nat) (l : list pyval)
  : result (list string * list pyval) :=
  match l with
  | [] => Ok ([], [])
  | endpoint :: rest =>
      '(e, endpoint') ← check_endpoint idx endpoint;
      '(es, rest') ← check_endpoints (S idx) rest;
      Ok ((e ++ es)%list, endpoint' :: rest')
  end.

(** The body of the loop over [test_cases] for one element. *)
Definition check_test_case (idx : nat) (test : pyval)
  : result (list string * pyval) :=
  match test with
  | PDict d =>
      let e1 :=
        missing_fields d required_test_fields
          (fun field => "Test case at index " ++ PyStr.of_nat idx
                          ++ " missing '" ++ field ++ "'") in
      let e2 :=
        match dict_get d "test_type" with
        | Some t =>
            if in_strs t valid_test_types then []
            else ["Invalid test_type at index " ++ PyStr.of_nat idx ++ ": " ++ str t]
        | None => []
        end in
      '(e3, d) ←
        match dict_get d "method" with
        | Some m =>
            method ← py_upper m;
            Ok ((if existsb (String.eqb method) HTTPMethod_values then []
                 else ["Invalid HTTP method in test case " ++ PyStr.of_nat idx
                         ++ ": " ++ method]),
                dict_set d "method" (PStr method))
        | None => Ok ([], d)
        end;
      Ok ((e1 ++ e2 ++ e3)%list, PDict d)
  | _ =>
      Ok (["Test case at index " ++ PyStr.of_nat idx ++ " must be a dictionary"],
          test)
  end.

Fixpoint check_test_cases (idx : nat) (l : list pyval)
  : result (list string * list pyval) :=
  match l with
  | [] => Ok ([], [])
  | test :: rest =>
      '(e, test') ← check_test_case idx test;
      '(es, rest') ← check_test_cases (S idx) rest;
      Ok ((e ++ es)%list, test' :: rest')
  end.

Fixpoint chars (s : string) : list pyval :=
  match s with
  | EmptyString => []
  | String c s' => PStr (String c EmptyString) :: chars s'
  end.

(** [for x in v]: a list gives its elements, a dict its keys, a string its
    characters; nothing else is iterable. *)
Definition py_iter (v : pyval) : result (list pyval) :=
  match v with
  | PList l => Ok l
  | PDict d => Ok (map (fun kv => PStr (fst kv)) d)
  | PStr s => Ok (chars s)
  | _ => Raise TypeError
  end.

(** ['endpoint' in v] *)
Definition py_contains (v : pyval) (key : string) : result bool :=
  match v with
  | PDict d => Ok (dict_has d key)
  | PStr s => Ok (PyStr.contains key s)
  | PList l => Ok (existsb (fun x => eq_str x key) l)
  | _ => Raise TypeError
  end.

(** [v['endpoint']], reached only when ['endpoint' in v] holds: a string or
    a list cannot be indexed by a string. *)
Definition py_getitem (v : pyval) (key : string) : result pyval :=
  match v with
  | PDict d =>
      match dict_get d key with
      | Some x => Ok x
      | None => Raise TypeError
      end
  | _ => Raise TypeError
  end.

(** The loop that fills [schema_endpoints]; the set is kept as the list of
    the values added. *)
Fixpoint collect_schema_endpoints (l : list pyval) : result (list pyval) :=
  match l with
  | [] => Ok []
  | endpoint :: rest =>
      has ← py_contains endpoint "endpoint";
      if (has : bool) then
        x ← py_getitem endpoint "endpoint";
        if hashable x then
          xs ← collect_schema_endpoints rest;
          Ok (x :: xs)
        else Raise TypeError
      else collect_schema_endpoints rest
  end.

(** [test.get('endpoint', '')] *)
Definition py_get_endpoint (test : pyval) : result pyval :=
  match test with
  | PDict d => Ok (dict_get_default d "endpoint" (PStr EmptyString))
  | _ => Raise AttributeError
  end.

(** [x in schema_endpoints] *)
Definition in_set (x : pyval) (schema_endpoints : list pyval) : result bool :=
  if hashable x then Ok (existsb (eq_hashable x) schema_endpoints)
  else Raise TypeError.

(** The loop that looks each test case up in [schema_endpoints]. *)
Fixpoint check_hallucinated (schema_endpoints : list pyval) (idx : nat)
  (l : list pyval) : result (list string) :=
  match l with
  | [] => Ok []
  | test :: rest =>
      test_endpoint ← py_get_endpoint test;
      e ← (if truthy test_endpoint then
              known ← in_set test_endpoint schema_endpoints;
              Ok (if (known : bool) then []
                  else ["Test case " ++ PyStr.of_nat idx
                          ++ " references non-existent endpoint: "
                          ++ str test_endpoint])
            else Ok []);
      es ← check_hallucinated schema_endpoints (S idx) rest;
      Ok (e ++ es)%list
  end.

(** Step 2 of the gate: the errors of [normalized_schema], and the value
    after the loop has upper-cased the methods in place. *)
Definition check_normalized_schema (normalized_schema : pyval)
  : result (list string * pyval) :=
  match normalized_schema with
  | PList [] => Ok (["normalized_schema cannot be empty"], normalized_schema)
  | PList l =>
      '(e, l') ← check_endpoints 0 l;
      Ok (e, PList l')
  | _ => Ok (["normalized_schema must be a list"], normalized_schema)
  end.

(** Step 3 of the gate, on [test_cases]. *)
Definition check_test_cases_field (test_cases : pyval)
  : result (list string * pyval) :=
  match test_cases with
  | PList [] => Ok (["test_cases cannot be empty"], test_cases)
  | PList l =>
      '(e, l') ← check_test_cases 0 l;
      Ok (e, PList l')
  | _ => Ok (["test_cases must be a list"], test_cases)
  end.

(** Step 4 of the gate: the check for hallucinated endpoints, run only
    when both values are truthy. *)
Definition check_cross_reference (normalized_schema test_cases : pyval)
  : result (list string) :=
  if truthy normalized_schema && truthy test_cases then
    endpoints ← py_iter normalized_schema;
    schema_endpoints ← collect_schema_endpoints endpoints;
    tests ← py_iter test_cases;
    check_hallucinated schema_endpoints 0 tests
  else Ok [].

(** Step 5 of the gate, on the [errors] field. *)
Definition check_errors_field (errors_field : pyval) : list string :=
  match errors_field with
  | PList _ => []
  | _ => ["errors field must be a list"]
  end.

Definition missing_required (agent_output : pydict) : list string :=
  missing_fields agent_output required_fields
    (fun field => "Missing required field: " ++ field).

Definition invalid_status (status : pyval) : string :=
  "Invalid status: " ++ str status ++ ". Expected 'ok'".

(** [ValidationService.validate_agent1_output].  [base_url] is a parameter
    of the function that its body does not read. *)
Definition validate_agent1_output (agent_output : pydict) (base_url : string)
  : result (bool * list string) :=
  (* 1. Check required fields exist *)
  let errors := missing_required agent_output in
  let status := dict_get_default agent_output "status" PNone in
  (* If status is reject, we don't need further validation *)
  if eq_str status "reject" then
    Ok (false, match errors with [] => ["Schema rejected by AI"] | _ => errors end)
  else
    (* Must have status = "ok" *)
    let errors :=
      app errors (if eq_str status "ok" then [] else [invalid_status status]) in
    (* 2. Validate normalized_schema structure *)
    '(e2, normalized_schema) ←
      check_normalized_schema
        (dict_get_default agent_output "normalized_schema" (PList []));
    let errors := (errors ++ e2)%list in
    (* 3. Validate test cases *)
    '(e3, test_cases) ←
      check_test_cases_field
        (dict_get_default agent_output "test_cases" (PList []));
    let errors := (errors ++ e3)%list in
    (* 4. Check for hallucinated endpoints *)
    e4 ← check_cross_reference normalized_schema test_cases;
    let errors := (errors ++ e4)%list in
    (* 5. Validate errors field *)
    let errors :=
      (errors ++ check_errors_field
                   (dict_get_default agent_output "errors" (PList [])))%list in
    Ok (match errors with [] => true | _ => false end, errors).

(** An element of [normalized_schema] or of [test_cases] as the data model
    has it: an object whose [endpoint] and [method], where it has them, are
    strings. *)
Definition is_object (v : pyval) : bool :=
  match v with
  | PDict d =>
      match dict_get d "endpoint" with
      | Some (PStr _) | None => true
      | Some _ => false
      end
      && match dict_get d "method" with
         | Some (PStr _) | None => true
         | Some _ => false
         end
  | _ => false
  end.

(** The endpoint such an element names, if it names one. *)
Definition endpoint_of (v : pyval) : option string :=
  match v with
  | PDict d =>
      match dict_get d "endpoint" with
      | Some (PStr s) => Some s
      | _ => None
      end
  | _ => None
  end.

(** Two elements that name the same endpoint, the second a well-typed
    object. *)
Definition same_endpoint (a b : pyval) : Prop :=
  is_object b = true /\ endpoint_of b = endpoint_of a.

Definition hallucination_error (idx : nat) (test_endpoint : string) : string :=
  "Test case " ++ PyStr.of_nat idx ++ " references non-existent endpoint: "
    ++ test_endpoint.

(** The pattern of the source: [^https?://], then [[a-zA-Z0-9.-]+], then
    an optional [:\d+], then an optional [/] followed by any run of [.],
    then [$]. *)
Definition host_char (c : ascii) : bool :=
  PyStr.is_lower c || PyStr.is_upper c || PyStr.is_digit c
  || Ascii.eqb c "." || Ascii.eqb c "-".

Definition base_url_pattern : Re.regex :=
  Re.Cat (Re.lit "http")
    (Re.Cat (Re.opt (Re.char "s"))
       (Re.Cat (Re.lit "://")
          (Re.Cat (Re.plus (Re.Chr host_char))
             (Re.Cat (Re.opt (Re.Cat (Re.char ":") (Re.plus Re.digit)))
                (Re.Cat (Re.opt (Re.Cat (Re.char "/") (Re.Star Re.dot)))
                   Re.dollar))))).

(** The form [scheme://host[:port][/path]] with scheme http or https, as
    the pattern reads it: the host is a run of letters, digits, dots and
    hyphens, the port a run of digits, the path holds no newline, and one
    newline may end the text. *)
Definition url_shape (u : string) : Prop :=
  exists scheme host port path nl,
    u = scheme ++ "://" ++ host ++ port ++ path ++ nl
    /\ (scheme = "http" \/ scheme = "https")
    /\ host <> EmptyString /\ PyStr.all_chars host_char host = true
    /\ (port = EmptyString
        \/ exists digits, port = ":" ++ digits /\ digits <> EmptyString
                          /\ PyStr.all_chars PyStr.is_digit digits = true)
    /\ (path = EmptyString
        \/ exists rest, path = "/" ++ rest
                        /\ PyStr.all_chars (fun c => negb (Re.is_newline c)) rest = true)
    /\ (nl = EmptyString \/ nl = String (ascii_of_nat 10) EmptyString).

(** [ValidationService.validate_base_url], on a [str] argument.
    [re.match] anchors the pattern at the start of the text, and the [$]
    that ends the pattern makes the match run to its end. *)
Definition validate_base_url (base_url : string) : bool :=
  if String.eqb base_url EmptyString then false
  else
    let base_url := PyStr.rstrip "/" base_url in
    Re.fullmatch base_url_pattern base_url.

(** [ValidationService.calculate_schema_hash] *)
Definition calculate_schema_hash (schema_content : pydict) (base_url : string)
  : string :=
  let sorted_schema := Json.dumps None true (PDict schema_content) in
  let content_str := sorted_schema ++ base_url in
  Sha256.hexdigest content_str.

End ValidationService.

(* ================================================================== *)
(** * services/agent2_service.py *)
(* ================================================================== *)

Module Agent2Service.
Import Py.

(** [RiskLevel] is a [str] enum. *)
Definition RiskLevel_MEDIUM : pyval := PStr "medium".
Definition RiskLevel_HIGH : pyval := PStr "high".

(** A row of the table of failures ([models.TestFailure]); a column that
    holds NULL reads as [PNone]. *)
Record TestFailure : Type := {
  run_id : Z;
  endpoint : pyval;
  test_type : pyval;
  request_payload : pyval;
  response_snippet : string;
  status_code : pyval;
  failure_reason : pyval;
  root_cause : pyval;
  risk_level : pyval;
  fix_suggestion : pyval
}.

(** A row of the table of runs ([models.TestRun]), keyed by its run id. *)
Record TestRun : Type := {
  user_id : Z;
  agent2_called : bool
}.

(** What the external model answers to one prompt: a text that parses as
    JSON, a text that does not, or an exception. *)
Inductive llm_reply : Type :=
| ReplyJson (v : pyval)
| ReplyNotJson
| ReplyError.

(** The external model.  Its answer may differ from one call to the next,
    so it is a function of the number of calls made before as well as of
    the failure submitted. *)
Definition llm : Type := nat -> pydict -> llm_reply.

(** The store and the record of the calls made to the external model. *)
Record world : Type := {
  runs : gmap Z TestRun;
  failures : list TestFailure;
  calls : list pydict
}.

(** How the user's key comes out of [security.decrypt_api_key] and
    [Agent2Service.__init__]. *)
Inductive key_setup : Type :=
| DecryptFails
| KeyInvalid
| KeyValid.

Definition analysis_of (root risk suggestion : pyval) : pydict :=
  [("root_cause", root); ("risk_level", risk); ("fix_suggestion", suggestion)].

(** [Agent2Service.analyze_failure]: the analysis, and the calls made. *)
Definition analyze_failure (valid_key : bool) (model : llm)
  (log : list pydict) (failure_data : pydict) : pydict * list pydict :=
  if negb valid_key then
    (analysis_of (PStr "Gemini API key invalid") RiskLevel_HIGH
       (PStr "Check your Gemini API key configuration"), log)
  else
    let reply := model (length log) failure_data in
    let log := (log ++ [failure_data])%list in
    let system_error :=
      analysis_of (PStr "Analysis failed due to system error") RiskLevel_MEDIUM
        (PStr "Retry analysis or check system logs") in
    (match reply with
     | ReplyJson (PDict result) =>
         (* risk = result.get('risk_level', '').lower() *)
         match dict_get_default result "risk_level" (PStr EmptyString) with
         | PStr risk =>
             if existsb (String.eqb (PyStr.lower risk))
                  ["low"; "medium"; "high"; "critical"]
             then result
             else dict_set result "risk_level" RiskLevel_MEDIUM
         | _ => system_error
         end
     | ReplyJson _ => system_error
     | ReplyNotJson =>
         analysis_of (PStr "Failed to analyze failure") RiskLevel_MEDIUM
           (PStr "Check the API logs for more details")
     | ReplyError => system_error
     end, log).

(** [Agent2Service.analyze_failures_batch] *)
Fixpoint analyze_failures_batch (valid_key : bool) (model : llm)
  (log : list pydict) (failures_data : list pydict)
  : list pydict * list pydict :=
  match failures_data with
  | [] => ([], log)
  | failure :: rest =>
      let '(analysis, log) := analyze_failure valid_key model log failure in
      let analysis :=
        dict_set (dict_set (dict_set analysis
          "endpoint" (dict_get_default failure "endpoint" PNone))
          "test_type" (dict_get_default failure "test_type" PNone))
          "status_code" (dict_get_default failure "status_code" PNone) in
      let '(results, log) := analyze_failures_batch valid_key model log rest in
      (analysis :: results, log)
  end.

Definition failure_data_of (failure : TestFailure) : pydict :=
  [("endpoint", endpoint failure);
   ("test_type", test_type failure);
   ("payload", request_payload failure);
   ("response_snippet", PStr (response_snippet failure));
   ("status_code", status_code failure);
   ("failure_reason", failure_reason failure)].

Definition is_none (v : pyval) : bool :=
  match v with PNone => true | _ => false end.

(** The filter of the query: the failures of the run not analysed yet. *)
Definition unanalyzed (rid : Z) (f : TestFailure) : bool :=
  (run_id f =? rid) && is_none (root_cause f).

Definition with_analysis (f : TestFailure) (analysis : pydict) : TestFailure :=
  {| run_id := run_id f; endpoint := endpoint f; test_type := test_type f;
     request_payload := request_payload f;
     response_snippet := response_snippet f;
     status_code := status_code f; failure_reason := failure_reason f;
     root_cause := dict_get_default analysis "root_cause" (PStr EmptyString);
     risk_level := dict_get_default analysis "risk_level" RiskLevel_MEDIUM;
     fix_suggestion := dict_get_default analysis "fix_suggestion" (PStr EmptyString) |}.

(** The loop that writes the analyses into the rows the query returned:
    the i-th analysis goes to the i-th row selected. *)
Fixpoint store_analyses (rid : Z) (fs : list TestFailure)
  (analyses : list pydict) : list TestFailure :=
  match fs with
  | [] => []
  | f :: rest =>
      if unanalyzed rid f then
        match analyses with
        | a :: analyses' => with_analysis f a :: store_analyses rid rest analyses'
        | [] => f :: rest
        end
      else f :: store_analyses rid rest analyses
  end.

(** What [analyze_failures_with_agent2] returns. *)
Record batch_result : Type := {
  analyzed_count : nat;
  analyses : option (list pydict)
}.

(** [analyze_failures_with_agent2]; [None] is the exception it re-raises. *)
Definition analyze_failures_with_agent2 (rid : Z) (key : key_setup)
  (model : llm) (w : world) : option batch_result * world :=
  match key with
  | DecryptFails => (None, w)
  | _ =>
      let valid_key := match key with KeyValid => true | _ => false end in
      let selected := List.filter (unanalyzed rid) (failures w) in
      match selected with
      | [] => (Some {| analyzed_count := 0; analyses := None |}, w)
      | _ =>
          let failures_data := map failure_data_of selected in
          let '(results, log) :=
            analyze_failures_batch valid_key model (calls w) failures_data in
          let fs := store_analyses rid (failures w) results in
          let rs :=
            match runs w !! rid with
            | Some test_run =>
                <[rid := {| user_id := user_id test_run; agent2_called := true |}]>
                  (runs w)
            | None => runs w
            end in
          (Some {| analyzed_count := length results; analyses := Some results |},
           {| runs := rs; failures := fs; calls := log |})
      end
  end.

End Agent2Service.

(* ================================================================== *)
(** * routers/schema_routes.py: the analyze-failures route *)
(* ================================================================== *)

Module SchemaRoutes.
Import Py Agent2Service.

Inductive response : Type :=
| NotFound                                          (* HTTP 404 *)
| NoFailures                                        (* "No failures to analyze" *)
| Cached (analyses : list pydict)                   (* "Using cached analysis" *)
| Analyzed (result : batch_result)                  (* "Failures analyzed successfully" *)
| ServerError.                                      (* HTTP 500 *)

(** An entry of the cached answer, read from a stored row. *)
Definition cached_entry (failure : TestFailure) : pydict :=
  [("endpoint", endpoint failure);
   ("test_type", test_type failure);
   ("root_cause", root_cause failure);
   ("risk_level", risk_level failure);
   ("fix_suggestion", fix_suggestion failure)].

(** The five fields of an analysis that the store keeps, as the cached
    answer gives them: an analysis that lacks a root cause or a fix
    suggestion is stored with the empty string, one that lacks a risk level
    with "medium". *)
Definition stored_view (analysis : pydict) : pydict :=
  [("endpoint", dict_get_default analysis "endpoint" PNone);
   ("test_type", dict_get_default analysis "test_type" PNone);
   ("root_cause", dict_get_default analysis "root_cause" (PStr EmptyString));
   ("risk_level", dict_get_default analysis "risk_level" RiskLevel_MEDIUM);
   ("fix_suggestion", dict_get_default analysis "fix_suggestion" (PStr EmptyString))].

(** An analysis made for a failure carries its endpoint and test type. *)
Definition analysis_for (f : TestFailure) (analysis : pydict) : Prop :=
  dict_get analysis "endpoint" = Some (endpoint f)
  /\ dict_get analysis "test_type" = Some (test_type f).

Definition of_run (rid : Z) (f : TestFailure) : bool := run_id f =? rid.

(** The route [analyze_failures]. *)
Definition analyze_failures (rid : Z) (uid : Z) (key : key_setup)
  (model : llm) (w : world) : response * world :=
  match runs w !! rid with
  | Some test_run =>
      if negb (user_id test_run =? uid) then (NotFound, w)
      else
        let failure_count := length (List.filter (of_run rid) (failures w)) in
        if (failure_count =? 0)%nat then (NoFailures, w)
        else if agent2_called test_run then
          (Cached (map cached_entry (List.filter (of_run rid) (failures w))), w)
        else
          match analyze_failures_with_agent2 rid key model w with
          | (Some result, w') => (Analyzed result, w')
          | (None, w') => (ServerError, w')
          end
  | None => (NotFound, w)
  end.

End SchemaRoutes.

(* ================================================================== *)
(** * What the gate lets through *)
(* ================================================================== *)

Module GateSpec.
Import Py ValidationService.

(** A method the gate takes: a string that is an HTTP method once put in
    upper case. *)
Definition valid_method (v : pyval) : bool :=
  match v with
  | PStr m => existsb (String.eqb (PyStr.upper m)) HTTPMethod_values
  | _ => false
  end.

(** Does this method, in whatever case, ask for a request body? *)
Definition needs_body (v : pyval) : bool :=
  match v with
  | PStr m => existsb (String.eqb (PyStr.upper m)) ["POST"; "PUT"; "PATCH"]
  | _ => false
  end.

(** An element of [normalized_schema] on which the loop of step 2 appends
    no error: an object with a path that starts with a slash, a valid
    method, and a [request_body] when the method is POST, PUT or PATCH. *)
Definition well_formed_endpoint (v : pyval) : bool :=
  match v with
  | PDict d =>
      match dict_get d "endpoint" with
      | Some (PStr path) => PyStr.startswith path "/"
      | _ => false
      end
      && match dict_get d "method" with
         | Some m =>
             valid_method m && (negb (needs_body m) || dict_has d "request_body")
         | None => false
         end
  | _ => false
  end.

(** The element after the loop has put its method in upper case. *)
Definition normalize_method (v : pyval) : pyval :=
  match v with
  | PDict d =>
      match dict_get d "method" with
      | Some (PStr m) => PDict (dict_set d "method" (PStr (PyStr.upper m)))
      | _ => v
      end
  | _ => v
  end.

(** The value step 4 puts in the set for an element. *)
Definition endpoint_value (v : pyval) : pyval :=
  match v with
  | PDict d => dict_get_default d "endpoint" PNone
  | _ => PNone
  end.

(** A test case on which step 3 appends no error and raises nothing: an
    object with the four required fields, a known test type and a valid
    method. *)
Definition well_formed_fields (v : pyval) : bool :=
  match v with
  | PDict d =>
      forallb (dict_has d) required_test_fields
      && in_strs (dict_get_default d "test_type" PNone) valid_test_types
      && valid_method (dict_get_default d "method" PNone)
  | _ => false
  end.

(** A test case on which step 4 appends no error and raises nothing: its
    endpoint is falsy, or hashable and in the set. *)
Definition names_listed_endpoint (schema_endpoints : list pyval) (v : pyval)
  : bool :=
  match v with
  | PDict d =>
      let e := dict_get_default d "endpoint" (PStr EmptyString) in
      negb (truthy e) || (hashable e && existsb (eq_hashable e) schema_endpoints)
  | _ => false
  end.

Definition well_formed_test (schema_endpoints : list pyval) (v : pyval) : bool :=
  well_formed_fields v && names_listed_endpoint schema_endpoints v.

Definition is_list (v : pyval) : bool :=
  match v with PList _ => true | _ => false end.

(** A plan the gate accepts. *)
Definition well_formed_plan (agent_output : pydict) : bool :=
  eq_str (dict_get_default agent_output "status" PNone) "ok"
  && match dict_get agent_output "errors" with
     | Some v => is_list v
     | None => false
     end
  && match dict_get agent_output "normalized_schema",
           dict_get agent_output "test_cases" with
     | Some (PList (e :: es)), Some (PList (t :: ts)) =>
         forallb well_formed_endpoint (e :: es)
         && forallb (well_formed_test (map endpoint_value (e :: es))) (t :: ts)
     | _, _ => false
     end.

End GateSpec.

(* ================================================================== *)
(** * services/test_executor.py: the suite *)
(* ================================================================== *)

Module TestSuite.
Import Py TestExecutor StabilityScore.

(** [TestExecutor.__init__] keeps [base_url.rstrip('/')]. *)
Definition executor_base_url (base_url : string) : string :=
  PyStr.rstrip "/" base_url.

(** The URL [execute_test_case] requests: [f"{self.base_url}{endpoint}"]
    with [endpoint = test_case.get('endpoint', '')]. *)
Definition request_url (self_base_url : string) (test_case : pydict) : string :=
  self_base_url ++ str (dict_get_default test_case "endpoint" (PStr EmptyString)).

(** [safe_headers[key] = value] on a plain dict of strings: a key that is
    there keeps its place, a new one goes last. *)
Fixpoint header_set (d : list (string * string)) (key value : string)
  : list (string * string) :=
  match d with
  | [] => [(key, value)]
  | (k, w) :: rest =>
      if String.eqb k key then (k, value) :: rest
      else (k, w) :: header_set rest key value
  end.

Fixpoint header_get (d : list (string * string)) (key : string) : option string :=
  match d with
  | [] => None
  | (k, w) :: rest => if String.eqb k key then Some w else header_get rest key
  end.

Definition is_safe_header (key : string) : bool :=
  existsb (String.eqb (PyStr.lower key)) safe_header_names.

(** The loop of [_get_safe_headers] over [headers.items()], in which a name
    may come more than once: the dict it fills keeps the last value. *)
Definition _get_safe_headers_loop (items : list (string * string))
  : list (string * string) :=
  fold_left (fun safe_headers kv =>
               if is_safe_header (fst kv)
               then header_set safe_headers (fst kv) (snd kv)
               else safe_headers)
            items [].

(** The last value a name has among the items. *)
Fixpoint last_value (items : list (string * string)) (key : string)
  : option string :=
  match items with
  | [] => None
  | (k, w) :: rest =>
      match last_value rest key with
      | Some x => Some x
      | None => if String.eqb k key then Some w else None
      end
  end.

(** What a task handed to [asyncio.gather] ends in: the value
    [execute_test_case] returns for the way its request ended, or an
    exception, raised before or after the task had prepared its request. *)
Inductive task : Type :=
| Returned (a : attempt)
| Raised (message : string) (prepared : bool).

(** The entry [_execute_concurrently] writes for a task that raised; it
    carries [test_cases[i]] as the task has left it. *)
Definition task_failed (tc : pydict) (message : string) (prepared : bool)
  : ExecutionResult :=
  {| test_case := if prepared then with_default_headers tc else tc;
     status_code := None; response_body := EmptyString;
     headers := []; result := ERROR;
     failure_reason := Some ("Task execution failed: " ++ message) |}.

Section Suite.
Variable json_loads : string -> option pyval.
Variable recursion_limit : nat.
(** How the task started for the i-th test case ends. *)
Variable target : nat -> pydict -> task.

(** [_execute_concurrently], from index [i] on: [gather] gives the results
    in the order of the tasks. *)
Fixpoint execute_from (i : nat) (test_cases : list pydict)
  : list ExecutionResult :=
  match test_cases with
  | [] => []
  | tc :: rest =>
      match target i tc with
      | Returned a => execute_test_case json_loads recursion_limit tc a
      | Raised message prepared => task_failed tc message prepared
      end :: execute_from (S i) rest
  end.

Definition _execute_concurrently (test_cases : list pydict)
  : list ExecutionResult :=
  execute_from 0 test_cases.

(** [execute_test_suite]: with or without a session of its own, it runs
    [_execute_concurrently]. *)
Definition execute_test_suite (test_cases : list pydict) : list ExecutionResult :=
  _execute_concurrently test_cases.
End Suite.

(** A row of the table of schemas ([models.APISchema]). *)
Record APISchema : Type := {
  schema_id : Z;
  owner_id : Z;
  base_url : string;
  original_filename : string;
  schema_hash : string;
  normalized_schema : option (list pydict);
  test_cases : option (list pydict)
}.

(** The tables: the schemas, and the runs and failures with the record of
    the calls made to the Analyzer. *)
Record store : Type := {
  schemas : list APISchema;
  db : Agent2Service.world
}.

(** [db.query(models.APISchema).filter(schema_id == ..., user_id == ...).first()] *)
Definition find_schema (sid uid : Z) (l : list APISchema) : option APISchema :=
  List.find (fun s => (schema_id s =? sid) && (owner_id s =? uid)) l.

(** [x or "Unknown failure"] on an optional string *)
Definition reason_or_unknown (reason : option string) : string :=
  match reason with
  | Some s => if String.eqb s EmptyString then "Unknown failure" else s
  | None => "Unknown failure"
  end.

(** The row [run_test_suite] stores for a result that did not pass.  The
    columns [http_method] and [response_time_ms] are not part of
    [TestFailure]. *)
Definition failure_row (rid : Z) (r : ExecutionResult) : Agent2Service.TestFailure :=
  {| Agent2Service.run_id := rid;
     Agent2Service.endpoint :=
       dict_get_default (test_case r) "endpoint" (PStr EmptyString);
     Agent2Service.test_type :=
       dict_get_default (test_case r) "test_type" (PStr "unknown");
     Agent2Service.request_payload :=
       dict_get_default (test_case r) "payload" PNone;
     Agent2Service.response_snippet := response_body r;
     Agent2Service.status_code :=
       match status_code r with Some z => PInt z | None => PNone end;
     Agent2Service.failure_reason := PStr (reason_or_unknown (failure_reason r));
     Agent2Service.root_cause := PNone;
     Agent2Service.risk_level := PNone;
     Agent2Service.fix_suggestion := PNone |}.

Definition is_passed (r : ExecutionResult) : bool :=
  match result r with PASSED => true | _ => false end.

Definition is_failed (r : ExecutionResult) : bool :=
  match result r with FAILED => true | _ => false end.

Definition is_error (r : ExecutionResult) : bool :=
  match result r with ERROR | TIMEOUT => true | _ => false end.

(** The variables of the loop over the results. *)
Record tallies : Type := {
  passed : Z;
  failed : Z;
  errors : Z;
  to_analyze : list ExecutionResult;
  rows : list Agent2Service.TestFailure
}.

(** One iteration of [for result in results]. *)
Definition process_result (rid : Z) (t : tallies) (r : ExecutionResult) : tallies :=
  let t :=
    match result r with
    | PASSED =>
        {| passed := passed t + 1; failed := failed t; errors := errors t;
           to_analyze := to_analyze t; rows := rows t |}
    | FAILED =>
        {| passed := passed t; failed := failed t + 1; errors := errors t;
           to_analyze := (to_analyze t ++ [r])%list; rows := rows t |}
    | _ =>
        {| passed := passed t; failed := failed t; errors := errors t + 1;
           to_analyze := to_analyze t; rows := rows t |}
    end in
  match result r with
  | FAILED | ERROR | TIMEOUT =>
      {| passed := passed t; failed := failed t; errors := errors t;
         to_analyze := to_analyze t;
         rows := (rows t ++ [failure_row rid r])%list |}
  | PASSED => t
  end.

Definition process_results (rid : Z) (results : list ExecutionResult) : tallies :=
  fold_left (process_result rid) results
    {| passed := 0; failed := 0; errors := 0; to_analyze := []; rows := [] |}.

(** The dict [run_test_suite] returns. *)
Record suite_result : Type := {
  run_id : Z;
  total_tests : nat;
  counts : tallies;
  test_results : TestResults
}.

Inductive suite_outcome : Type :=
| SchemaNotFound                 (* ValueError *)
| NoTestCaseList                 (* TypeError: len(None) *)
| Ran (r : suite_result).

Section Run.
Variable json_loads : string -> option pyval.
Variable recursion_limit : nat.
Variable target : nat -> pydict -> task.

(** [run_test_suite]; [rid] is the id the database gives the new run.  The
    new run has its analysis flag unset and the new rows have no root
    cause, risk level or fix suggestion: the constructors set none of
    them. *)
Definition run_test_suite (sid uid rid : Z) (st : store)
  : suite_outcome * store :=
  match find_schema sid uid (schemas st) with
  | None => (SchemaNotFound, st)
  | Some schema =>
      match test_cases schema with
      | None => (NoTestCaseList, st)
      | Some tcs =>
          let results :=
            execute_test_suite json_loads recursion_limit target tcs in
          let t := process_results rid results in
          let w := db st in
          (Ran {| run_id := rid;
                  total_tests := length results;
                  counts := t;
                  test_results :=
                    {| all_results := results;
                       failures_to_analyze := to_analyze t |} |},
           {| schemas := schemas st;
              db := {| Agent2Service.runs :=
                         <[rid := {| Agent2Service.user_id := uid;
                                     Agent2Service.agent2_called := false |}]>
                           (Agent2Service.runs w);
                       Agent2Service.failures :=
                         (Agent2Service.failures w ++ rows t)%list;
                       Agent2Service.calls := Agent2Service.calls w |} |})
      end
  end.

(** What the route [run_tests] answers. *)
Record run_report : Type := {
  report_run_id : Z;
  report_total : nat;
  report_passed : Z;
  report_failed : Z;
  report_errors : Z;
  stability_score : Q;
  has_failures : bool
}.

Inductive run_response : Type :=
| RunNotFound                    (* HTTP 404 *)
| RunNoTestCases                 (* HTTP 400 *)
| RunCompleted (r : run_report)
| RunServerError.                (* HTTP 500 *)

(** The route [run_tests].  The score it also writes to the run is a
    column that [TestRun] does not carry. *)
Definition run_tests (sid uid rid : Z) (st : store) : run_response * store :=
  match find_schema sid uid (schemas st) with
  | None => (RunNotFound, st)
  | Some schema =>
      match test_cases schema with
      | None | Some [] => (RunNoTestCases, st)
      | Some _ =>
          match run_test_suite sid uid rid st with
          | (Ran results, st') =>
              let score := calculate_stability_score (test_results results) in
              (RunCompleted
                 {| report_run_id := run_id results;
                    report_total := total_tests results;
                    report_passed := passed (counts results);
                    report_failed := failed (counts results);
                    report_errors := errors (counts results);
                    stability_score := score;
                    has_failures := (0 <? failed (counts results))
                                    || (0 <? errors (counts results)) |},
               st')
          | (_, st') => (RunServerError, st')
          end
      end
  end.
End Run.

End TestSuite.

(* ================================================================== *)
(** * routers/schema_routes.py: the final report *)
(* ================================================================== *)

Module FinalReport.
Import Py.

(** The step of [get_final_report] that grades the run: the value of
    [overall_health] and the recommendation added with it, [None] when
    the run has no stability score. *)
Definition grade (stability_score : option Q) : option (string * string) :=
  match stability_score with
  | Some score =>
      Some (if Qle_bool 90 score then
              ("EXCELLENT",
               "API is very stable. Consider adding more edge case tests.")
            else if Qle_bool 70 score then
              ("GOOD",
               "API is generally stable. Address the critical issues first.")
            else if Qle_bool 50 score then
              ("FAIR", "API needs improvement. Focus on high-risk failures.")
            else
              ("POOR",
               "API is unstable. Immediate action required on critical issues."))
  | None => None
  end.

Definition overall_health (stability_score : option Q) : option string :=
  option_map fst (grade stability_score).

End FinalReport.

(* ================================================================== *)
(** * What an analysis may write *)
(* ================================================================== *)

Module AnalysisSpec.
Import Py Agent2Service.

(** A risk level of the enum [RiskLevel], up to letter case. *)
Definition known_risk (v : pyval) : bool :=
  match v with
  | PStr risk =>
      existsb (String.eqb (PyStr.lower risk)) ["low"; "medium"; "high"; "critical"]
  | _ => false
  end.

(** Two rows that agree on every column but the three of the analysis. *)
Definition same_row_data (f f' : TestFailure) : Prop :=
  run_id f' = run_id f /\ endpoint f' = endpoint f /\ test_type f' = test_type f
  /\ request_payload f' = request_payload f
  /\ response_snippet f' = response_snippet f
  /\ status_code f' = status_code f /\ failure_reason f' = failure_reason f.

(** An entry of an answer that reports the key as not valid. *)
Definition reports_invalid_key (entry : pydict) : Prop :=
  dict_get entry "root_cause" = Some (PStr "Gemini API key invalid")
  /\ dict_get entry "risk_level" = Some RiskLevel_HIGH
  /\ dict_get entry "fix_suggestion"
     = Some (PStr "Check your Gemini API key configuration").

End AnalysisSpec.

(* ================================================================== *)
(** * routers/schema_routes.py: the upload route *)
(* ================================================================== *)

Module PyText.

(** [c.isspace()] on ASCII: tab to carriage return, the four separators
    and the space. *)
Definition is_space (c : ascii) : bool :=
  let n := nat_of_ascii c in
  (((9 <=? n) && (n <=? 13)) || ((28 <=? n) && (n <=? 32)))%nat.

(** [s.lstrip()] *)
Fixpoint lstrip (s : string) : string :=
  match s with
  | EmptyString => EmptyString
  | String c s' => if is_space c then lstrip s' else s
  end.

(** [s.rstrip()] *)
Fixpoint rstrip (s : string) : string :=
  match s with
  | EmptyString => EmptyString
  | String c s' =>
      match rstrip s' with
      | EmptyString => if is_space c then EmptyString else String c EmptyString
      | r => String c r
      end
  end.

(** [s.strip()] *)
Definition strip (s : string) : string := rstrip (lstrip s).

(** [s[n:]] *)
Fixpoint drop (n : nat) (s : string) : string :=
  match n, s with
  | O, _ => s
  | S n', String _ s' => drop n' s'
  | S _, EmptyString => EmptyString
  end.

(** [s.endswith(suffix)] *)
Definition endswith (s suffix : string) : bool :=
  (String.length suffix <=? String.length s)%nat
  && String.eqb (drop (String.length s - String.length suffix) s) suffix.

(** [s[:-n]] for [n] > 0 *)
Definition drop_last (n : nat) (s : string) : string :=
  String.substring 0 (String.length s - n) s.

(** [s.split(sep)] for a one-character separator *)
Fixpoint split (sep : ascii) (s : string) : list string :=
  match s with
  | EmptyString => [EmptyString]
  | String c s' =>
      if Ascii.eqb c sep then EmptyString :: split sep s'
      else match split sep s' with
           | x :: xs => String c x :: xs
           | [] => [String c EmptyString]
           end
  end.

End PyText.

Module Upload.
Import Py ValidationService.

(** [schemas.Agent1Output]: what the Planner hands over. *)
Record Agent1Output : Type := {
  status : string;
  normalized_schema : option (list pydict);
  test_cases : option (list pydict);
  errors : option (list string)
}.

Definition optional_list {A : Type} (f : A -> pyval) (o : option (list A)) : pyval :=
  match o with
  | Some l => PList (map f l)
  | None => PNone
  end.

(** [agent1_result.dict()] *)
Definition to_dict (o : Agent1Output) : pydict :=
  [("status", PStr (status o));
   ("normalized_schema", optional_list PDict (normalized_schema o));
   ("test_cases", optional_list PDict (test_cases o));
   ("errors", optional_list PStr (errors o))].

(** What the route answers: the status, with the detail of a refusal or
    the id of the schema; the other fields of the body repeat the request. *)
Inductive response : Type :=
| BadRequest (detail : string)                   (* HTTP 400 *)
| ValidationFailed (all_errors : list string)    (* HTTP 400, "Schema validation failed" *)
| InternalError                                   (* HTTP 500 *)
| AlreadyCached (schema_id : Z)                   (* status "cached" *)
| Processed (schema_id : Z).                      (* status "processed" *)

(** The table of schemas and the record of the calls made to the Planner. *)
Record state : Type := {
  schemas : list TestSuite.APISchema;
  planner_calls : list (pydict * string)
}.

Section Route.
(** [json.loads] and [yaml.safe_load]; [None] stands for the decoding
    error, whose text [decode_error] gives. *)
Variable json_loads : string -> option pyval.
Variable yaml_safe_load : string -> option pyval.
Variable decode_error : string -> string.
(** [process_schema_with_agent1], which always returns an [Agent1Output];
    what it returns may differ from one call to the next. *)
Variable planner : nat -> pydict -> string -> Agent1Output.

(** [validate_schema_file_content]: the parsed schema, or the text of the
    [ValueError] it raises. *)
Definition validate_schema_file_content (content filename : string)
  : string + pydict :=
  let name := PyStr.lower filename in
  let parsed :=
    if PyText.endswith name ".json" then
      match json_loads content with
      | Some v => inr v
      | None => inl ("Invalid JSON: " ++ decode_error content)
      end
    else if PyText.endswith name ".yaml" || PyText.endswith name ".yml" then
      match yaml_safe_load content with
      | Some v => inr v
      | None => inl ("Invalid YAML: " ++ decode_error content)
      end
    else
      inl ("Error parsing schema: "
             ++ "Unsupported file format. Use .json, .yaml, or .yml") in
  match parsed with
  | inl message => inl message
  | inr (PDict schema) => inr schema
  | inr _ => inl ("Error parsing schema: " ++ "Schema must be a JSON object")
  end.

(** The row with this hash that the user owns, if there is one. *)
Definition find_cached (schema_hash : string) (uid : Z)
  (l : list TestSuite.APISchema) : option TestSuite.APISchema :=
  List.find (fun s => String.eqb (TestSuite.schema_hash s) schema_hash
                      && (TestSuite.owner_id s =? uid)) l.

Definition or_empty {A : Type} (o : option (list A)) : list A :=
  match o with Some l => l | None => [] end.

(** The route [upload_schema]; [new_id] is the id the database gives a
    new row.  An [HTTPException] raised within the first [try] is caught
    by its [except Exception], so that an empty schema is answered with
    status 500. *)
Definition upload_schema (base_url filename content : string)
  (uid new_id : Z) (st : state) : response * state :=
  if String.eqb base_url EmptyString
     || String.eqb (PyText.strip base_url) EmptyString then
    (BadRequest "Base URL is required", st)
  else if String.eqb filename EmptyString then
    (BadRequest "Schema file is required", st)
  else if negb (PyStr.startswith base_url "http://"
                || PyStr.startswith base_url "https://") then
    (BadRequest "Base URL must start with http:// or https://", st)
  else
    match validate_schema_file_content content filename with
    | inl message => (BadRequest ("Invalid schema file: " ++ message), st)
    | inr [] => (InternalError, st)
    | inr parsed_schema =>
        let schema_hash := calculate_schema_hash parsed_schema base_url in
        match find_cached schema_hash uid (schemas st) with
        | Some existing_schema =>
            (AlreadyCached (TestSuite.schema_id existing_schema), st)
        | None =>
            let agent1_result :=
              planner (length (planner_calls st)) parsed_schema base_url in
            let st :=
              {| schemas := schemas st;
                 planner_calls :=
                   (planner_calls st ++ [(parsed_schema, base_url)])%list |} in
            match validate_agent1_output (to_dict agent1_result) base_url with
            | Raise _ => (InternalError, st)
            | Ok (is_valid, validation_errors) =>
                if String.eqb (status agent1_result) "reject" || negb is_valid then
                  (ValidationFailed
                     (or_empty (errors agent1_result) ++ validation_errors)%list,
                   st)
                else
                  let new_schema :=
                    {| TestSuite.schema_id := new_id;
                       TestSuite.owner_id := uid;
                       TestSuite.base_url := base_url;
                       TestSuite.original_filename := filename;
                       TestSuite.schema_hash := schema_hash;
                       TestSuite.normalized_schema :=
                         normalized_schema agent1_result;
                       TestSuite.test_cases := test_cases agent1_result |} in
                  (Processed new_id,
                   {| schemas := (schemas st ++ [new_schema])%list;
                      planner_calls := planner_calls st |})
            end
        end
    end.
End Route.

End Upload.

(* ================================================================== *)
(** * core/security.py and routers/auth_routes.py *)
(* ================================================================== *)

Module Security.
Import Py.

(** A row of the table of users ([models.User]). *)
Record User : Type := {
  user_id : Z;
  full_name : string;
  email : string;
  password_hash : string;
  gemini_api_key : string
}.

Inductive auth_failure : Type :=
| CredentialsError     (* 401 "Could not validate credentials" *)
| HeaderFormatError    (* 401 "Invalid authorization header format. Use: Bearer <token>" *)
| IndexError.          (* [token.split(" ")[1]] out of range *)

Section CurrentUser.
(** [verify_access_token], reduced to the user id the token carries;
    [None] stands for the credentials exception it raises. *)
Variable verify_access_token : string -> option Z.

(** [get_current_user]; the header is [None] when the request has none. *)
Definition get_current_user (token : option string) (users : list User)
  : auth_failure + User :=
  match token with
  | None => inl CredentialsError
  | Some token =>
      if String.eqb token EmptyString then inl CredentialsError
      else if negb (PyStr.startswith token "Bearer ") then inl HeaderFormatError
      else
        match nth_error (PyText.split " " token) 1 with
        | None => inl IndexError
        | Some token =>
            match verify_access_token token with
            | None => inl CredentialsError
            | Some uid =>
                match List.find (fun u => user_id u =? uid) users with
                | Some user => inr user
                | None => inl CredentialsError
                end
            end
        end
  end.
End CurrentUser.

End Security.

Module AuthRoutes.
Import Py Security.

Inductive signup_response : Type :=
| EmailTaken           (* 400 "User with email ... already exists" *)
| KeyRejected          (* 400 "Gemini API key validation failed. ..." *)
| Created (user : User).

Section Signup.
Variable hash_password : string -> string.
Variable encrypt_api_key : string -> string.
(** [security.validate_gemini_key], which returns [True], [False] or, when
    the list of models is empty, nothing ([None]). *)
Variable validate_gemini_key : string -> option bool.

(** The route [create_user]; [new_id] is the id the database gives the
    new row. *)
Definition create_user (name mail password api_key : string) (new_id : Z)
  (users : list User) : signup_response * list User :=
  match List.find (fun u => String.eqb (email u) mail) users with
  | Some existing_user => (EmailTaken, users)
  | None =>
      let hashed_password := hash_password password in
      match validate_gemini_key api_key with
      | Some true =>
          let new_user :=
            {| user_id := new_id; full_name := name; email := mail;
               password_hash := hashed_password;
               gemini_api_key := encrypt_api_key api_key |} in
          (Created new_user, (users ++ [new_user])%list)
      | _ => (KeyRejected, users)
      end
  end.
End Signup.

End AuthRoutes.

(* ================================================================== *)
(** * The text of a reply, before it is parsed *)
(* ================================================================== *)

Module ReplyText.

(** The steps that [Agent1Service.analyze_schema] and
    [Agent2Service.analyze_failure] apply to [response.text] before
    [json.loads]: strip, drop an opening fence, drop a closing fence,
    strip. *)
Definition clean_response (response_text : string) : string :=
  let response_text := PyText.strip response_text in
  let response_text :=
    if PyStr.startswith response_text "```json" then PyText.drop 7 response_text
    else response_text in
  let response_text :=
    if PyStr.startswith response_text "```" then PyText.drop 3 response_text
    else response_text in
  let response_text :=
    if PyText.endswith response_text "```" then PyText.drop_last 3 response_text
    else response_text in
  PyText.strip response_text.

Definition starts_with_space (s : string) : bool :=
  match s with
  | String c _ => PyText.is_space c
  | EmptyString => false
  end.

Fixpoint ends_with_space (s : string) : bool :=
  match s with
  | EmptyString => false
  | String c EmptyString => PyText.is_space c
  | String _ s' => ends_with_space s'
  end.

(** A text with no white space at either end. *)
Definition trimmed (s : string) : bool :=
  negb (starts_with_space s) && negb (ends_with_space s).

Definition newline : string := String (ascii_of_nat 10) EmptyString.

End ReplyText.

(* ================================================================== *)
(** * Documents with and without sensitive keys *)
(* ================================================================== *)

Module SanitizerSpec.
Import Py TestExecutor.

(** Does the document hold, at any depth, a key with a sensitive name? *)
Fixpoint has_sensitive_key (v : pyval) : bool :=
  match v with
  | PDict d =>
      existsb (fun kv => match kv with
                         | (key, x) => is_sensitive key || has_sensitive_key x
                         end) d
  | PList l => existsb has_sensitive_key l
  | _ => false
  end.

End SanitizerSpec.

(* ================================================================== *)
(** * The library models on known values *)
(* ================================================================== *)

Module LibraryChecks.
Import Py.

Example sha256_abc :
  Sha256.hexdigest "abc"
  = "ba7816bf8f01cfea414140de5dae2223b00361a396177a9cb410ff61f20015ad".
Proof. vm_compute. reflexivity. Qed.

Example sha256_empty :
  Sha256.hexdigest EmptyString
  = "e3b0c44298fc1c149afbf4c8996fb92427ae41e4649b934ca495991b7852b855".
Proof. vm_compute. reflexivity. Qed.

Example sha256_first_constants :
  firstn 2 Sha256.K = [0x428a2f98; 0x71374491] /\ nth 0 Sha256.H0 0 = 0x6a09e667.
Proof. vm_compute. split; reflexivity. Qed.

Example dumps_compact :
  Json.dumps None true (PList [PInt 1; PNone; PBool true; PDict []; PInt (-20)])
  = "[1, null, true, {}, -20]".
Proof. reflexivity. Qed.

Example str_of_list : str (PList [PStr "a"; PInt 3; PNone]) = "['a', 3, None]".
Proof. reflexivity. Qed.

Example rstrip_slashes : PyStr.rstrip "/" "http://host//" = "http://host".
Proof. reflexivity. Qed.

Example base_url_samples :
  map ValidationService.validate_base_url
    ["http://a.b"; "https://a.b:80/x/y/"; "ftp://a"; "http://"; "http://a:";
     "http://a:8/"; "http://a_b"; "http:///"; EmptyString]
  = [true; true; false; false; false; true; false; false; false].
Proof. reflexivity. Qed.

Example contains_is_substring :
  PyStr.contains "key" (PyStr.lower "API_Key_Id") = true
  /\ PyStr.contains "key" "kelly" = false.
Proof. split; reflexivity. Qed.

End LibraryChecks.

(* ================================================================== *)
(** * Facts about Python strings *)
(* ================================================================== *)

Module StrProps.
Import PyStr.

Lemma all_chars_app p s1 s2 :
  all_chars p (s1 ++ s2) = all_chars p s1 && all_chars p s2.
Proof.
  induction s1 as [|a s1 IH]; simpl; [reflexivity|].
  rewrite IH. apply andb_assoc.
Qed.

Lemma has_char_app c s1 s2 :
  has_char c (s1 ++ s2) = has_char c s1 || has_char c s2.
Proof.
  induction s1 as [|a s1 IH]; simpl; [reflexivity|].
  rewrite IH. apply orb_assoc.
Qed.

Lemma all_chars_has_char p c s :
  all_chars p s = true -> p c = false -> has_char c s = false.
Proof.
  intros Hall Hc. induction s as [|a s IH]; simpl in *; [reflexivity|].
  apply andb_prop in Hall as [Ha Hs]. rewrite (IH Hs), orb_false_r.
  destruct (Ascii.eqb_spec a c) as [->|]; congruence.
Qed.

Lemma all_chars_uint d : all_chars is_digit (NilEmpty.string_of_uint d) = true.
Proof. induction d; simpl; auto. Qed.

(** [str] prints an int with digits and at most a sign. *)
Lemma all_chars_of_Z z : all_chars is_int_char (of_Z z) = true.
Proof.
  assert (Hmono : forall s, all_chars is_digit s = true ->
                            all_chars is_int_char s = true).
  { induction s as [|a s IH]; simpl; [reflexivity|].
    intros H. apply andb_prop in H as [Ha Hs].
    unfold is_int_char at 1. rewrite Ha, (IH Hs). reflexivity. }
  assert (Hu : forall d, all_chars is_int_char (NilZero.string_of_uint d) = true).
  { intros d. destruct d; try (apply Hmono, all_chars_uint). reflexivity. }
  unfold of_Z. destruct (Z.to_int z) as [d|d]; simpl.
  - apply Hu.
  - apply Hu.
Qed.

(** A needle whose first character is nowhere in the text is not in it. *)
Lemma contains_head_absent c sub s :
  has_char c s = false -> contains (String c sub) s = false.
Proof.
  induction s as [|a s IH]; simpl; intros H; [reflexivity|].
  apply orb_false_elim in H as [Hac Hs].
  rewrite (IH Hs), orb_false_r.
  destruct (ascii_dec c a) as [->|]; [|reflexivity].
  rewrite Ascii.eqb_refl in Hac. discriminate.
Qed.

Lemma lower_app s1 s2 : lower (s1 ++ s2) = lower s1 ++ lower s2.
Proof. induction s1 as [|a s1 IH]; simpl; [reflexivity|]. now rewrite IH. Qed.

Lemma lower_fixed s :
  all_chars (fun c => negb (is_upper c)) s = true -> lower s = s.
Proof.
  induction s as [|a s IH]; simpl; intros H; [reflexivity|].
  apply andb_prop in H as [Ha Hs]. rewrite (IH Hs).
  unfold lower_ascii. apply negb_true_iff in Ha. now rewrite Ha.
Qed.

Lemma all_chars_impl (p q : ascii -> bool) s :
  (forall c, p c = true -> q c = true) ->
  all_chars p s = true -> all_chars q s = true.
Proof.
  intros Hpq. induction s as [|a s IH]; simpl; [reflexivity|].
  intros H. apply andb_prop in H as [Ha Hs]. now rewrite (Hpq _ Ha), (IH Hs).
Qed.

Lemma int_char_not_upper c : is_int_char c = true -> negb (is_upper c) = true.
Proof.
  unfold is_int_char, is_digit, is_upper. intros H.
  apply negb_true_iff. apply orb_prop in H as [H|H].
  - apply andb_prop in H as [_ H]. apply Nat.leb_le in H.
    apply andb_false_iff. left. apply Nat.leb_gt. lia.
  - apply Ascii.eqb_eq in H. subst c. reflexivity.
Qed.

Lemma lower_of_Z z : lower (of_Z z) = of_Z z.
Proof.
  apply lower_fixed, (all_chars_impl is_int_char); [apply int_char_not_upper|].
  apply all_chars_of_Z.
Qed.

End StrProps.

(* ================================================================== *)
(** * Properties of the stability score *)
(* ================================================================== *)

Module ScoreProps.
Import Py TestExecutor StabilityScore.

Lemma count_result_split c r :
  count_result c r =
  {| num_5xx_errors := num_5xx_errors c + Z.b2z (counts_5xx r);
     num_invalid_success := num_invalid_success c + Z.b2z (counts_invalid_success r);
     num_timeouts := num_timeouts c + Z.b2z (counts_timeout r) |}.
Proof.
  unfold count_result, counts_5xx, counts_invalid_success, counts_timeout, reason_of.
  destruct r as [tc sc body hs res fr]; simpl.
  f_equal.
  - destruct sc as [code|]; simpl.
    + destruct (500 <=? code) eqn:E500.
      * apply Z.leb_le in E500.
        assert ((code =? 0) = false) as -> by (apply Z.eqb_neq; lia).
        simpl. lia.
      * rewrite andb_false_r. simpl.
        destruct (_ || _); simpl; lia.
    + destruct (_ || _); simpl; lia.
  - destruct (_ || _); simpl; lia.
  - assert (String.eqb (TestResult_value res) "timeout"
            = match res with TIMEOUT => true | _ => false end) as ->
      by (destruct res; reflexivity).
    destruct (_ || _); simpl; lia.
Qed.

Lemma tally_cons p r l : tally p (r :: l) = Z.b2z (p r) + tally p l.
Proof.
  unfold tally. cbn [List.filter].
  destruct (p r); cbn [length Z.b2z]; lia.
Qed.

Lemma fold_count_result l : forall c,
  fold_left count_result l c =
  {| num_5xx_errors := num_5xx_errors c + tally counts_5xx l;
     num_invalid_success := num_invalid_success c + tally counts_invalid_success l;
     num_timeouts := num_timeouts c + tally counts_timeout l |}.
Proof.
  induction l as [|r l IH]; intros c.
  - unfold tally. simpl. destruct c; simpl. f_equal; lia.
  - simpl. rewrite IH, count_result_split, !tally_cons. simpl. f_equal; lia.
Qed.

Lemma count_results_tally l :
  count_results l =
  {| num_5xx_errors := tally counts_5xx l;
     num_invalid_success := tally counts_invalid_success l;
     num_timeouts := tally counts_timeout l |}.
Proof. unfold count_results. rewrite fold_count_result. reflexivity. Qed.

Lemma tally_nonneg p l : 0 <= tally p l.
Proof. unfold tally. lia. Qed.


Lemma Qmin_inject a b : Qmin (inject_Z a) (inject_Z b) = inject_Z (Z.min a b).
Proof.
  unfold Qmin, GenericMinMax.gmin, Qcompare, Z.min. simpl.
  rewrite !Z.mul_1_r. destruct (a ?= b); reflexivity.
Qed.

Lemma Qmax_inject a b : Qmax (inject_Z a) (inject_Z b) = inject_Z (Z.max a b).
Proof.
  unfold Qmax, GenericMinMax.gmax, Qcompare, Z.max. simpl.
  rewrite !Z.mul_1_r. destruct (a ?= b); reflexivity.
Qed.

Lemma Qred_inject n : Qred (inject_Z n) = inject_Z n.
Proof.
  apply Qred_identity. simpl. apply Z.gcd_1_r.
Qed.

(** Rounding to hundredths leaves an integer as it is. *)
Lemma round2_inject q n : (q == inject_Z n)%Q -> round2 q = inject_Z n.
Proof.
  intros H. unfold round2.
  assert (Hy : (q * 100 == inject_Z (n * 100))%Q).
  { rewrite H, inject_Z_mult. reflexivity. }
  rewrite (Qfloor_comp _ _ Hy), Qfloor_Z.
  assert (Hlt : ((q * 100 - inject_Z (n * 100)) ?= 1 # 2)%Q = Lt).
  { apply Qlt_alt. rewrite Hy. unfold Qminus. rewrite Qplus_opp_r. reflexivity. }
  rewrite Hlt.
  rewrite <- (Qred_inject n). apply Qred_complete.
  unfold Qeq, inject_Z. simpl. lia.
Qed.

Lemma score_value t :
  let l := results_to_check t in
  calculate_stability_score t =
  inject_Z (clamp (100 - 5 * tally counts_5xx l
                       - 3 * tally counts_invalid_success l
                       - 2 * tally counts_timeout l)).
Proof.
  intros l. unfold calculate_stability_score. fold l.
  rewrite count_results_tally. cbn [num_5xx_errors num_invalid_success num_timeouts].
  apply round2_inject. unfold clamp.
  rewrite <- Qmax_inject, <- Qmin_inject.
  apply Q.max_compat; [reflexivity|].
  apply Q.min_compat; [reflexivity|].
  unfold Qeq, Qminus, Qplus, Qopp, inject_Z. simpl. lia.
Qed.

End ScoreProps.

(* ================================================================== *)
(** * Properties of the classifier *)
(* ================================================================== *)

Module ExecutorProps.
Import Py TestExecutor StabilityScore ScoreProps StrProps.

(** C4: a response whose status code is 500 or more is classified by rule 1,
    whatever the later rules would say: the outcome is FAILED and the
    reason is "5xx Server Error (<code>)", also when the test case expects
    a failure, so that rule 3 never gets to speak. *)
Theorem server_error_rule_first
  (status_code : Z) (response_body : string) (response_time : Q) (tc : pydict) :
  500 <= status_code ->
  _analyze_response status_code response_body response_time tc =
  (FAILED, Some ("5xx Server Error (" ++ PyStr.of_Z status_code ++ ")")).
Proof.
  intros H. unfold _analyze_response.
  apply Z.leb_le in H. rewrite H. reflexivity.
Qed.

Lemma server_error_rule_first_witness :
  500 <= 503 /\
  truthy (dict_get_default [("test_type", PStr "xss"); ("expected_failure", PBool true)]
            "expected_failure" (PBool false)) = true /\
  _analyze_response 503 "{}" 0
    [("test_type", PStr "xss"); ("expected_failure", PBool true)]
  = (FAILED, Some "5xx Server Error (503)").
Proof.
  split; [lia|]. split; [reflexivity|].
  apply (server_error_rule_first 503 "{}" 0
           [("test_type", PStr "xss"); ("expected_failure", PBool true)]).
  lia.
Defined.

Lemma counters_hit_split r :
  counters_hit r =
  Z.b2z (counts_5xx r) + Z.b2z (counts_invalid_success r) + Z.b2z (counts_timeout r).
Proof. unfold counters_hit. rewrite count_result_split. simpl. lia. Qed.

(** The reason of rule 1 mentions neither an invalid success nor a timeout. *)
Lemma server_error_reason_clean z :
  let reason := "5xx Server Error (" ++ PyStr.of_Z z ++ ")" in
  PyStr.contains "Invalid success" reason = false
  /\ PyStr.contains "bad input was accepted" (PyStr.lower reason) = false
  /\ PyStr.contains "timeout" (PyStr.lower reason) = false.
Proof.
  intros reason. unfold reason.
  assert (Hz : forall c, PyStr.is_int_char c = false ->
                         PyStr.has_char c (PyStr.of_Z z) = false).
  { intros c Hc. exact (all_chars_has_char _ c _ (all_chars_of_Z z) Hc). }
  rewrite !lower_app, lower_of_Z.
  repeat split; apply contains_head_absent;
    rewrite !has_char_app, Hz by reflexivity; reflexivity.
Qed.

(** A result that the executor gives as PASSED is counted in no counter. *)
Lemma passed_result_hits_none json_loads recursion_limit tc a :
  result (execute_test_case json_loads recursion_limit tc a) = PASSED ->
  counters_hit (execute_test_case json_loads recursion_limit tc a) = 0.
Proof.
  rewrite counters_hit_split.
  destruct a as [status body hs| |msg]; [|discriminate|discriminate].
  unfold execute_test_case. cbv zeta.
  destruct (_analyze_response status _ 0 _) as [res reason] eqn:E.
  unfold _analyze_response in E.
  unfold counts_5xx, counts_invalid_success, counts_timeout, reason_of.
  cbn [TestExecutor.status_code failure_reason result].
  intros ->.
  destruct (500 <=? status) eqn:E500; [discriminate|].
  repeat match type of E with
         | (if ?b then _ else _) = _ => destruct b; [discriminate|]
         end.
  injection E as <-. reflexivity.
Qed.

(** A result that the executor builds from a response or from a timeout
    is counted in one counter at most. *)
Lemma classified_result_hits_once json_loads recursion_limit tc a :
  match a with Failed _ => False | _ => True end ->
  counters_hit (execute_test_case json_loads recursion_limit tc a) <= 1.
Proof.
  intros Ha. rewrite counters_hit_split.
  destruct a as [status body hs| |msg]; [| vm_compute; discriminate | contradiction].
  unfold execute_test_case. cbv zeta.
  destruct (_analyze_response status _ 0 _) as [res reason] eqn:E.
  unfold _analyze_response in E.
  unfold counts_5xx, counts_invalid_success, counts_timeout, reason_of.
  cbn [TestExecutor.status_code failure_reason result].
  destruct (500 <=? status) eqn:E500.
  - injection E as <- <-.
    destruct (server_error_reason_clean status) as (H1 & H2 & H3).
    rewrite H1, H2, H3. simpl. lia.
  - repeat match type of E with
           | (if ?b then _ else _) = _ => destruct b
           end; injection E as <- <-; vm_compute; discriminate.
Qed.

End ExecutorProps.

(* ================================================================== *)
(** * The score calculator: counters and formula *)
(* ================================================================== *)

Module ScoreTheorems.
Import Py TestExecutor StabilityScore ScoreSpec ScoreProps ExecutorProps.

(** C1, as the specification words it, fails: a result with status code 503
    whose failure reason mentions a timeout is added to the 5xx counter and
    to the timeout counter, so it is counted in two counters. *)
Lemma double_count_counterexample :
  let r := {| test_case := []; status_code := Some 503;
              response_body := EmptyString; headers := [];
              result := FAILED; failure_reason := Some "Gateway timeout" |} in
  count_results [r] =
    {| num_5xx_errors := 1; num_invalid_success := 0; num_timeouts := 1 |}
  /\ ~ counters_hit r <= 1.
Proof.
  split; [reflexivity|]. vm_compute. intros H. apply H. reflexivity.
Qed.

(** C1 (amended): the three counters are tested independently of one
    another.  Over any list of results each counter ends as the number of
    results that pass its own test, so a result adds at most one to each
    counter and may add to several; and a result that the executor builds
    from a response or from a timeout is counted in one counter at most. *)
Theorem counters_tested_independently (l : list ExecutionResult) :
  count_results l =
    {| num_5xx_errors := tally counts_5xx l;
       num_invalid_success := tally counts_invalid_success l;
       num_timeouts := tally counts_timeout l |}
  /\ (forall r, counters_hit r =
                Z.b2z (counts_5xx r) + Z.b2z (counts_invalid_success r)
                + Z.b2z (counts_timeout r))
  /\ (forall json_loads recursion_limit tc a,
        match a with Failed _ => False | _ => True end ->
        counters_hit (execute_test_case json_loads recursion_limit tc a) <= 1).
Proof.
  split; [apply count_results_tally|].
  split; [apply counters_hit_split|].
  apply classified_result_hits_once.
Qed.

Lemma counters_tested_independently_witness :
  let tc := [("endpoint", PStr "/users"); ("expected_failure", PBool true)] in
  let r := execute_test_case (fun _ => None) 100 tc
             (Responded 503 "timeout upstream" []) in
  match Responded 503 "timeout upstream" [] with Failed _ => False | _ => True end
  /\ count_results [r] =
       {| num_5xx_errors := 1; num_invalid_success := 0; num_timeouts := 0 |}
  /\ counters_hit r <= 1.
Proof.
  intros tc r.
  destruct (counters_tested_independently [r]) as (Hc & _ & Hone).
  split; [exact I|]. split.
  - rewrite Hc. reflexivity.
  - apply (Hone (fun _ => None) 100%nat tc (Responded 503 "timeout upstream" [])).
    exact I.
Defined.

Lemma tally_agree (p q : ExecutionResult -> bool) l :
  (forall r, In r l -> p r = q r) -> tally p l = tally q l.
Proof.
  induction l as [|r l IH]; intros H; [reflexivity|].
  rewrite !tally_cons, (H r (or_introl eq_refl)), IH; [reflexivity|].
  intros r' Hr'. apply H. now right.
Qed.

(** A result counted once at most is counted by the counter of its class,
    and by no other. *)
Lemma class_is_counter r :
  counters_hit r <= 1 ->
  is_class Class5xx r = counts_5xx r
  /\ is_class ClassInvalidSuccess r = counts_invalid_success r
  /\ is_class ClassTimeout r = counts_timeout r.
Proof.
  rewrite counters_hit_split. unfold is_class, classified.
  destruct (counts_5xx r), (counts_invalid_success r), (counts_timeout r);
    cbn [Z.b2z]; intros H; try lia; now repeat split.
Qed.

(** C2, as the specification words it, fails: a result with status code
    503 whose failure reason mentions a timeout is classified 5xx, so that
    a = 1, b = 0 and c = 0 and the formula gives 95; the code, which adds
    the result to the 5xx counter and to the timeout counter, gives 93. *)
Lemma classified_score_counterexample :
  let r := {| test_case := []; status_code := Some 503;
              response_body := EmptyString; headers := [];
              result := FAILED; failure_reason := Some "Gateway timeout" |} in
  let t := {| all_results := [r]; failures_to_analyze := [] |} in
  classified r = Some Class5xx
  /\ tally (is_class Class5xx) [r] = 1
  /\ tally (is_class ClassInvalidSuccess) [r] = 0
  /\ tally (is_class ClassTimeout) [r] = 0
  /\ classified_score [r] = 95
  /\ calculate_stability_score t = inject_Z 93
  /\ ~ (calculate_stability_score t == inject_Z (classified_score [r]))%Q.
Proof.
  intros r t.
  assert (Hs : calculate_stability_score t = inject_Z 93)
    by (rewrite score_value; reflexivity).
  do 5 (split; [reflexivity|]). split; [exact Hs|].
  rewrite Hs. intros H. discriminate H.
Qed.

(** C2 (amended): with a, b and c the values that the three counters of
    the code take, each the number of results that pass the test of that
    counter, so that a result may be counted by more than one, the score is
    clamp(100 - 5a - 3b - 2c, 0, 100), which rounding to two decimals leaves
    as it is; a = 2, b = 1, c = 1 gives 85, whatever else the list holds,
    and a result that the executor gives as PASSED adds to no counter;
    25 or more 5xx results give 0; the score is never below 0 nor above 100.
    When no result is counted by two counters, a, b and c are the numbers
    of results classified 5xx, invalid success and timeout, and the score
    is the formula of the specification. *)
Theorem score_is_clamped_penalty (t : TestResults) :
  let l := results_to_check t in
  let a := tally counts_5xx l in
  let b := tally counts_invalid_success l in
  let c := tally counts_timeout l in
  calculate_stability_score t = inject_Z (clamp (100 - 5 * a - 3 * b - 2 * c))
  /\ round2 (calculate_stability_score t) = calculate_stability_score t
  /\ (a = 2 -> b = 1 -> c = 1 -> calculate_stability_score t = inject_Z 85)
  /\ (25 <= a -> calculate_stability_score t = inject_Z 0)
  /\ (0 <= calculate_stability_score t <= 100)%Q
  /\ (forall json_loads recursion_limit tc attempt,
        result (execute_test_case json_loads recursion_limit tc attempt) = PASSED ->
        counters_hit (execute_test_case json_loads recursion_limit tc attempt) = 0)
  /\ ((forall r, In r l -> counters_hit r <= 1) ->
      a = tally (is_class Class5xx) l
      /\ b = tally (is_class ClassInvalidSuccess) l
      /\ c = tally (is_class ClassTimeout) l
      /\ calculate_stability_score t = inject_Z (classified_score l)).
Proof.
  intros l a b c.
  pose proof (score_value t) as Hs. cbv zeta in Hs. fold l in Hs. fold a b c in Hs.
  pose proof (tally_nonneg counts_5xx l) as Ha.
  pose proof (tally_nonneg counts_invalid_success l) as Hb.
  pose proof (tally_nonneg counts_timeout l) as Hc.
  fold a in Ha. fold b in Hb. fold c in Hc.
  split; [exact Hs|].
  split; [rewrite Hs; apply round2_inject; reflexivity|].
  split; [intros -> -> ->; rewrite Hs; reflexivity|].
  split.
  { intros H25. rewrite Hs. f_equal. unfold clamp. lia. }
  split.
  { rewrite Hs. unfold clamp. split.
    - change 0%Q with (inject_Z 0). rewrite <- Zle_Qle. lia.
    - change 100%Q with (inject_Z 100). rewrite <- Zle_Qle. lia. }
  split; [apply passed_result_hits_none|].
  intros Hone.
  assert (E1 : a = tally (is_class Class5xx) l).
  { apply tally_agree. intros r Hr. symmetry.
    exact (proj1 (class_is_counter r (Hone r Hr))). }
  assert (E2 : b = tally (is_class ClassInvalidSuccess) l).
  { apply tally_agree. intros r Hr. symmetry.
    exact (proj1 (proj2 (class_is_counter r (Hone r Hr)))). }
  assert (E3 : c = tally (is_class ClassTimeout) l).
  { apply tally_agree. intros r Hr. symmetry.
    exact (proj2 (proj2 (class_is_counter r (Hone r Hr)))). }
  repeat (split; [assumption|]).
  rewrite Hs. unfold classified_score. now rewrite <- E1, <- E2, <- E3.
Qed.

Lemma score_is_clamped_penalty_witness :
  let tc := [("endpoint", PStr "/users"); ("expected_failure", PBool true)] in
  let ok := [("endpoint", PStr "/users"); ("expected_failure", PBool false)] in
  let run := execute_test_case (fun _ => None) 100 in
  let t := {| all_results :=
                [run tc (Responded 503 "down" []);
                 run ok (Responded 200 "fine" []);
                 run tc (Responded 500 "oops" []);
                 run tc (Responded 200 "accepted" []);
                 run ok (Responded 404 "no such user" []);
                 run ok TimedOut];
              failures_to_analyze := [] |} in
  let many := {| all_results := [];
                 failures_to_analyze :=
                   repeat (run ok (Responded 500 "oops" [])) 25 |} in
  (tally counts_5xx (results_to_check t) = 2
   /\ tally counts_invalid_success (results_to_check t) = 1
   /\ tally counts_timeout (results_to_check t) = 1
   /\ calculate_stability_score t = inject_Z 85)
  /\ (25 <= tally counts_5xx (results_to_check many)
      /\ calculate_stability_score many = inject_Z 0)
  /\ ((forall r, In r (results_to_check t) -> counters_hit r <= 1)
      /\ tally (is_class Class5xx) (results_to_check t) = 2
      /\ tally (is_class ClassInvalidSuccess) (results_to_check t) = 1
      /\ tally (is_class ClassTimeout) (results_to_check t) = 1
      /\ calculate_stability_score t
         = inject_Z (classified_score (results_to_check t))).
Proof.
  intros tc ok run t many.
  assert (Hone : forall r, In r (results_to_check t) -> counters_hit r <= 1).
  { intros r Hr.
    repeat (destruct Hr as [<-|Hr]; [vm_compute; discriminate|]). destruct Hr. }
  assert (Ha : tally counts_5xx (results_to_check t) = 2) by (vm_compute; reflexivity).
  assert (Hb : tally counts_invalid_success (results_to_check t) = 1)
    by (vm_compute; reflexivity).
  assert (Hc : tally counts_timeout (results_to_check t) = 1)
    by (vm_compute; reflexivity).
  assert (Hm : 25 <= tally counts_5xx (results_to_check many))
    by (vm_compute; discriminate).
  split; [|split].
  - split; [exact Ha|]. split; [exact Hb|]. split; [exact Hc|].
    exact (proj1 (proj2 (proj2 (score_is_clamped_penalty t))) Ha Hb Hc).
  - split; [exact Hm|].
    exact (proj1 (proj2 (proj2 (proj2 (score_is_clamped_penalty many)))) Hm).
  - split; [exact Hone|].
    destruct (proj2 (proj2 (proj2 (proj2 (proj2 (proj2
                (score_is_clamped_penalty t)))))) Hone)
      as (E1 & E2 & E3 & Es).
    split; [now rewrite <- E1|]. split; [now rewrite <- E2|].
    split; [now rewrite <- E3|exact Es].
Defined.

End ScoreTheorems.

(* ================================================================== *)
(** * The sanitizer *)
(* ================================================================== *)

Module SanitizerProps.
Import Py TestExecutor.

Lemma sanitize_scalar v : is_container v = false -> sanitize_dict v = v.
Proof. destruct v; simpl; intros H; try reflexivity; discriminate. Qed.

Lemma sanitize_dict_items d :
  sanitize_dict (PDict d) = PDict (map sanitize_item d).
Proof.
  cbn [sanitize_dict]. f_equal. apply map_ext. intros [k v].
  unfold sanitize_item. cbn [fst snd].
  destruct (is_sensitive k); [reflexivity|].
  destruct v; reflexivity.
Qed.

Lemma dict_get_sanitized d k :
  dict_get (map sanitize_item d) k =
  option_map (fun v => if is_sensitive k then PStr REDACTED else sanitize_dict v)
             (dict_get d k).
Proof.
  induction d as [|[k' v] d IH]; [reflexivity|].
  cbn [map sanitize_item fst snd dict_get].
  destruct (String.eqb_spec k' k) as [->|Hne]; [reflexivity|apply IH].
Qed.

Lemma nth_error_sanitized l i :
  nth_error (map sanitize_dict l) i = option_map sanitize_dict (nth_error l i).
Proof. apply nth_error_map. Qed.

Lemma lookup_path_app v p q :
  lookup_path v (p ++ q) =
  match lookup_path v p with
  | Some x => lookup_path x q
  | None => None
  end.
Proof.
  revert v. induction p as [|[k|i] p IH]; intros v; [reflexivity| |];
    cbn [app lookup_path]; destruct v; try reflexivity.
  - destruct (dict_get d k); [apply IH|reflexivity].
  - destruct (nth_error l i); [apply IH|reflexivity].
Qed.

Lemma lookup_scalar v p : is_container v = false -> p <> [] -> lookup_path v p = None.
Proof.
  intros Hv Hp. destruct p as [|[k|i] p]; [congruence| |];
    destruct v; try reflexivity; discriminate.
Qed.

(** Along a path that goes through no sensitive key, the sanitized value
    is the sanitizer applied to what the path reaches in the input. *)
Lemma lookup_clear_path p : forall v,
  forallb clear_step p = true ->
  lookup_path (sanitize_dict v) p = option_map sanitize_dict (lookup_path v p).
Proof.
  induction p as [|[k|i] p IH]; intros v Hp; [reflexivity| |];
    cbn [forallb clear_step] in Hp; apply andb_prop in Hp as [Hk Hp].
  - apply negb_true_iff in Hk.
    destruct v; try reflexivity.
    rewrite sanitize_dict_items. cbn [lookup_path].
    rewrite dict_get_sanitized, Hk.
    destruct (dict_get d k) as [x|]; [apply IH, Hp|reflexivity].
  - destruct v; try reflexivity.
    cbn [sanitize_dict lookup_path]. rewrite nth_error_sanitized.
    destruct (nth_error l i) as [x|]; [apply IH, Hp|reflexivity].
Qed.

(** Whatever a sensitive key holds in the output is the marker. *)
Lemma sensitive_key_holds_marker p : forall v k x,
  lookup_path (sanitize_dict v) (p ++ [Key k]) = Some x ->
  is_sensitive k = true ->
  x = PStr REDACTED.
Proof.
  induction p as [|[k1|i] p IH]; intros v k x Hx Hk; cbn [app] in Hx.
  - destruct v; try discriminate.
    rewrite sanitize_dict_items in Hx. cbn [lookup_path] in Hx.
    rewrite dict_get_sanitized, Hk in Hx.
    destruct (dict_get d k); cbn in Hx; congruence.
  - destruct v; try discriminate.
    rewrite sanitize_dict_items in Hx. cbn [lookup_path] in Hx.
    rewrite dict_get_sanitized in Hx.
    destruct (dict_get d k1) as [v1|]; [|discriminate]. cbn [option_map] in Hx.
    destruct (is_sensitive k1).
    + rewrite lookup_scalar in Hx; [discriminate|reflexivity|].
      destruct p; discriminate.
    + eapply IH; eassumption.
  - destruct v; try discriminate.
    cbn [sanitize_dict lookup_path] in Hx. rewrite nth_error_sanitized in Hx.
    destruct (nth_error l i) as [v1|]; [|discriminate]. cbn [option_map] in Hx.
    eapply IH; eassumption.
Qed.

Lemma sanitize_outline v : outline_of (sanitize_dict v) = outline_of v.
Proof.
  destruct v; try reflexivity.
  - cbn [sanitize_dict outline_of]. now rewrite length_map.
  - rewrite sanitize_dict_items. cbn [outline_of]. f_equal.
    rewrite map_map. apply map_ext. now intros [k v].
Qed.

(** X11.  For a response body that parses as JSON into a document whose
    sanitized form nests no deeper than the recursion of the interpreter
    allows, the sanitizer prints the sanitized document, in which (1)
    whatever a key with a sensitive name holds, also inside lists, is the
    redaction marker;
    (2) every sensitive key of the input that is reached through
    non-sensitive keys is still there and holds the marker; (3) along
    every path through non-sensitive keys the output holds the sanitized
    form of what the input holds, so (4) a non-sensitive key with a plain
    value keeps that value, and (5) every dict keeps its keys in order and
    every list its length. *)
Theorem sanitizer_redacts_sensitive_keys
  (json_loads : string -> option pyval) (recursion_limit : nat)
  (response_body : string) (data : pyval) :
  response_body <> EmptyString ->
  json_loads response_body = Some data ->
  (depth (sanitize_dict data) <= recursion_limit)%nat ->
  let out := sanitize_dict data in
  _sanitize_response json_loads recursion_limit response_body
  = Json.dumps (Some 2%nat) false out
  /\ (forall p k x, lookup_path out (p ++ [Key k]) = Some x ->
                    is_sensitive k = true -> x = PStr REDACTED)
  /\ (forall p k x, forallb clear_step p = true -> is_sensitive k = true ->
                    lookup_path data (p ++ [Key k]) = Some x ->
                    lookup_path out (p ++ [Key k]) = Some (PStr REDACTED))
  /\ (forall p, forallb clear_step p = true ->
                lookup_path out p = option_map sanitize_dict (lookup_path data p))
  /\ (forall p x, forallb clear_step p = true -> lookup_path data p = Some x ->
                  is_container x = false -> lookup_path out p = Some x)
  /\ (forall p x, forallb clear_step p = true -> lookup_path data p = Some x ->
                  exists y, lookup_path out p = Some y
                            /\ outline_of y = outline_of x).
Proof.
  intros Hne Hload Hdepth out.
  split.
  { unfold _sanitize_response.
    destruct (String.eqb_spec response_body EmptyString) as [->|_]; [congruence|].
    rewrite Hload. cbv zeta.
    apply Nat.leb_le in Hdepth. now rewrite Hdepth. }
  split; [intros p k x; apply sensitive_key_holds_marker|].
  split.
  { intros p k x Hp Hk Hx. unfold out.
    rewrite lookup_path_app in Hx |- *.
    rewrite (lookup_clear_path p data Hp).
    destruct (lookup_path data p) as [v|]; [|discriminate]. cbn [option_map].
    destruct v; try discriminate.
    cbn [lookup_path] in Hx. rewrite sanitize_dict_items. cbn [lookup_path].
    rewrite dict_get_sanitized, Hk.
    destruct (dict_get d k); [reflexivity|discriminate]. }
  split; [intros p Hp; apply lookup_clear_path, Hp|].
  split.
  { intros p x Hp Hx Hc. unfold out.
    rewrite (lookup_clear_path p data Hp), Hx. cbn [option_map].
    now rewrite sanitize_scalar. }
  intros p x Hp Hx. exists (sanitize_dict x). unfold out.
  rewrite (lookup_clear_path p data Hp), Hx. split; [reflexivity|].
  apply sanitize_outline.
Qed.

Lemma sanitizer_redacts_sensitive_keys_witness :
  let data :=
    PDict [("user", PDict [("name", PStr "ann"); ("Password", PStr "hunter2")]);
           ("items", PList [PDict [("api_key", PStr "k-1"); ("id", PInt 7)]])] in
  let body := Json.dumps None false data in
  let json_loads := fun s => if String.eqb s body then Some data else None in
  body <> EmptyString
  /\ json_loads body = Some data
  /\ (depth (sanitize_dict data) <= 100)%nat
  /\ _sanitize_response json_loads 100 body
     = Json.dumps (Some 2%nat) false (sanitize_dict data)
  /\ lookup_path (sanitize_dict data) [Key "user"; Key "Password"]
     = Some (PStr REDACTED)
  /\ lookup_path (sanitize_dict data) [Key "items"; Index 0; Key "api_key"]
     = Some (PStr REDACTED)
  /\ lookup_path (sanitize_dict data) [Key "user"; Key "name"] = Some (PStr "ann")
  /\ lookup_path (sanitize_dict data) [Key "items"; Index 0; Key "id"]
     = Some (PInt 7).
Proof.
  intros data body json_loads.
  assert (Hne : body <> EmptyString) by (vm_compute; discriminate).
  assert (Hload : json_loads body = Some data) by (vm_compute; reflexivity).
  assert (Hdepth : (depth (sanitize_dict data) <= 100)%nat) by (apply Nat.leb_le; reflexivity).
  destruct (sanitizer_redacts_sensitive_keys json_loads 100 body data
              Hne Hload Hdepth)
    as (Hout & _ & Hred & _ & Hkeep & _).
  split; [exact Hne|]. split; [exact Hload|]. split; [exact Hdepth|].
  split; [exact Hout|].
  split; [|split; [|split]].
  - apply (Hred [Key "user"] "Password" (PStr "hunter2")); reflexivity.
  - apply (Hred [Key "items"; Index 0%nat] "api_key" (PStr "k-1")); reflexivity.
  - apply (Hkeep [Key "user"; Key "name"]); reflexivity.
  - apply (Hkeep [Key "items"; Index 0%nat; Key "id"]); reflexivity.
Defined.

(** C7, on the code: a body that parses as JSON and holds a password next
    to lists nested 600 deep, on an interpreter whose recursion gives out
    past 500 nested containers, comes back as its first 1000 characters:
    the password is there in clear and the marker is not, although the
    sanitized document holds the marker at that key. *)
Theorem deep_document_is_returned_unredacted :
  let data := PDict [("password", PStr "hunter2");
                     ("x", nest 600 (PList []))] in
  let body := Json.dumps None false data in
  let json_loads := fun s => if String.eqb s body then Some data else None in
  let out := _sanitize_response json_loads 500 body in
  json_loads body = Some data
  /\ is_sensitive "password" = true
  /\ lookup_path (sanitize_dict data) [Key "password"] = Some (PStr REDACTED)
  /\ out = PyStr.slice_to 1000 body
  /\ PyStr.contains "hunter2" out = true
  /\ PyStr.contains REDACTED out = false.
Proof.
  intros data body json_loads out.
  repeat split; vm_compute; reflexivity.
Qed.

End SanitizerProps.

(* ================================================================== *)
(** * Facts about dicts *)
(* ================================================================== *)

Module DictProps.
Import Py.

Lemma dict_get_set_other d key key' v :
  key <> key' -> dict_get (dict_set d key v) key' = dict_get d key'.
Proof.
  intros Hne. induction d as [|[k w] d IH]; cbn [dict_set dict_get].
  - destruct (String.eqb_spec key key'); congruence.
  - destruct (String.eqb_spec k key) as [->|Hk]; cbn [dict_get].
    + destruct (String.eqb_spec key key'); congruence.
    + now rewrite IH.
Qed.

Lemma dict_get_set_same d key v : dict_get (dict_set d key v) key = Some v.
Proof.
  induction d as [|[k w] d IH]; cbn [dict_set dict_get].
  - now rewrite String.eqb_refl.
  - destruct (String.eqb_spec k key) as [->|Hk]; cbn [dict_get].
    + now rewrite String.eqb_refl.
    + destruct (String.eqb_spec k key); [congruence|exact IH].
Qed.

End DictProps.

(* ================================================================== *)
(** * The validation gate *)
(* ================================================================== *)

Module GateProps.
Import Py ValidationService.

(** What the gate returns on a plan that is not marked "reject": the
    errors of the five steps, one after the other. *)
Lemma validate_not_reject agent_output base_url is_valid errors :
  eq_str (dict_get_default agent_output "status" PNone) "reject" = false ->
  validate_agent1_output agent_output base_url = Ok (is_valid, errors) ->
  exists e2 ns e3 tcs e4,
    check_normalized_schema
      (dict_get_default agent_output "normalized_schema" (PList [])) = Ok (e2, ns)
    /\ check_test_cases_field
         (dict_get_default agent_output "test_cases" (PList [])) = Ok (e3, tcs)
    /\ check_cross_reference ns tcs = Ok e4
    /\ errors =
       (missing_required agent_output
        ++ (if eq_str (dict_get_default agent_output "status" PNone) "ok"
            then [] else [invalid_status (dict_get_default agent_output "status" PNone)])
        ++ e2 ++ e3 ++ e4
        ++ check_errors_field (dict_get_default agent_output "errors" (PList [])))%list
    /\ is_valid = match errors with [] => true | _ => false end.
Proof.
  intros Hrej H. unfold validate_agent1_output in H. rewrite Hrej in H.
  cbv zeta in H.
  destruct (check_normalized_schema _) as [[e2 ns]|] eqn:E2; [|discriminate].
  cbn [mbind result_bind bind] in H.
  destruct (check_test_cases_field _) as [[e3 tcs]|] eqn:E3; [|discriminate].
  cbn [mbind result_bind bind] in H.
  destruct (check_cross_reference ns tcs) as [e4|] eqn:E4; [|discriminate].
  cbn [mbind result_bind bind] in H.
  injection H as <- <-.
  exists e2, ns, e3, tcs, e4.
  repeat split; try reflexivity; try assumption.
  now rewrite <- !app_assoc.
Qed.

(** C3, as the specification words it, fails: with a status that is neither
    "ok" nor "reject" the gate goes on checking, and the list it returns
    holds a schema error and a test-case error, and none of the errors the
    plan declares; and with the status "reject" the list is the default
    message, although the plan declares an error of its own. *)
Lemma non_ok_status_counterexample :
  let plan := [("status", PStr "error");
               ("normalized_schema", PList []);
               ("test_cases", PList []);
               ("errors", PList [PStr "planner gave up"])] in
  let rejected := [("status", PStr "reject");
                   ("normalized_schema", PList []);
                   ("test_cases", PList []);
                   ("errors", PList [PStr "planner gave up"])] in
  dict_get plan "status" = Some (PStr "error")
  /\ validate_agent1_output plan "http://api.example.com"
     = Ok (false, ["Invalid status: error. Expected 'ok'";
                   "normalized_schema cannot be empty";
                   "test_cases cannot be empty"])
  /\ validate_agent1_output rejected "http://api.example.com"
     = Ok (false, ["Schema rejected by AI"]).
Proof. repeat split. Qed.

(** C3 (amended): a plan whose status is "reject" is rejected at once, with
    the missing-required-field errors found so far or, when there are none,
    the one message "Schema rejected by AI", and nothing else is checked.
    With any other status that is not "ok" the gate records an "Invalid
    status" error after the missing-required-field errors and goes on with
    the schema check, the test-case check, the cross-reference check and the
    check of the errors field, whose errors follow in that order (an
    exception of one of the checks is the gate's); it never accepts such a
    plan. *)
Theorem reject_status_returns_at_once (agent_output : pydict) (base_url : string) :
  let status := dict_get_default agent_output "status" PNone in
  (eq_str status "reject" = true ->
   validate_agent1_output agent_output base_url =
   Ok (false, match missing_required agent_output with
              | [] => ["Schema rejected by AI"]
              | errors => errors
              end))
  /\ (eq_str status "reject" = false -> eq_str status "ok" = false ->
      validate_agent1_output agent_output base_url
      = ('(e2, normalized_schema) ←
           check_normalized_schema
             (dict_get_default agent_output "normalized_schema" (PList []));
         '(e3, test_cases) ←
           check_test_cases_field
             (dict_get_default agent_output "test_cases" (PList []));
         e4 ← check_cross_reference normalized_schema test_cases;
         Ok (false,
             (missing_required agent_output ++ [invalid_status status]
              ++ e2 ++ e3 ++ e4
              ++ check_errors_field
                   (dict_get_default agent_output "errors" (PList [])))%list))
      /\ match validate_agent1_output agent_output base_url with
         | Ok (is_valid, errors) =>
             is_valid = false /\ In (invalid_status status) errors
         | Raise _ => True
         end).
Proof.
  intros status. split.
  - intros Hrej. unfold validate_agent1_output. fold status. rewrite Hrej.
    destruct (missing_required agent_output); reflexivity.
  - intros Hrej Hok. split.
    + unfold validate_agent1_output. fold status. rewrite Hrej, Hok. cbv zeta.
      destruct (check_normalized_schema _) as [[e2 ns]|]; [|reflexivity].
      cbn [mbind result_bind bind].
      destruct (check_test_cases_field _) as [[e3 tcs]|]; [|reflexivity].
      cbn [mbind result_bind bind].
      destruct (check_cross_reference ns tcs) as [e4|]; [|reflexivity].
      cbn [mbind result_bind bind].
      rewrite <- !app_assoc.
      destruct (missing_required agent_output); reflexivity.
    + destruct (validate_agent1_output agent_output base_url)
        as [[v errors]|] eqn:E; [|exact I].
      destruct (validate_not_reject _ _ _ _ Hrej E)
        as (e2 & ns & e3 & tcs & e4 & _ & _ & _ & Herr & Hv).
      fold status in Herr. rewrite Hok in Herr.
      assert (Hin : In (invalid_status status) errors).
      { rewrite Herr. apply in_or_app. right. left. reflexivity. }
      split; [|exact Hin].
      rewrite Hv. destruct errors; [destruct Hin|reflexivity].
Qed.

Lemma reject_status_returns_at_once_witness :
  let rejected := [("status", PStr "reject");
                   ("normalized_schema", PList []);
                   ("test_cases", PList [PInt 3]);
                   ("errors", PList [PStr "no endpoints found"])] in
  let odd := [("status", PStr "maybe");
              ("normalized_schema", PList [PDict [("endpoint", PStr "a"); ("method", PStr "GET")]]);
              ("test_cases", PList []);
              ("errors", PInt 0)] in
  (eq_str (dict_get_default rejected "status" PNone) "reject" = true
   /\ validate_agent1_output rejected "http://api.example.com"
      = Ok (false, ["Schema rejected by AI"]))
  /\ (eq_str (dict_get_default odd "status" PNone) "reject" = false
      /\ eq_str (dict_get_default odd "status" PNone) "ok" = false
      /\ validate_agent1_output odd "http://api.example.com"
         = Ok (false, ["Invalid status: maybe. Expected 'ok'";
                       "Endpoint path must start with '/': a";
                       "test_cases cannot be empty";
                       "errors field must be a list"])).
Proof.
  intros rejected odd. split.
  - split; [reflexivity|].
    exact (proj1 (reject_status_returns_at_once rejected "http://api.example.com")
             eq_refl).
  - split; [reflexivity|]. split; [reflexivity|].
    exact (eq_trans
             (proj1 (proj2 (reject_status_returns_at_once odd
                              "http://api.example.com") eq_refl eq_refl))
             eq_refl).
Defined.

End GateProps.

(* ================================================================== *)
(** * Regular expressions: the matcher against the texts matched *)
(* ================================================================== *)

Module ReProps.
Import Re.

(* stdpp keeps [simpl] from unfolding the append of strings; the proofs of
   this module compute with it. *)
#[local] Arguments String.append !s1 s2 : simpl nomatch.

Lemma append_nil_r s : s ++ EmptyString = s.
Proof. induction s as [|a s IH]; simpl; [reflexivity|now rewrite IH]. Qed.

Lemma append_assoc (s1 s2 s3 : string) : (s1 ++ s2) ++ s3 = s1 ++ s2 ++ s3.
Proof. induction s1 as [|a s1 IH]; simpl; [reflexivity|now rewrite IH]. Qed.

Lemma append_eq_nil s1 s2 :
  s1 ++ s2 = EmptyString -> s1 = EmptyString /\ s2 = EmptyString.
Proof. destruct s1; simpl; intros H; [auto|discriminate]. Qed.

Lemma nullable_sound r : nullable r = true -> matches r EmptyString.
Proof.
  induction r; simpl; intros H; try discriminate.
  - constructor.
  - apply andb_prop in H as [H1 H2].
    change EmptyString with (EmptyString ++ EmptyString). constructor; auto.
  - apply orb_prop in H as [H|H]; [apply MAltL|apply MAltR]; auto.
  - constructor.
Qed.

Lemma deriv_sound c r : forall s, matches (deriv c r) s -> matches r (String c s).
Proof.
  induction r; simpl; intros s H.
  - inversion H.
  - inversion H.
  - destruct (p c) eqn:Hp; inversion H; subst. now constructor.
  - destruct (nullable r1) eqn:Hn.
    + inversion H as [| | | ? ? ? H1 | ? ? ? H2 | |]; subst.
      * inversion H1; subst.
        change (String c (s1 ++ s2)) with (String c s1 ++ s2). constructor; auto.
      * change (String c s) with (EmptyString ++ String c s).
        constructor; [apply nullable_sound, Hn|auto].
    + inversion H; subst.
      change (String c (s1 ++ s2)) with (String c s1 ++ s2). constructor; auto.
  - inversion H; subst; [apply MAltL|apply MAltR]; auto.
  - inversion H; subst.
    change (String c (s1 ++ s2)) with (String c s1 ++ s2). constructor; auto.
Qed.

Lemma fullmatch_sound s : forall r, fullmatch r s = true -> matches r s.
Proof.
  induction s as [|c s IH]; simpl; intros r H.
  - apply nullable_sound, H.
  - apply deriv_sound, IH, H.
Qed.

Lemma matches_nullable r s : matches r s -> s = EmptyString -> nullable r = true.
Proof.
  induction 1; intros Hs; simpl; try reflexivity; try discriminate.
  - apply append_eq_nil in Hs as [-> ->]. now rewrite IHmatches1, IHmatches2.
  - now rewrite IHmatches.
  - rewrite IHmatches by assumption. apply orb_true_r.
Qed.

Lemma matches_deriv r w :
  matches r w -> forall c s, w = String c s -> matches (deriv c r) s.
Proof.
  induction 1; intros c0 s0 Hw; simpl; try discriminate.
  - injection Hw as -> <-. rewrite H. constructor.
  - destruct s1 as [|a s1]; simpl in Hw.
    + subst s2. rewrite (matches_nullable _ _ H eq_refl).
      apply MAltR. now apply IHmatches2.
    + injection Hw as -> <-.
      assert (Hd : matches (Cat (deriv c0 r1) r2) (s1 ++ s2))
        by (constructor; [now apply IHmatches1|assumption]).
      destruct (nullable r1); [apply MAltL|]; exact Hd.
  - apply MAltL. now apply IHmatches.
  - apply MAltR. now apply IHmatches.
  - destruct s1 as [|a s1]; simpl in Hw.
    + now apply IHmatches2.
    + injection Hw as -> <-. constructor; [now apply IHmatches1|assumption].
Qed.

Lemma fullmatch_complete s : forall r, matches r s -> fullmatch r s = true.
Proof.
  induction s as [|c s IH]; simpl; intros r H.
  - now apply (matches_nullable r EmptyString).
  - apply IH. now apply (matches_deriv r (String c s)).
Qed.

(** The matcher decides the relation. *)
Lemma fullmatch_iff r s : fullmatch r s = true <-> matches r s.
Proof. split; [apply fullmatch_sound|apply fullmatch_complete]. Qed.

Lemma matches_lit x s : matches (lit x) s <-> s = x.
Proof.
  revert s. induction x as [|c x IH]; simpl; intros s; split; intros H.
  - now inversion H.
  - subst. constructor.
  - inversion H as [| |? ? ? ? H1 H2| | | |]; subst.
    inversion H1 as [|? ? Hc| | | | |]; subst.
    apply Ascii.eqb_eq in Hc. subst. simpl. f_equal. now apply IH.
  - subst. change (String c x) with (String c EmptyString ++ x).
    constructor; [constructor; apply Ascii.eqb_refl|now apply IH].
Qed.

Lemma matches_opt r s : matches (opt r) s <-> matches r s \/ s = EmptyString.
Proof.
  unfold opt. split.
  - intros H. inversion H as [| | |? ? ? H1|? ? ? H2| |]; subst; [now left|].
    inversion H2; now right.
  - intros [H| ->]; [now apply MAltL|apply MAltR; constructor].
Qed.

Lemma matches_chr p s :
  matches (Chr p) s <-> exists c, s = String c EmptyString /\ p c = true.
Proof.
  split.
  - intros H. inversion H; subst. eauto.
  - intros (c & -> & Hc). now constructor.
Qed.

Lemma matches_star_chr p s :
  matches (Star (Chr p)) s <-> PyStr.all_chars p s = true.
Proof.
  split.
  - intros H. remember (Star (Chr p)) as r eqn:Hr.
    induction H; try discriminate; [reflexivity|].
    injection Hr as ->. inversion H; subst. simpl.
    rewrite IHmatches2 by reflexivity. now rewrite andb_true_r.
  - induction s as [|c s IH]; simpl; intros H; [constructor|].
    apply andb_prop in H as [Hc Hs].
    change (String c s) with (String c EmptyString ++ s).
    constructor; [now constructor|now apply IH].
Qed.

Lemma matches_plus_chr p s :
  matches (plus (Chr p)) s <-> s <> EmptyString /\ PyStr.all_chars p s = true.
Proof.
  unfold plus. split.
  - intros H. inversion H as [| |? ? ? ? H1 H2| | | |]; subst.
    apply matches_chr in H1 as (c & -> & Hc). apply matches_star_chr in H2.
    simpl. rewrite Hc, H2. split; [discriminate|reflexivity].
  - intros [Hne H]. destruct s as [|c s]; [congruence|].
    simpl in H. apply andb_prop in H as [Hc Hs].
    change (String c s) with (String c EmptyString ++ s).
    constructor; [now constructor|now apply matches_star_chr].
Qed.

Lemma matches_cat r1 r2 s :
  matches (Cat r1 r2) s <->
  exists s1 s2, s = s1 ++ s2 /\ matches r1 s1 /\ matches r2 s2.
Proof.
  split.
  - intros H. inversion H; subst. eauto.
  - intros (s1 & s2 & -> & H1 & H2). now constructor.
Qed.

End ReProps.

(* ================================================================== *)
(** * The base URL *)
(* ================================================================== *)

Module UrlProps.
Import Py Re ReProps ValidationService.

#[local] Arguments String.append !s1 s2 : simpl nomatch.

Lemma matches_the_char c s : matches (char c) s <-> s = String c EmptyString.
Proof.
  unfold char. rewrite matches_chr. split.
  - intros (c' & -> & H). apply Ascii.eqb_eq in H. now subst.
  - intros ->. exists c. split; [reflexivity|apply Ascii.eqb_refl].
Qed.

Lemma matches_port s :
  matches (opt (Cat (char ":") (plus digit))) s <->
  (s = EmptyString
   \/ exists digits, s = ":" ++ digits /\ digits <> EmptyString
                     /\ PyStr.all_chars PyStr.is_digit digits = true).
Proof.
  rewrite matches_opt, matches_cat. split.
  - intros [(s1 & s2 & -> & H1 & H2)| ->]; [right|now left].
    apply matches_the_char in H1. subst s1.
    apply matches_plus_chr in H2 as [Hne Hd]. now exists s2.
  - intros [->|(digits & -> & Hne & Hd)]; [now right|left].
    exists ":", digits. split; [reflexivity|].
    split; [now apply matches_the_char|now apply matches_plus_chr].
Qed.

Lemma matches_path s :
  matches (opt (Cat (char "/") (Star dot))) s <->
  (s = EmptyString
   \/ exists rest, s = "/" ++ rest
                   /\ PyStr.all_chars (fun c => negb (is_newline c)) rest = true).
Proof.
  rewrite matches_opt, matches_cat. split.
  - intros [(s1 & s2 & -> & H1 & H2)| ->]; [right|now left].
    apply matches_the_char in H1. subst s1.
    apply matches_star_chr in H2. now exists s2.
  - intros [->|(rest & -> & Hr)]; [now right|left].
    exists "/", rest. split; [reflexivity|].
    split; [now apply matches_the_char|now apply matches_star_chr].
Qed.

Lemma matches_dollar s :
  matches dollar s <->
  (s = EmptyString \/ s = String (ascii_of_nat 10) EmptyString).
Proof.
  unfold dollar. rewrite matches_opt, matches_chr. split.
  - intros [(c & -> & H)| ->]; [right|now left].
    apply Ascii.eqb_eq in H. now subst.
  - intros [->| ->]; [now right|left].
    eexists. split; reflexivity.
Qed.

(** The pattern matches the texts of the form [url_shape], and no other. *)
Lemma pattern_matches_shape s : matches base_url_pattern s <-> url_shape s.
Proof.
  unfold base_url_pattern, url_shape. split.
  - intros H.
    apply matches_cat in H as (s1 & r1 & -> & H1 & H).
    apply matches_lit in H1. subst s1.
    apply matches_cat in H as (s2 & r2 & -> & H2 & H).
    apply matches_opt in H2.
    apply matches_cat in H as (s3 & r3 & -> & H3 & H).
    apply matches_lit in H3. subst s3.
    apply matches_cat in H as (host & r4 & -> & H4 & H).
    apply matches_plus_chr in H4 as [Hne Hhost].
    apply matches_cat in H as (port & r5 & -> & H5 & H).
    apply matches_port in H5.
    apply matches_cat in H as (path & nl & -> & H6 & H7).
    apply matches_path in H6. apply matches_dollar in H7.
    exists ("http" ++ s2), host, port, path, nl.
    split; [now rewrite append_assoc|].
    split.
    { destruct H2 as [H2| ->]; [|now left].
      apply matches_the_char in H2. subst. now right. }
    repeat split; assumption.
  - intros (scheme & host & port & path & nl & -> & Hs & Hne & Hhost & Hport & Hpath & Hnl).
    assert (Hscheme : exists s2, scheme = "http" ++ s2
                                 /\ matches (opt (char "s")) s2).
    { destruct Hs as [->| ->].
      - exists EmptyString. split; [reflexivity|]. apply matches_opt. now right.
      - exists "s". split; [reflexivity|]. apply matches_opt. left.
        now apply matches_the_char. }
    destruct Hscheme as (s2 & -> & H2). rewrite append_assoc.
    constructor; [now apply matches_lit|].
    constructor; [assumption|].
    constructor; [now apply matches_lit|].
    constructor; [now apply matches_plus_chr|].
    constructor.
    { apply matches_port. destruct Hport as [->|?]; [now left|now right]. }
    constructor.
    { apply matches_path. destruct Hpath as [->|?]; [now left|now right]. }
    now apply matches_dollar.
Qed.

Lemma rstrip_is_prefix c u : exists t, u = PyStr.rstrip c u ++ t.
Proof.
  induction u as [|a u [t IH]]; [now exists EmptyString|].
  cbn [PyStr.rstrip]. destruct (PyStr.rstrip c u) as [|b r] eqn:E.
  - destruct (Ascii.eqb a c).
    + now exists (String a u).
    + exists u. reflexivity.
  - exists t. simpl. f_equal. exact IH.
Qed.

Lemma prefix_append p x : String.prefix p (p ++ x) = true.
Proof.
  induction p as [|a p IH]; [now destruct x|].
  simpl. destruct (ascii_dec a a); [exact IH|congruence].
Qed.

Lemma shape_has_scheme s t :
  url_shape s ->
  PyStr.startswith (s ++ t) "http://" = true
  \/ PyStr.startswith (s ++ t) "https://" = true.
Proof.
  intros (scheme & host & port & path & nl & -> & [->| ->] & _);
    [left|right]; unfold PyStr.startswith; rewrite !append_assoc.
  - exact (prefix_append "http://" _).
  - exact (prefix_append "https://" _).
Qed.

Lemma validate_base_url_shape u :
  validate_base_url u = true <-> url_shape (PyStr.rstrip "/" u).
Proof.
  unfold validate_base_url.
  destruct (String.eqb_spec u EmptyString) as [->|Hne].
  - split; [discriminate|].
    intros (scheme & host & port & path & nl & H & [->| ->] & _); discriminate H.
  - rewrite fullmatch_iff. apply pattern_matches_shape.
Qed.

(** C6, as the specification words it, fails: the gate accepts a
    well-formed plan whatever the base URL, here one with the scheme ftp. *)
Lemma gate_ignores_base_url_counterexample :
  let plan :=
    [("status", PStr "ok");
     ("normalized_schema",
      PList [PDict [("endpoint", PStr "/users"); ("method", PStr "GET")]]);
     ("test_cases",
      PList [PDict [("endpoint", PStr "/users"); ("method", PStr "GET");
                    ("test_type", PStr "xss"); ("expected_failure", PBool true)]]);
     ("errors", PList [])] in
  PyStr.startswith "ftp://example.com" "http://" = false
  /\ PyStr.startswith "ftp://example.com" "https://" = false
  /\ validate_agent1_output plan "ftp://example.com" = Ok (true, []).
Proof. repeat split. Qed.

(** C6 (amended): the gate [validate_agent1_output] does not read the base
    URL, so its answer is the same for every base URL.  The rule on the
    base URL is the separate predicate [validate_base_url]: it holds
    exactly when the text, its trailing slashes stripped, has the form
    scheme://host[:port][/path] with scheme http or https, and so it is
    false for every base URL that does not start with http:// or https://. *)
Theorem base_url_is_checked_apart
  (agent_output : pydict) (base_url base_url' : string) :
  validate_agent1_output agent_output base_url
  = validate_agent1_output agent_output base_url'
  /\ (validate_base_url base_url = true <-> url_shape (PyStr.rstrip "/" base_url))
  /\ (PyStr.startswith base_url "http://" = false ->
      PyStr.startswith base_url "https://" = false ->
      validate_base_url base_url = false).
Proof.
  split; [reflexivity|]. split; [apply validate_base_url_shape|].
  intros H1 H2. destruct (validate_base_url base_url) eqn:E; [|reflexivity].
  apply validate_base_url_shape in E.
  destruct (rstrip_is_prefix "/" base_url) as [t Ht].
  destruct (shape_has_scheme _ t E) as [H|H]; rewrite <- Ht in H; congruence.
Qed.

Lemma base_url_is_checked_apart_witness :
  PyStr.startswith "ftp://example.com" "http://" = false
  /\ PyStr.startswith "ftp://example.com" "https://" = false
  /\ validate_base_url "ftp://example.com" = false
  /\ url_shape (PyStr.rstrip "/" "https://api.example.com:8443/v1/").
Proof.
  split; [reflexivity|]. split; [reflexivity|]. split.
  - exact (proj2 (proj2 (base_url_is_checked_apart [] "ftp://example.com" EmptyString))
             eq_refl eq_refl).
  - apply (proj1 (proj2 (base_url_is_checked_apart []
                           "https://api.example.com:8443/v1/" EmptyString))).
    reflexivity.
Defined.

End UrlProps.

(* ================================================================== *)
(** * The gate: test cases against the endpoints of the schema *)
(* ================================================================== *)

Module CrossReferenceProps.
Import Py ValidationService GateProps DictProps.

Lemma object_with_method d m :
  is_object (PDict d) = true ->
  same_endpoint (PDict d) (PDict (dict_set d "method" (PStr m))).
Proof.
  unfold same_endpoint, is_object, endpoint_of. intros H.
  rewrite dict_get_set_other by discriminate.
  rewrite dict_get_set_same.
  apply andb_prop in H as [H1 _]. rewrite H1. split; reflexivity.
Qed.

Lemma check_endpoint_object idx v :
  is_object v = true ->
  exists e v', check_endpoint idx v = Ok (e, v') /\ same_endpoint v v'.
Proof.
  intros Hv. destruct v as [| | | | |d]; try discriminate.
  unfold check_endpoint.
  destruct (dict_get d "method") as [m|] eqn:Em.
  - assert (Hm : exists s, m = PStr s).
    { unfold is_object in Hv. rewrite Em in Hv.
      apply andb_prop in Hv as [_ Hv]. destruct m; try discriminate. eauto. }
    destruct Hm as [s ->]. cbn [py_upper mbind result_bind bind].
    eexists _, _. split; [reflexivity|]. now apply object_with_method.
  - cbn [mbind result_bind bind].
    eexists _, _. split; [reflexivity|]. split; [exact Hv|reflexivity].
Qed.

Lemma check_endpoints_objects l : forall idx,
  forallb is_object l = true ->
  exists e l', check_endpoints idx l = Ok (e, l') /\ Forall2 same_endpoint l l'.
Proof.
  induction l as [|v l IH]; intros idx H; cbn [check_endpoints].
  - exists [], []. split; [reflexivity|constructor].
  - cbn [forallb] in H. apply andb_prop in H as [Hv Hl].
    destruct (check_endpoint_object idx v Hv) as (e & v' & -> & Hsame).
    destruct (IH (S idx) Hl) as (es & l' & -> & Hall).
    cbn [mbind result_bind bind].
    eexists _, _. split; [reflexivity|]. now constructor.
Qed.

Lemma check_test_case_object idx v :
  is_object v = true ->
  exists e v', check_test_case idx v = Ok (e, v') /\ same_endpoint v v'.
Proof.
  intros Hv. destruct v as [| | | | |d]; try discriminate.
  unfold check_test_case.
  destruct (dict_get d "method") as [m|] eqn:Em.
  - assert (Hm : exists s, m = PStr s).
    { unfold is_object in Hv. rewrite Em in Hv.
      apply andb_prop in Hv as [_ Hv]. destruct m; try discriminate. eauto. }
    destruct Hm as [s ->]. cbn [py_upper mbind result_bind bind].
    eexists _, _. split; [reflexivity|]. now apply object_with_method.
  - cbn [mbind result_bind bind].
    eexists _, _. split; [reflexivity|]. split; [exact Hv|reflexivity].
Qed.

Lemma check_test_cases_objects l : forall idx,
  forallb is_object l = true ->
  exists e l', check_test_cases idx l = Ok (e, l') /\ Forall2 same_endpoint l l'.
Proof.
  induction l as [|v l IH]; intros idx H; cbn [check_test_cases].
  - exists [], []. split; [reflexivity|constructor].
  - cbn [forallb] in H. apply andb_prop in H as [Hv Hl].
    destruct (check_test_case_object idx v Hv) as (e & v' & -> & Hsame).
    destruct (IH (S idx) Hl) as (es & l' & -> & Hall).
    cbn [mbind result_bind bind].
    eexists _, _. split; [reflexivity|]. now constructor.
Qed.

Lemma same_endpoint_objects l l' :
  Forall2 same_endpoint l l' -> forallb is_object l' = true.
Proof.
  induction 1 as [|a b l l' [Hb _] _ IH]; [reflexivity|].
  cbn [forallb]. now rewrite Hb, IH.
Qed.

(** The set the gate collects holds the endpoints the objects name. *)
Lemma collect_objects l :
  forallb is_object l = true ->
  exists eps, collect_schema_endpoints l = Ok eps
              /\ forall x, In x eps ->
                           exists b s, In b l /\ endpoint_of b = Some s /\ x = PStr s.
Proof.
  induction l as [|b l IH]; intros H.
  - exists []. split; [reflexivity|]. intros x [].
  - cbn [forallb] in H. apply andb_prop in H as [Hb Hl].
    destruct (IH Hl) as (eps & Heps & Hin).
    destruct b as [| | | | |d]; try discriminate.
    cbn [collect_schema_endpoints py_contains mbind result_bind bind].
    unfold dict_has, py_getitem.
    unfold is_object in Hb. apply andb_prop in Hb as [Hb _].
    destruct (dict_get d "endpoint") as [x|] eqn:Ex.
    + destruct x; try discriminate.
      cbn [mbind result_bind bind hashable]. rewrite Heps.
      cbn [mbind result_bind bind].
      eexists. split; [reflexivity|].
      intros x [<-|Hx].
      * exists (PDict d), s. split; [now left|].
        unfold endpoint_of. rewrite Ex. now split.
      * destruct (Hin x Hx) as (b & s' & Hb' & Hs' & ->).
        exists b, s'. split; [now right|]. now split.
    + exists eps. split; [exact Heps|].
      intros x Hx. destruct (Hin x Hx) as (b & s' & Hb' & Hs' & ->).
      exists b, s'. split; [now right|]. now split.
Qed.

(** The loop over the test cases reports each one whose endpoint is a
    non-empty string outside the set. *)
Lemma hallucinated_reported eps l : forall idx0,
  forallb is_object l = true ->
  exists errs,
    check_hallucinated eps idx0 l = Ok errs
    /\ forall i t ep,
         l !! i = Some t -> endpoint_of t = Some ep -> ep <> EmptyString ->
         existsb (eq_hashable (PStr ep)) eps = false ->
         In (hallucination_error (idx0 + i) ep) errs.
Proof.
  induction l as [|t l IH]; intros idx0 H.
  - exists []. split; [reflexivity|]. intros i t ep Hi. discriminate Hi.
  - cbn [forallb] in H. apply andb_prop in H as [Ht Hl].
    destruct (IH (S idx0) Hl) as (errs & Herrs & Hrep).
    destruct t as [| | | | |d]; try discriminate.
    cbn [check_hallucinated py_get_endpoint mbind result_bind bind].
    unfold dict_get_default.
    unfold is_object in Ht. apply andb_prop in Ht as [Ht _].
    destruct (dict_get d "endpoint") as [x|] eqn:Ex.
    + destruct x; try discriminate.
      cbn [truthy in_set hashable].
      destruct (negb (String.eqb s EmptyString)) eqn:Es;
        cbn [mbind result_bind bind]; rewrite Herrs; cbn [mbind result_bind bind];
        (eexists; split; [reflexivity|]);
        intros i t ep Hi Hep Hne Hout; destruct i as [|i]; cbn in Hi.
      * injection Hi as <-. unfold endpoint_of in Hep. rewrite Ex in Hep.
        injection Hep as ->. rewrite Hout. rewrite Nat.add_0_r.
        apply in_or_app. left. now left.
      * apply in_or_app. right.
        replace (idx0 + S i)%nat with (S idx0 + i)%nat by lia. eauto.
      * injection Hi as <-. unfold endpoint_of in Hep. rewrite Ex in Hep.
        injection Hep as ->. apply negb_false_iff, String.eqb_eq in Es. congruence.
      * replace (idx0 + S i)%nat with (S idx0 + i)%nat by lia. eauto.
    + cbn [truthy String.eqb negb mbind result_bind bind]. rewrite Herrs.
      cbn [mbind result_bind bind].
      eexists. split; [reflexivity|].
      intros i t ep Hi Hep Hne Hout. destruct i as [|i]; cbn in Hi.
      * injection Hi as <-. unfold endpoint_of in Hep. rewrite Ex in Hep.
        discriminate.
      * replace (idx0 + S i)%nat with (S idx0 + i)%nat by lia. eauto.
Qed.

Lemma not_in_collected schema schema' eps ep :
  Forall2 same_endpoint schema schema' ->
  (forall x, In x eps ->
             exists b s, In b schema' /\ endpoint_of b = Some s /\ x = PStr s) ->
  (forall e, In e schema -> endpoint_of e <> Some ep) ->
  existsb (eq_hashable (PStr ep)) eps = false.
Proof.
  intros Hsame Heps Hnone.
  destruct (existsb _ eps) eqn:E; [|reflexivity]. exfalso.
  apply existsb_exists in E as (x & Hx & Heq).
  destruct (Heps x Hx) as (b & s & Hb & Hs & ->).
  cbn [eq_hashable] in Heq. apply String.eqb_eq in Heq. subst s.
  clear Heps Hx. induction Hsame as [|a b' l l' [_ Hab] _ IH]; [destruct Hb|].
  destruct Hb as [->|Hb].
  - apply (Hnone a); [now left|]. now rewrite <- Hab.
  - apply IH; [|exact Hb]. intros e He. apply Hnone. now right.
Qed.

(** C5, as the specification words it, fails on three kinds of plan, each
    with a test case for an endpoint the schema does not list: a plan
    marked "reject" is refused with the one default message; a plan whose
    schema is empty is refused for that alone, the cross-reference being
    skipped; and a test case whose endpoint is the empty string is passed
    over, so that the plan is accepted. *)
Lemma hallucination_counterexample :
  let ghost := PDict [("endpoint", PStr "/ghost"); ("method", PStr "GET");
                      ("test_type", PStr "xss"); ("expected_failure", PBool true)] in
  let blank := PDict [("endpoint", PStr EmptyString); ("method", PStr "GET");
                      ("test_type", PStr "xss"); ("expected_failure", PBool true)] in
  let users := PDict [("endpoint", PStr "/users"); ("method", PStr "GET")] in
  validate_agent1_output
    [("status", PStr "reject"); ("normalized_schema", PList [users]);
     ("test_cases", PList [ghost]); ("errors", PList [])] "http://api.example.com"
  = Ok (false, ["Schema rejected by AI"])
  /\ validate_agent1_output
       [("status", PStr "ok"); ("normalized_schema", PList []);
        ("test_cases", PList [ghost]); ("errors", PList [])] "http://api.example.com"
     = Ok (false, ["normalized_schema cannot be empty"])
  /\ validate_agent1_output
       [("status", PStr "ok"); ("normalized_schema", PList [users]);
        ("test_cases", PList [blank]); ("errors", PList [])] "http://api.example.com"
     = Ok (true, []).
Proof. repeat split. Qed.

(** C5 (amended): take a plan that is not marked "reject", whose
    [normalized_schema] is a non-empty list of objects and whose
    [test_cases] is a list of objects, the endpoint and the method of an
    object being strings where it has them.  If the test case at index idx
    names an endpoint that is a non-empty string and that no element of
    [normalized_schema] names, the gate returns is_valid = false and its
    error list holds "Test case idx references non-existent endpoint:"
    followed by that endpoint. *)
Theorem hallucinated_endpoint_is_named
  (agent_output : pydict) (base_url : string)
  (schema tests : list pyval) (idx : nat) (test : pyval) (ep : string) :
  eq_str (dict_get_default agent_output "status" PNone) "reject" = false ->
  dict_get agent_output "normalized_schema" = Some (PList schema) ->
  schema <> [] ->
  forallb is_object schema = true ->
  dict_get agent_output "test_cases" = Some (PList tests) ->
  forallb is_object tests = true ->
  tests !! idx = Some test ->
  endpoint_of test = Some ep ->
  ep <> EmptyString ->
  (forall e, In e schema -> endpoint_of e <> Some ep) ->
  exists errors,
    validate_agent1_output agent_output base_url = Ok (false, errors)
    /\ In (hallucination_error idx ep) errors.
Proof.
  intros Hrej Hschema Hne Hobj Htests Hobjt Hidx Hep Hnonempty Hnone.
  destruct (check_endpoints_objects schema 0 Hobj) as (e2 & schema' & E2 & Hs2).
  destruct (check_test_cases_objects tests 0 Hobjt) as (e3 & tests' & E3 & Hs3).
  pose proof (same_endpoint_objects _ _ Hs2) as Hobj'.
  pose proof (same_endpoint_objects _ _ Hs3) as Hobjt'.
  destruct (collect_objects schema' Hobj') as (eps & Eeps & Heps).
  destruct (hallucinated_reported eps tests' 0 Hobjt') as (e4 & E4 & Hrep).
  destruct (Forall2_lookup_l _ _ _ _ _ Hs3 Hidx) as (test' & Hidx' & _ & Hep').
  rewrite Hep in Hep'.
  pose proof (Hrep idx test' ep Hidx' Hep' Hnonempty
                (not_in_collected _ _ _ _ Hs2 Heps Hnone)) as Hin.
  cbn [Nat.add] in Hin.
  assert (Hs' : schema' <> []).
  { intros ->. inversion Hs2. congruence. }
  assert (Ht' : tests' <> []).
  { intros ->. discriminate Hidx'. }
  assert (Ht : tests <> []).
  { intros ->. discriminate Hidx. }
  unfold validate_agent1_output. rewrite Hrej. cbv zeta.
  assert (D2 : dict_get_default agent_output "normalized_schema" (PList [])
               = PList schema) by (unfold dict_get_default; now rewrite Hschema).
  assert (D3 : dict_get_default agent_output "test_cases" (PList [])
               = PList tests) by (unfold dict_get_default; now rewrite Htests).
  rewrite D2, D3.
  assert (C2 : check_normalized_schema (PList schema) = Ok (e2, PList schema')).
  { unfold check_normalized_schema. rewrite E2.
    destruct schema; [congruence|reflexivity]. }
  assert (C3 : check_test_cases_field (PList tests) = Ok (e3, PList tests')).
  { unfold check_test_cases_field. rewrite E3.
    destruct tests; [congruence|reflexivity]. }
  assert (C4 : check_cross_reference (PList schema') (PList tests') = Ok e4).
  { unfold check_cross_reference.
    destruct schema'; [congruence|]. destruct tests'; [congruence|].
    cbn [truthy andb py_iter mbind result_bind bind].
    rewrite Eeps. cbn [mbind result_bind bind]. exact E4. }
  rewrite C2. cbn [mbind result_bind bind].
  rewrite C3. cbn [mbind result_bind bind].
  rewrite C4. cbn [mbind result_bind bind].
  match goal with
  | |- exists errors, Ok (_, ?l) = _ /\ _ =>
      assert (Hl : In (hallucination_error idx ep) l)
  end.
  { apply in_or_app. left. apply in_or_app. right. exact Hin. }
  eexists. split; [|exact Hl].
  match type of Hl with
  | In _ ?l => destruct l; [destruct Hl|reflexivity]
  end.
Qed.

Lemma hallucinated_endpoint_is_named_witness :
  let users := PDict [("endpoint", PStr "/users"); ("method", PStr "get")] in
  let good := PDict [("endpoint", PStr "/users"); ("method", PStr "GET");
                     ("test_type", PStr "xss"); ("expected_failure", PBool true)] in
  let ghost := PDict [("endpoint", PStr "/ghost"); ("method", PStr "post");
                      ("test_type", PStr "sql_injection");
                      ("expected_failure", PBool true)] in
  let plan := [("status", PStr "ok"); ("normalized_schema", PList [users]);
               ("test_cases", PList [good; ghost]); ("errors", PList [])] in
  exists errors,
    validate_agent1_output plan "http://api.example.com" = Ok (false, errors)
    /\ In "Test case 1 references non-existent endpoint: /ghost" errors.
Proof.
  intros users good ghost plan.
  apply (hallucinated_endpoint_is_named plan "http://api.example.com"
           [users] [good; ghost] 1 ghost "/ghost");
    try reflexivity; try discriminate.
  intros e [<-|[]]. discriminate.
Defined.

End CrossReferenceProps.

(* ================================================================== *)
(** * The content hash of a plan *)
(* ================================================================== *)

Module HashProps.
Import Py Json ValidationService.

Lemma ltb_lt a b : String.ltb a b = true <-> String_as_OT.lt a b.
Proof.
  rewrite <- String_as_OT.cmp_lt. unfold String.ltb, String_as_OT.cmp.
  destruct (String.compare a b); split; congruence.
Qed.

Lemma ltb_trans a b c :
  String.ltb a b = true -> String.ltb b c = true -> String.ltb a c = true.
Proof. rewrite !ltb_lt. apply String_as_OT.lt_trans. Qed.

Lemma ltb_irrefl a : String.ltb a a = false.
Proof.
  destruct (String.ltb a a) eqn:E; [|reflexivity].
  apply ltb_lt in E. apply String_as_OT.lt_not_eq in E.
  exfalso. apply E. reflexivity.
Qed.

(** Of two different keys one is below the other. *)
Lemma ltb_total a b : a <> b -> String.ltb a b = false -> String.ltb b a = true.
Proof.
  unfold String.ltb. intros Hne H.
  rewrite (String.compare_antisym b a).
  destruct (String.compare a b) eqn:E; simpl; try congruence.
  apply String.compare_eq_iff in E. congruence.
Qed.

Section Sorting.
Context {A : Type}.
Implicit Types (kv : string * A) (l : list (string * A)).

Lemma insert_item_perm kv l : Permutation (kv :: l) (insert_item kv l).
Proof.
  induction l as [|kv' l IH]; cbn [insert_item]; [reflexivity|].
  destruct (String.ltb (fst kv) (fst kv')); [reflexivity|].
  rewrite perm_swap. now apply perm_skip.
Qed.

Lemma sort_items_perm l : Permutation l (sort_items l).
Proof.
  induction l as [|kv l IH]; cbn [sort_items]; [reflexivity|].
  rewrite <- insert_item_perm. now apply perm_skip.
Qed.

Lemma insert_item_sorted kv l :
  StronglySorted key_lt l ->
  (forall x, In x l -> fst x <> fst kv) ->
  StronglySorted key_lt (insert_item kv l).
Proof.
  induction 1 as [|kv' l Hs IH Hall]; intros Hfresh; cbn [insert_item].
  - repeat constructor.
  - destruct (String.ltb (fst kv) (fst kv')) eqn:E.
    + constructor; [now constructor|].
      constructor; [exact E|].
      rewrite List.Forall_forall in Hall |- *. intros x Hx.
      unfold key_lt in *. eapply ltb_trans; eauto.
    + assert (Hlt : key_lt kv' kv).
      { apply ltb_total; [|exact E]. intros Heq. apply (Hfresh kv'); [now left|].
        now symmetry. }
      constructor.
      * apply IH. intros x Hx. apply Hfresh. now right.
      * rewrite List.Forall_forall in Hall |- *. intros x Hx.
        apply (Permutation_in _ (Permutation_sym (insert_item_perm kv l))) in Hx.
        destruct Hx as [<-|Hx]; [exact Hlt|now apply Hall].
Qed.

Lemma sort_items_sorted l :
  List.NoDup (map fst l) -> StronglySorted key_lt (sort_items l).
Proof.
  induction l as [|kv l IH]; cbn [sort_items map]; intros Hnd; [constructor|].
  inversion Hnd as [|? ? Hnotin Hnd']; subst.
  apply insert_item_sorted; [now apply IH|].
  intros x Hx Heq. apply Hnotin. rewrite <- Heq.
  apply in_map. now apply (Permutation_in _ (Permutation_sym (sort_items_perm l))).
Qed.

(** A list sorted on distinct keys is the only sorted arrangement of its
    items. *)
Lemma sorted_perm_unique l : forall l',
  StronglySorted key_lt l -> StronglySorted key_lt l' ->
  Permutation l l' -> l = l'.
Proof.
  induction l as [|a l IH]; intros l' Hs Hs' Hp.
  - now apply Permutation_nil in Hp.
  - destruct l' as [|a' l'].
    { apply Permutation_sym, Permutation_nil in Hp. discriminate. }
    apply StronglySorted_inv in Hs as [Hs Ha].
    apply StronglySorted_inv in Hs' as [Hs' Ha'].
    rewrite List.Forall_forall in Ha, Ha'.
    assert (Heq : a = a').
    { assert (H1 : In a (a' :: l')) by (apply (Permutation_in _ Hp); now left).
      assert (H2 : In a' (a :: l))
        by (apply (Permutation_in _ (Permutation_sym Hp)); now left).
      destruct H1 as [H1|H1]; [now symmetry|].
      destruct H2 as [H2|H2]; [exact H2|].
      exfalso. pose proof (ltb_trans _ _ _ (Ha _ H2) (Ha' _ H1)) as H.
      rewrite ltb_irrefl in H. discriminate. }
    subst a'. f_equal. apply IH; try assumption.
    now apply Permutation_cons_inv in Hp.
Qed.

(** [sorted] gives the same list whatever order the items come in. *)
Lemma sort_items_order_free l l' :
  List.NoDup (map fst l) -> Permutation l l' -> sort_items l = sort_items l'.
Proof.
  intros Hnd Hp.
  assert (Hnd' : List.NoDup (map fst l')).
  { eapply Permutation_NoDup; [|exact Hnd]. now apply Permutation_map. }
  apply sorted_perm_unique; try now apply sort_items_sorted.
  rewrite <- (sort_items_perm l), <- (sort_items_perm l'). exact Hp.
Qed.

End Sorting.

Lemma dumps_at_dict indent depth d :
  dumps_at indent true depth (PDict d) =
  match d with
  | [] => "{}"
  | _ =>
      "{" ++ opening indent (S depth)
          ++ PyStr.join (item_sep indent (S depth))
               (map (fun kv => encode_string (fst kv) ++ ": " ++ snd kv)
                    (sort_items (map (dump_item indent (S depth)) d)))
          ++ opening indent depth ++ "}"
  end.
Proof.
  destruct d as [|kv d]; [reflexivity|].
  cbn [dumps_at].
  erewrite (map_ext _ (dump_item indent (S depth))); [reflexivity|].
  now intros [k w].
Qed.

Lemma dumps_at_list indent depth l :
  dumps_at indent true depth (PList l) =
  match l with
  | [] => "[]"
  | _ =>
      "[" ++ opening indent (S depth)
          ++ PyStr.join (item_sep indent (S depth))
               (map (dumps_at indent true (S depth)) l)
          ++ opening indent depth ++ "]"
  end.
Proof. destruct l; reflexivity. Qed.

Lemma dump_item_keys indent depth d :
  map fst (map (dump_item indent depth) d) = map fst d.
Proof. rewrite map_map. apply map_ext. now intros [k w]. Qed.

(** With [sort_keys] on, [json.dumps] prints two values that are equal as
    maps as the same text. *)
Lemma dumps_same_value :
  (forall v1 v2, same_value v1 v2 ->
     forall indent depth,
       dumps_at indent true depth v1 = dumps_at indent true depth v2)
  /\ (forall l1 l2, same_list l1 l2 ->
        forall indent depth,
          map (dumps_at indent true depth) l1 = map (dumps_at indent true depth) l2)
  /\ (forall d1 d2, same_items d1 d2 ->
        forall indent depth,
          map (dump_item indent depth) d1 = map (dump_item indent depth) d2).
Proof.
  apply same_mutind; try reflexivity.
  - (* lists *)
    intros l1 l2 Hl IH indent depth. rewrite !dumps_at_list.
    pose proof (IH indent (S depth)) as Hmap.
    assert (Hlen : length l1 = length l2).
    { apply (f_equal (@length _)) in Hmap. now rewrite !length_map in Hmap. }
    destruct l1, l2; try discriminate; [reflexivity|].
    now rewrite Hmap.
  - (* dicts *)
    intros d1 d2 d2' Hnd Hitems IH Hperm indent depth. rewrite !dumps_at_dict.
    pose proof (IH indent (S depth)) as Hmap.
    assert (Hlen : length d1 = length d2).
    { rewrite <- (Permutation_length Hperm).
      apply (f_equal (@length _)) in Hmap. now rewrite !length_map in Hmap. }
    assert (Hsort : sort_items (map (dump_item indent (S depth)) d1)
                    = sort_items (map (dump_item indent (S depth)) d2)).
    { apply sort_items_order_free.
      - now rewrite dump_item_keys.
      - rewrite Hmap. now apply Permutation_map. }
    destruct d1, d2; try discriminate; [reflexivity|].
    now rewrite Hsort.
  - (* a longer list *)
    intros v1 v2 l1 l2 _ IHv _ IHl indent depth. cbn [map].
    now rewrite IHv, IHl.
  - (* a longer dict *)
    intros k v1 v2 d1 d2 _ IHv _ IHd indent depth. cbn [map].
    unfold dump_item at 1 3. cbn [fst snd]. now rewrite IHv, IHd.
Qed.

Lemma dict_get_in d k v :
  List.NoDup (map fst d) -> (In (k, v) d <-> dict_get d k = Some v).
Proof.
  induction d as [|[k' w] d IH]; cbn [map fst dict_get In]; intros Hnd.
  - split; [intros []|discriminate].
  - inversion Hnd as [|? ? Hnotin Hnd']; subst.
    destruct (String.eqb_spec k' k) as [->|Hne].
    + split.
      * intros [H|H]; [congruence|].
        exfalso. apply Hnotin. now apply (in_map fst) in H.
      * intros H. left. congruence.
    + rewrite <- (IH Hnd'). split; [intros [H|H]; [congruence|exact H]|now right].
Qed.

Lemma nodup_keys_items (d : pydict) : List.NoDup (map fst d) -> List.NoDup d.
Proof.
  induction d as [|kv d IH]; cbn [map]; intros Hnd; [constructor|].
  inversion Hnd as [|? ? Hnotin Hnd']; subst.
  constructor; [|now apply IH]. intros Hin. apply Hnotin. now apply in_map.
Qed.

(** Two dicts with the same lookups hold the same items. *)
Lemma same_lookups_perm d1 d2 :
  List.NoDup (map fst d1) -> List.NoDup (map fst d2) ->
  (forall k, dict_get d1 k = dict_get d2 k) ->
  Permutation d1 d2.
Proof.
  intros H1 H2 Hget. apply Permutation.NoDup_Permutation; try now apply nodup_keys_items.
  intros [k v]. rewrite (dict_get_in d1 k v H1), (dict_get_in d2 k v H2).
  now rewrite Hget.
Qed.

(** C10: the content hash does not depend on the order in which the keys
    of the schema were inserted.  Two schemas that are equal as maps, at
    every depth, hash to the same digest with the same base URL; so do, in
    particular, two schemas with distinct keys that answer every lookup
    alike.  The hash is a function of its two arguments, so that calling
    it again gives the same digest. *)
Theorem schema_hash_ignores_key_order
  (schema1 schema2 : pydict) (base_url : string) :
  (same_value (PDict schema1) (PDict schema2) ->
   calculate_schema_hash schema1 base_url = calculate_schema_hash schema2 base_url)
  /\ (List.NoDup (map fst schema1) -> List.NoDup (map fst schema2) ->
      (forall k, dict_get schema1 k = dict_get schema2 k) ->
      calculate_schema_hash schema1 base_url = calculate_schema_hash schema2 base_url).
Proof.
  assert (Hdump : forall d1 d2,
            Json.dumps None true (PDict d1) = Json.dumps None true (PDict d2) ->
            calculate_schema_hash d1 base_url = calculate_schema_hash d2 base_url).
  { intros d1 d2 H. unfold calculate_schema_hash. now rewrite H. }
  split.
  - intros Hsame. apply Hdump. unfold Json.dumps.
    now apply (proj1 dumps_same_value).
  - intros H1 H2 Hget. apply Hdump. unfold Json.dumps.
    pose proof (same_lookups_perm _ _ H1 H2 Hget) as Hperm.
    rewrite !dumps_at_dict.
    assert (Hsort : sort_items (map (dump_item None 1) schema1)
                    = sort_items (map (dump_item None 1) schema2)).
    { apply sort_items_order_free; [now rewrite dump_item_keys|].
      now apply Permutation_map. }
    pose proof (Permutation_length Hperm) as Hlen.
    destruct schema1, schema2; try discriminate; [reflexivity|].
    now rewrite Hsort.
Qed.

Lemma schema_hash_ignores_key_order_witness :
  let get := PDict [("summary", PStr "list users"); ("responses", PList [PInt 200])] in
  let get' := PDict [("responses", PList [PInt 200]); ("summary", PStr "list users")] in
  let schema1 := [("openapi", PStr "3.0.0"); ("paths", PDict [("/users", get)])] in
  let schema2 := [("paths", PDict [("/users", get')]); ("openapi", PStr "3.0.0")] in
  same_value (PDict schema1) (PDict schema2)
  /\ schema1 <> schema2
  /\ calculate_schema_hash schema1 "http://api.example.com"
     = calculate_schema_hash schema2 "http://api.example.com".
Proof.
  intros get get' schema1 schema2.
  assert (Hsame : same_value (PDict schema1) (PDict schema2)).
  { apply (SameDict _ _ [("openapi", PStr "3.0.0"); ("paths", PDict [("/users", get')])]).
    - repeat constructor; cbn; intuition discriminate.
    - constructor; [constructor|]. constructor; [|constructor].
      apply (SameDict _ _ [("/users", get')]).
      + repeat constructor. cbn. intuition.
      + constructor; [|constructor].
        apply (SameDict _ _ [("summary", PStr "list users");
                             ("responses", PList [PInt 200])]).
        * repeat constructor; cbn; intuition discriminate.
        * repeat constructor.
        * apply perm_swap.
      + reflexivity.
    - apply perm_swap. }
  split; [exact Hsame|]. split; [discriminate|].
  exact (proj1 (schema_hash_ignores_key_order schema1 schema2 "http://api.example.com")
           Hsame).
Defined.

End HashProps.

(* ================================================================== *)
(** * The enrichment of failures *)
(* ================================================================== *)

Module EnrichmentProps.
Import Py Agent2Service SchemaRoutes DictProps.

Lemma analyze_failure_log valid model log fd :
  snd (analyze_failure valid model log fd) =
  (log ++ if valid then [fd] else [])%list.
Proof.
  unfold analyze_failure. destruct valid; cbn [negb snd].
  - reflexivity.
  - now rewrite app_nil_r.
Qed.

(** The batch submits each failure once when the key is valid, and none
    otherwise; each analysis carries the endpoint and the test type of its
    failure. *)
Lemma batch_spec valid model fs : forall log,
  let out := analyze_failures_batch valid model log (map failure_data_of fs) in
  snd out = (log ++ if valid then map failure_data_of fs else [])%list
  /\ Forall2 analysis_for fs (fst out).
Proof.
  induction fs as [|f fs IH]; intros log; cbn [map analyze_failures_batch].
  - cbn [fst snd]. split; [|constructor]. destruct valid; now rewrite app_nil_r.
  - pose proof (analyze_failure_log valid model log (failure_data_of f)) as Hlog.
    destruct (analyze_failure valid model log (failure_data_of f)) as [a log1].
    cbn [snd] in Hlog. subst log1.
    specialize (IH (log ++ (if valid then [failure_data_of f] else []))%list).
    destruct (analyze_failures_batch valid model _ (map failure_data_of fs))
      as [results log2].
    cbn [fst snd] in IH |- *. destruct IH as [-> Hall]. split.
    + rewrite <- app_assoc. destruct valid; reflexivity.
    + constructor; [|exact Hall]. split.
      * rewrite !dict_get_set_other by discriminate. now rewrite dict_get_set_same.
      * rewrite dict_get_set_other by discriminate. now rewrite dict_get_set_same.
Qed.

Lemma cached_entry_with_analysis f a :
  analysis_for f a -> cached_entry (with_analysis f a) = stored_view a.
Proof.
  intros [He Ht]. unfold cached_entry, stored_view, with_analysis, dict_get_default.
  cbn. now rewrite He, Ht.
Qed.

(** Writing the analyses changes neither which rows belong to the run nor
    their number. *)
Lemma store_analyses_runs rid fs : forall results,
  map run_id (store_analyses rid fs results) = map run_id fs.
Proof.
  induction fs as [|f fs IH]; intros results; cbn [store_analyses]; [reflexivity|].
  destruct (unanalyzed rid f).
  - destruct results as [|a results]; [reflexivity|]. cbn [map]. now rewrite IH.
  - cbn [map]. now rewrite IH.
Qed.

Lemma filter_length_by_run rid (fs fs' : list TestFailure) :
  map run_id fs = map run_id fs' ->
  length (List.filter (of_run rid) fs) = length (List.filter (of_run rid) fs').
Proof.
  revert fs'. induction fs as [|f fs IH]; intros [|f' fs'] H; try discriminate;
    [reflexivity|].
  cbn [map] in H. injection H as Hf Hfs. unfold of_run in *. cbn [List.filter].
  rewrite Hf. destruct (run_id f' =? rid); cbn [length]; now rewrite (IH fs' Hfs).
Qed.

(** On a run none of whose failures has been analysed, the rows of the run
    after the write are the analyses in their five stored fields. *)
Lemma stored_rows_are_the_analyses rid fs : forall results,
  (forall f, In f fs -> run_id f = rid -> root_cause f = PNone) ->
  Forall2 analysis_for (List.filter (unanalyzed rid) fs) results ->
  map cached_entry (List.filter (of_run rid) (store_analyses rid fs results))
  = map stored_view results.
Proof.
  induction fs as [|f fs IH]; intros results Hfresh Hall.
  - inversion Hall. reflexivity.
  - assert (Hfresh' : forall f', In f' fs -> run_id f' = rid -> root_cause f' = PNone)
      by (intros f' Hf'; apply Hfresh; now right).
    cbn [List.filter store_analyses] in *.
    unfold unanalyzed in *. destruct (run_id f =? rid) eqn:Er.
    + rewrite (Hfresh f (or_introl eq_refl)) in * by now apply Z.eqb_eq.
      cbn [is_none andb] in *.
      inversion Hall as [|? a ? results' Hfa Hall']; subst.
      cbn [List.filter]. unfold of_run at 1. cbn [run_id with_analysis].
      rewrite Er. cbn [map]. rewrite cached_entry_with_analysis by assumption.
      f_equal. now apply IH.
    + cbn [andb] in *. cbn [List.filter]. unfold of_run at 1. rewrite Er.
      now apply IH.
Qed.

(** A request on a run whose flag is set calls nothing and changes
    nothing; it answers from the store. *)
Lemma flag_set_answers_from_store rid uid key model w run :
  runs w !! rid = Some run -> agent2_called run = true ->
  snd (analyze_failures rid uid key model w) = w
  /\ (user_id run = uid -> List.filter (of_run rid) (failures w) <> [] ->
      fst (analyze_failures rid uid key model w)
      = Cached (map cached_entry (List.filter (of_run rid) (failures w)))).
Proof.
  intros Hrun Hflag. unfold analyze_failures. rewrite Hrun, Hflag.
  destruct (user_id run =? uid) eqn:Eu; cbn [negb].
  - destruct (List.filter (of_run rid) (failures w)) as [|f fs] eqn:Ef;
      cbn [length Nat.eqb fst snd].
    + split; [reflexivity|]. intros _ H. now contradiction H.
    + split; reflexivity.
  - split; [reflexivity|]. intros <-. rewrite Z.eqb_refl in Eu. discriminate.
Qed.

(** What a request does: either it leaves the world as it is and reports
    no analyses, or it has found the run with its flag unset, has run the
    batch on the failures not analysed yet, has written the analyses and
    has set the flag. *)
Lemma request_outcome rid uid key model w :
  let out := analyze_failures rid uid key model w in
  (snd out = w
   /\ forall result a, fst out = Analyzed result -> analyses result <> Some a)
  \/ exists run,
       let valid := match key with KeyValid => true | _ => false end in
       let batch :=
         analyze_failures_batch valid model (calls w)
           (map failure_data_of (List.filter (unanalyzed rid) (failures w))) in
       runs w !! rid = Some run /\ user_id run = uid
       /\ List.filter (of_run rid) (failures w) <> []
       /\ out =
          (Analyzed {| analyzed_count := length (fst batch);
                       analyses := Some (fst batch) |},
           {| runs := <[rid := {| user_id := user_id run; agent2_called := true |}]>
                        (runs w);
              failures := store_analyses rid (failures w) (fst batch);
              calls := snd batch |}).
Proof.
  intros out. unfold out, analyze_failures.
  destruct (runs w !! rid) as [run|] eqn:Hrun;
    [|left; split; [reflexivity|discriminate]].
  destruct (user_id run =? uid) eqn:Eu; cbn [negb];
    [|left; split; [reflexivity|discriminate]].
  apply Z.eqb_eq in Eu.
  destruct (List.filter (of_run rid) (failures w)) as [|f0 fs0] eqn:Ef;
    cbn [length Nat.eqb]; [left; split; [reflexivity|discriminate]|].
  destruct (agent2_called run) eqn:Hflag;
    [left; split; [reflexivity|discriminate]|].
  unfold analyze_failures_with_agent2.
  destruct key; [left; split; [reflexivity|discriminate]| |];
    (destruct (List.filter (unanalyzed rid) (failures w)) as [|f1 fs1] eqn:Es;
     [left; split; [reflexivity|]; intros result a H; injection H as <-; discriminate|]);
    right; exists run; cbv zeta; rewrite Hrun;
    match goal with
    | |- context [analyze_failures_batch ?v ?m ?l ?d] =>
        destruct (analyze_failures_batch v m l d) as [results log] eqn:Eb
    end; cbn [fst snd];
    (split; [reflexivity|]); (split; [exact Eu|]); (split; [discriminate|]);
    reflexivity.
Qed.

(** C8, as the specification words it, fails: the second request does not
    produce the analyses of the first.  The first answers with the
    analyses as the batch built them, which carry the status code of the
    failure and only the fields the Analyzer gave; the second answers with
    five fields read from the stored rows, without the status code and
    with the stored default where the Analyzer left a field out. *)
Lemma second_answer_counterexample :
  let failure rid ep reason :=
    {| run_id := rid; endpoint := PStr ep; test_type := PStr "xss";
       request_payload := PDict []; response_snippet := "oops";
       status_code := PInt 500; failure_reason := PStr reason;
       root_cause := PNone; risk_level := PNone; fix_suggestion := PNone |} in
  let w := {| runs := <[1 := {| user_id := 7; agent2_called := false |}]> ∅;
              failures := [failure 1 "/users" "5xx Server Error (500)"];
              calls := [] |} in
  let model : llm := fun _ _ =>
    ReplyJson (PDict [("root_cause", PStr "unhandled exception");
                      ("risk_level", PStr "HIGH")]) in
  let first := analyze_failures 1 7 KeyValid model w in
  let second := analyze_failures 1 7 KeyValid model (snd first) in
  let analyses1 := [[("root_cause", PStr "unhandled exception");
                     ("risk_level", PStr "HIGH");
                     ("endpoint", PStr "/users");
                     ("test_type", PStr "xss");
                     ("status_code", PInt 500)]] in
  let analyses2 := [[("endpoint", PStr "/users");
                     ("test_type", PStr "xss");
                     ("root_cause", PStr "unhandled exception");
                     ("risk_level", PStr "HIGH");
                     ("fix_suggestion", PStr EmptyString)]] in
  fst first = Analyzed {| analyzed_count := 1; analyses := Some analyses1 |}
  /\ fst second = Cached analyses2
  /\ length (calls (snd second)) = 1%nat
  /\ map (fun a => dict_get a "status_code") analyses1 = [Some (PInt 500)]
  /\ map (fun a => dict_get a "status_code") analyses2 = [None]
  /\ map (fun a => dict_get a "fix_suggestion") analyses1 = [None]
  /\ map (fun a => dict_get a "fix_suggestion") analyses2 = [Some (PStr EmptyString)]
  /\ analyses1 <> analyses2.
Proof.
  intros failure w model first second analyses1 analyses2.
  do 7 (split; [vm_compute; reflexivity|]).
  intros H. discriminate H.
Qed.

(** C8 (amended): of two requests to analyse the failures of a run, made
    one after the other, at most one calls the Analyzer.  When the first has analysed
    the failures, it has called the Analyzer once for each failure not
    analysed before (and not at all with a key that is not valid) and has
    set the flag of the run; the second then finds the flag set, leaves the
    store and the record of calls as they are, and answers with the stored
    analyses, which on a run not analysed before are the analyses of the
    first request in their five stored fields. *)
Theorem enrichment_calls_analyzer_once
  (rid uid : Z) (key1 key2 : key_setup) (model : llm) (w : world) :
  let first := analyze_failures rid uid key1 model w in
  let second := analyze_failures rid uid key2 model (snd first) in
  (calls (snd first) = calls w \/ snd second = snd first)
  /\ (forall result analyses1,
        fst first = Analyzed result -> analyses result = Some analyses1 ->
        (exists run, runs (snd first) !! rid = Some run /\ agent2_called run = true)
        /\ calls (snd first)
           = (calls w ++ match key1 with
                         | KeyValid =>
                             map failure_data_of
                               (List.filter (unanalyzed rid) (failures w))
                         | _ => []
                         end)%list
        /\ snd second = snd first
        /\ fst second
           = Cached (map cached_entry
                       (List.filter (of_run rid) (failures (snd first))))
        /\ ((forall f, In f (failures w) -> run_id f = rid -> root_cause f = PNone) ->
            fst second = Cached (map stored_view analyses1))).
Proof.
  intros first second.
  destruct (request_outcome rid uid key1 model w) as [[Hw Hnone]|(run & Hout)].
  - fold first in Hw, Hnone. split; [left; now rewrite Hw|].
    intros result a H Ha. exfalso. exact (Hnone result a H Ha).
  - cbv zeta in Hout. fold first in Hout.
    destruct Hout as (Hrun & Hu & Hne & Hfirst).
    set (valid := match key1 with KeyValid => true | _ => false end) in *.
    set (selected := List.filter (unanalyzed rid) (failures w)) in *.
    destruct (batch_spec valid model selected (calls w)) as [Hlog Hall].
    cbv zeta in Hlog, Hall.
    set (batch := analyze_failures_batch valid model (calls w)
                    (map failure_data_of selected)) in *.
    set (run' := {| user_id := user_id run; agent2_called := true |}) in *.
    assert (Hrun' : runs (snd first) !! rid = Some run').
    { rewrite Hfirst. cbn [snd runs]. apply lookup_insert_eq. }
    assert (Hne' : List.filter (of_run rid) (failures (snd first)) <> []).
    { rewrite Hfirst. cbn [snd failures]. intros Hnil. apply Hne.
      apply length_zero_iff_nil. apply length_zero_iff_nil in Hnil.
      rewrite <- Hnil. apply filter_length_by_run.
      symmetry. apply store_analyses_runs. }
    destruct (flag_set_answers_from_store rid uid key2 model (snd first) run'
                Hrun' eq_refl) as [Hsame Hcached].
    fold second in Hsame, Hcached.
    specialize (Hcached Hu Hne').
    split; [right; exact Hsame|].
    intros result analyses1 Hres Ha.
    rewrite Hfirst in Hres. cbn [fst] in Hres. injection Hres as <-.
    cbn [analyses] in Ha. injection Ha as <-.
    split; [exists run'; split; [exact Hrun'|reflexivity]|].
    split.
    { rewrite Hfirst. cbn [snd calls]. rewrite Hlog. unfold valid.
      destruct key1; reflexivity. }
    split; [exact Hsame|]. split; [exact Hcached|].
    intros Hfresh. rewrite Hcached. f_equal.
    rewrite Hfirst. cbn [snd failures].
    apply stored_rows_are_the_analyses; assumption.
Qed.

Lemma enrichment_calls_analyzer_once_witness :
  let failure rid ep reason :=
    {| run_id := rid; endpoint := PStr ep; test_type := PStr "xss";
       request_payload := PDict []; response_snippet := "oops";
       status_code := PInt 500; failure_reason := PStr reason;
       root_cause := PNone; risk_level := PNone; fix_suggestion := PNone |} in
  let w := {| runs := <[1 := {| user_id := 7; agent2_called := false |}]> ∅;
              failures := [failure 1 "/users" "5xx Server Error (500)";
                           failure 2 "/other" "5xx Server Error (500)";
                           failure 1 "/orders" "XSS attempt succeeded"];
              calls := [] |} in
  let model : llm := fun n _ =>
    match n with
    | O => ReplyJson (PDict [("root_cause", PStr "unhandled exception");
                             ("risk_level", PStr "HIGH");
                             ("fix_suggestion", PStr "validate the input")])
    | _ => ReplyNotJson
    end in
  let first := analyze_failures 1 7 KeyValid model w in
  let second := analyze_failures 1 7 KeyValid model (snd first) in
  exists result analyses1,
    fst first = Analyzed result /\ analyses result = Some analyses1
    /\ (forall f, In f (failures w) -> run_id f = 1 -> root_cause f = PNone)
    /\ length (calls (snd first)) = 2%nat
    /\ calls (snd second) = calls (snd first)
    /\ fst second = Cached (map stored_view analyses1).
Proof.
  intros failure w model first second.
  destruct (request_outcome 1 7 KeyValid model w) as [[_ Hnone]|(run & Hout)].
  - exfalso. apply (Hnone {| analyzed_count := 2;
                             analyses := Some (fst (analyze_failures_batch true model []
                               (map failure_data_of
                                  (List.filter (unanalyzed 1) (failures w))))) |} _
                      eq_refl eq_refl).
  - cbv zeta in Hout. destruct Hout as (_ & _ & _ & Hfirst). fold first in Hfirst.
    eexists _, _.
    split; [rewrite Hfirst; reflexivity|]. split; [reflexivity|].
    assert (Hfresh : forall f, In f (failures w) -> run_id f = 1 -> root_cause f = PNone).
    { intros f [<-|[<-|[<-|[]]]] _; reflexivity. }
    split; [exact Hfresh|].
    destruct (enrichment_calls_analyzer_once 1 7 KeyValid KeyValid model w)
      as [_ H].
    destruct (H _ _ (f_equal fst Hfirst) eq_refl) as (_ & Hcalls & Hsame & _ & Hview).
    fold first in Hcalls, Hsame, Hview. fold second in Hsame, Hview.
    split; [rewrite Hcalls; reflexivity|].
    split; [now rewrite Hsame|].
    exact (Hview Hfresh).
Defined.

End EnrichmentProps.

(* ================================================================== *)
(** * The gate accepts the well-formed plans, and no others *)
(* ================================================================== *)

Module GateSoundness.
Import Py ValidationService GateSpec DictProps CrossReferenceProps.

Lemma app_nil_both {A : Type} (l1 l2 : list A) :
  (l1 ++ l2)%list = [] <-> l1 = [] /\ l2 = [].
Proof.
  split.
  - intros H. now apply app_eq_nil in H.
  - now intros [-> ->].
Qed.

Lemma dict_has_set_other d key key' v :
  key <> key' -> dict_has (dict_set d key v) key' = dict_has d key'.
Proof. intros H. unfold dict_has. now rewrite dict_get_set_other. Qed.

(** The loop body of step 2 is silent exactly on a well-formed element,
    which it leaves with its method in upper case. *)
Lemma check_endpoint_clean idx v v' :
  check_endpoint idx v = Ok ([], v') <->
  well_formed_endpoint v = true /\ v' = normalize_method v.
Proof.
  destruct v as [| | | | |d]; try (split; [discriminate|intros [? _]; discriminate]).
  unfold check_endpoint, well_formed_endpoint, normalize_method.
  destruct (dict_get d "method") as [m|] eqn:Em.
  - destruct m as [| | |m| |];
      try (cbn [py_upper mbind result_bind bind valid_method andb];
           rewrite andb_false_r;
           split; [discriminate|intros [? _]; discriminate]).
    cbn [py_upper mbind result_bind bind valid_method needs_body].
    unfold dict_get_default. rewrite dict_get_set_same.
    rewrite dict_has_set_other by discriminate.
    rewrite dict_get_set_other by discriminate.
    change (in_strs (PStr (PyStr.upper m)) ["POST"; "PUT"; "PATCH"])
      with (existsb (String.eqb (PyStr.upper m)) ["POST"; "PUT"; "PATCH"]).
    destruct (dict_get d "endpoint") as [[| | |path| |]|];
      try (split; [discriminate|intros [? _]; discriminate]).
    destruct (PyStr.startswith path "/");
      [|split; [discriminate|intros [? _]; discriminate]].
    destruct (existsb (String.eqb (PyStr.upper m)) HTTPMethod_values);
      [|split; [discriminate|intros [? _]; discriminate]].
    destruct (existsb (String.eqb (PyStr.upper m)) ["POST"; "PUT"; "PATCH"]);
      destruct (dict_has d "request_body"); cbn [andb negb orb app];
      split; try discriminate; try (intros [? _]; discriminate).
    all: try (intros H; injection H as <-; split; reflexivity).
    all: intros [_ ->]; reflexivity.
  - cbn [mbind result_bind bind]. rewrite andb_false_r.
    split; [|intros [? _]; discriminate].
    intros H. injection H as H _. apply app_nil_both in H as [_ H]. discriminate.
Qed.

Lemma check_endpoints_clean l : forall idx l',
  check_endpoints idx l = Ok ([], l') <->
  forallb well_formed_endpoint l = true /\ l' = map normalize_method l.
Proof.
  induction l as [|v l IH]; intros idx l'; cbn [check_endpoints forallb map].
  - split.
    + intros H. injection H as <-. now split.
    + now intros [_ ->].
  - destruct (check_endpoint idx v) as [[e v1]|] eqn:Ev;
      cbn [mbind result_bind bind].
    + destruct (check_endpoints (S idx) l) as [[es l1]|] eqn:El;
        cbn [mbind result_bind bind].
      * split.
        -- intros H. injection H as H <-. apply app_nil_both in H as [-> ->].
           apply check_endpoint_clean in Ev as [-> ->].
           apply IH in El as [-> ->]. now split.
        -- intros [H ->]. apply andb_prop in H as [Hv Hl].
           assert (Hv' : check_endpoint idx v = Ok ([], normalize_method v))
             by now apply check_endpoint_clean.
           assert (Hl' : check_endpoints (S idx) l = Ok ([], map normalize_method l))
             by now apply IH.
           rewrite Hv' in Ev. rewrite Hl' in El.
           injection Ev as <- <-. injection El as <- <-. reflexivity.
      * split; [discriminate|]. intros [H ->]. apply andb_prop in H as [_ Hl].
        assert (Hl' : check_endpoints (S idx) l = Ok ([], map normalize_method l))
          by now apply IH.
        congruence.
    + split; [discriminate|]. intros [H ->]. apply andb_prop in H as [Hv _].
      assert (Hv' : check_endpoint idx v = Ok ([], normalize_method v))
        by now apply check_endpoint_clean.
      congruence.
Qed.

Lemma ok_clean {A : Type} (errs : list string) (x y : A) :
  Ok (errs, x) = Ok ([], y) <-> errs = [] /\ y = x.
Proof.
  split.
  - intros H. injection H as -> ->. now split.
  - now intros [-> ->].
Qed.

Lemma missing_fields_nil d fields msg :
  missing_fields d fields msg = [] <-> forallb (dict_has d) fields = true.
Proof.
  unfold missing_fields. induction fields as [|f fields IH]; cbn [List.filter forallb map].
  - split; reflexivity.
  - destruct (dict_has d f); cbn [negb andb map].
    + exact IH.
    + split; discriminate.
Qed.

(** The loop body of step 3 is silent exactly on an object that has the
    four required fields, a known test type and a valid method. *)
Lemma check_test_case_clean idx v v' :
  check_test_case idx v = Ok ([], v') <->
  well_formed_fields v = true /\ v' = normalize_method v.
Proof.
  destruct v as [| | | | |d];
    try (split; [discriminate|intros [H _]; discriminate]).
  unfold check_test_case, normalize_method, well_formed_fields, dict_get_default.
  assert (Hreq : forallb (dict_has d) required_test_fields = true ->
                 dict_has d "method" = true /\ dict_has d "test_type" = true).
  { cbn [forallb required_test_fields]. intros H.
    repeat (apply andb_prop in H as [? H]). now split. }
  rewrite !andb_true_iff.
  destruct (dict_get d "method") as [m|] eqn:Em.
  - destruct m as [| | |m| |];
      try (split; [discriminate|intros [[_ H] _]; discriminate]).
    cbn [py_upper mbind result_bind bind valid_method].
    rewrite ok_clean, !app_nil_both, missing_fields_nil.
    split.
    + intros [(H1 & H2 & H3) ->]. split; [|reflexivity].
      destruct (Hreq H1) as [_ Ht]. unfold dict_has in Ht.
      destruct (dict_get d "test_type") as [t|]; [|discriminate].
      repeat split; [exact H1| |].
      * destruct (in_strs t valid_test_types); [reflexivity|discriminate].
      * destruct (existsb _ HTTPMethod_values); [reflexivity|discriminate].
    + intros [[[H1 H2] H3] ->].
      destruct (Hreq H1) as [_ Ht]. unfold dict_has in Ht.
      destruct (dict_get d "test_type") as [t|]; [|discriminate].
      rewrite H2, H3. repeat split. exact H1.
  - cbn [mbind result_bind bind valid_method].
    rewrite ok_clean, !app_nil_both, missing_fields_nil.
    split.
    + intros [(H1 & _) _]. destruct (Hreq H1) as [Hm _].
      unfold dict_has in Hm. rewrite Em in Hm. discriminate.
    + intros [[_ H] _]. discriminate.
Qed.

Lemma check_test_cases_clean l :
  forall idx l',
    check_test_cases idx l = Ok ([], l') <->
    forallb well_formed_fields l = true /\ l' = map normalize_method l.
Proof.
  induction l as [|v l IH]; intros idx l'; cbn [check_test_cases forallb map].
  - split.
    + intros H. injection H as <-. now split.
    + now intros [_ ->].
  - rewrite andb_true_iff. split.
    + destruct (check_test_case idx v) as [[e v1]|] eqn:Ev;
        cbn [mbind result_bind bind]; [|discriminate].
      destruct (check_test_cases (S idx) l) as [[es l1]|] eqn:El;
        cbn [mbind result_bind bind]; [|discriminate].
      intros H. injection H as H <-. apply app_nil_both in H as [-> ->].
      apply check_test_case_clean in Ev as [Hv ->].
      apply IH in El as [Hl ->]. now repeat split.
    + intros [[Hv Hl] ->].
      assert (Ev : check_test_case idx v = Ok ([], normalize_method v))
        by (apply check_test_case_clean; now split).
      assert (El : check_test_cases (S idx) l = Ok ([], map normalize_method l))
        by (apply IH; now split).
      rewrite Ev. cbn [mbind result_bind bind]. rewrite El. reflexivity.
Qed.

Lemma dict_get_default_set_other d key key' v dflt :
  key <> key' ->
  dict_get_default (dict_set d key v) key' dflt = dict_get_default d key' dflt.
Proof. intros H. unfold dict_get_default. now rewrite dict_get_set_other. Qed.

(** Step 2 leaves the endpoint of an element as it is. *)
Lemma endpoint_value_normalize v :
  endpoint_value (normalize_method v) = endpoint_value v.
Proof.
  destruct v as [| | | | |d]; try reflexivity.
  unfold normalize_method. destruct (dict_get d "method") as [[| | |m| |]|];
    try reflexivity.
  cbn [endpoint_value]. now rewrite dict_get_default_set_other.
Qed.

Lemma names_listed_endpoint_normalize eps v :
  names_listed_endpoint eps (normalize_method v) = names_listed_endpoint eps v.
Proof.
  destruct v as [| | | | |d]; try reflexivity.
  unfold normalize_method. destruct (dict_get d "method") as [[| | |m| |]|];
    try reflexivity.
  cbn [names_listed_endpoint]. now rewrite dict_get_default_set_other.
Qed.

(** On well-formed elements the set of step 4 holds the endpoint of each. *)
Lemma collect_schema_endpoints_well_formed l :
  forallb well_formed_endpoint l = true ->
  collect_schema_endpoints (map normalize_method l) = Ok (map endpoint_value l).
Proof.
  induction l as [|v l IH]; cbn [forallb map collect_schema_endpoints];
    [reflexivity|].
  intros H. apply andb_prop in H as [Hv Hl]. specialize (IH Hl).
  rewrite <- (endpoint_value_normalize v).
  destruct v as [| | | | |d]; try discriminate.
  unfold well_formed_endpoint in Hv.
  destruct (dict_get d "endpoint") as [[| | |path| |]|] eqn:Ee; try discriminate.
  destruct (dict_get d "method") as [[| | |m| |]|] eqn:Em; try discriminate;
    try (rewrite andb_false_r in Hv; discriminate).
  assert (Hn : normalize_method (PDict d)
               = PDict (dict_set d "method" (PStr (PyStr.upper m))))
    by (unfold normalize_method; now rewrite Em).
  rewrite Hn.
  cbn [py_contains py_getitem endpoint_value mbind result_bind bind].
  unfold dict_get_default.
  rewrite dict_has_set_other by discriminate.
  rewrite dict_get_set_other by discriminate.
  unfold dict_has. rewrite Ee. cbn [mbind result_bind bind hashable].
  rewrite IH. reflexivity.
Qed.

(** The loop of step 4 is silent exactly when every test case is an object
    whose endpoint is falsy or in the set. *)
Lemma check_hallucinated_clean eps l :
  forall idx,
    check_hallucinated eps idx l = Ok [] <->
    forallb (names_listed_endpoint eps) l = true.
Proof.
  induction l as [|v l IH]; intros idx; cbn [check_hallucinated forallb].
  - split; reflexivity.
  - rewrite andb_true_iff, <- (IH (S idx)).
    destruct v as [| | | | |d];
      try (cbn [py_get_endpoint mbind result_bind bind names_listed_endpoint];
           split; [discriminate|intros [? _]; discriminate]).
    cbn [py_get_endpoint mbind result_bind bind names_listed_endpoint].
    destruct (truthy (dict_get_default d "endpoint" (PStr EmptyString)));
      cbn [negb orb mbind result_bind bind].
    + unfold in_set.
      destruct (hashable (dict_get_default d "endpoint" (PStr EmptyString)));
        cbn [andb mbind result_bind bind];
        [|split; [discriminate|intros [? _]; discriminate]].
      destruct (existsb _ eps); cbn [mbind result_bind bind].
      * destruct (check_hallucinated eps (S idx) l) as [es|];
          cbn [mbind result_bind bind app].
        -- split; [intros H; now split|intros [_ H]; exact H].
        -- split; [discriminate|intros [_ ?]; discriminate].
      * destruct (check_hallucinated eps (S idx) l) as [es|];
          cbn [mbind result_bind bind app];
          split; try discriminate; intros [? _]; discriminate.
    + destruct (check_hallucinated eps (S idx) l) as [es|];
        cbn [mbind result_bind bind app].
      * split; [intros H; now split|intros [_ H]; exact H].
      * split; [discriminate|intros [_ ?]; discriminate].
Qed.

Lemma check_normalized_schema_clean v ns :
  check_normalized_schema v = Ok ([], ns) <->
  exists e es, v = PList (e :: es)
               /\ forallb well_formed_endpoint (e :: es) = true
               /\ ns = PList (map normalize_method (e :: es)).
Proof.
  destruct v as [| | | |[|e es]|];
    try (split; [discriminate|intros (? & ? & H & _); discriminate]).
  cbn [check_normalized_schema]. split.
  - destruct (check_endpoints 0 (e :: es)) as [[errs l']|] eqn:E;
      cbn [mbind result_bind bind]; [|discriminate].
    intros H. injection H as -> <-.
    apply check_endpoints_clean in E as [H ->]. now exists e, es.
  - intros (e' & es' & Hv & H & ->). injection Hv as <- <-.
    assert (E : check_endpoints 0 (e :: es)
                = Ok ([], map normalize_method (e :: es)))
      by (apply check_endpoints_clean; now split).
    rewrite E. reflexivity.
Qed.

Lemma check_test_cases_field_clean v tc :
  check_test_cases_field v = Ok ([], tc) <->
  exists t ts, v = PList (t :: ts)
               /\ forallb well_formed_fields (t :: ts) = true
               /\ tc = PList (map normalize_method (t :: ts)).
Proof.
  destruct v as [| | | |[|t ts]|];
    try (split; [discriminate|intros (? & ? & H & _); discriminate]).
  cbn [check_test_cases_field]. split.
  - destruct (check_test_cases 0 (t :: ts)) as [[errs l']|] eqn:E;
      cbn [mbind result_bind bind]; [|discriminate].
    intros H. injection H as -> <-.
    apply check_test_cases_clean in E as [H ->]. now exists t, ts.
  - intros (t' & ts' & Hv & H & ->). injection Hv as <- <-.
    assert (E : check_test_cases 0 (t :: ts)
                = Ok ([], map normalize_method (t :: ts)))
      by (apply check_test_cases_clean; now split).
    rewrite E. reflexivity.
Qed.

Lemma forallb_names_listed_normalize eps l :
  forallb (names_listed_endpoint eps) (map normalize_method l)
  = forallb (names_listed_endpoint eps) l.
Proof.
  induction l as [|v l IH]; cbn [map forallb]; [reflexivity|].
  now rewrite names_listed_endpoint_normalize, IH.
Qed.

(** Step 4 on the values steps 2 and 3 leave behind. *)
Lemma check_cross_reference_clean e es t ts :
  forallb well_formed_endpoint (e :: es) = true ->
  check_cross_reference (PList (map normalize_method (e :: es)))
                        (PList (map normalize_method (t :: ts))) = Ok [] <->
  forallb (names_listed_endpoint (map endpoint_value (e :: es))) (t :: ts) = true.
Proof.
  intros H. unfold check_cross_reference.
  change (truthy (PList (map normalize_method (e :: es)))) with true.
  change (truthy (PList (map normalize_method (t :: ts)))) with true.
  cbn [andb py_iter mbind result_bind bind].
  rewrite (collect_schema_endpoints_well_formed _ H).
  cbn [mbind result_bind bind].
  rewrite check_hallucinated_clean. now rewrite forallb_names_listed_normalize.
Qed.

Lemma forallb_well_formed_test eps l :
  forallb (well_formed_test eps) l
  = forallb well_formed_fields l && forallb (names_listed_endpoint eps) l.
Proof.
  induction l as [|v l IH]; cbn [forallb]; [reflexivity|].
  rewrite IH. unfold well_formed_test.
  destruct (well_formed_fields v), (names_listed_endpoint eps v),
    (forallb well_formed_fields l); reflexivity.
Qed.

Lemma verdict_clean (errors : list string) :
  @Ok (bool * list string) (match errors with [] => true | _ => false end, errors)
  = Ok (true, []) <-> errors = [].
Proof.
  split.
  - intros H. now injection H.
  - now intros ->.
Qed.

Lemma eq_str_inv v s : eq_str v s = true -> v = PStr s.
Proof.
  destruct v; cbn [eq_str]; try discriminate.
  intros H. apply String.eqb_eq in H. now subst.
Qed.

(** What an accepted plan holds, field by field. *)
Lemma accepted_plan_parts agent_output base_url :
  validate_agent1_output agent_output base_url = Ok (true, []) ->
  exists e es t ts ver,
    eq_str (dict_get_default agent_output "status" PNone) "ok" = true
    /\ dict_get agent_output "errors" = Some (PList ver)
    /\ dict_get agent_output "normalized_schema" = Some (PList (e :: es))
    /\ dict_get agent_output "test_cases" = Some (PList (t :: ts))
    /\ forallb well_formed_endpoint (e :: es) = true
    /\ forallb well_formed_fields (t :: ts) = true
    /\ forallb (names_listed_endpoint (map endpoint_value (e :: es))) (t :: ts)
       = true.
Proof.
  unfold validate_agent1_output.
  set (status := dict_get_default agent_output "status" PNone).
  destruct (eq_str status "reject") eqn:Hrej; [discriminate|].
  destruct (check_normalized_schema _) as [[e2 ns]|] eqn:E2;
    cbn [mbind result_bind bind]; [|discriminate].
  destruct (check_test_cases_field _) as [[e3 tc]|] eqn:E3;
    cbn [mbind result_bind bind]; [|discriminate].
  destruct (check_cross_reference ns tc) as [e4|] eqn:E4;
    cbn [mbind result_bind bind]; [|discriminate].
  rewrite verdict_clean, !app_nil_both.
  intros [[[[[Hm Hs] ->] ->] ->] H5].
  apply missing_fields_nil in Hm. cbn [forallb required_fields] in Hm.
  apply andb_prop in Hm as [_ Hm]. apply andb_prop in Hm as [Hns Hm].
  apply andb_prop in Hm as [Htc Hm]. apply andb_prop in Hm as [Her _].
  unfold dict_has, dict_get_default in *.
  destruct (dict_get agent_output "normalized_schema") as [vns|];
    [|discriminate].
  destruct (dict_get agent_output "test_cases") as [vtc|]; [|discriminate].
  destruct (dict_get agent_output "errors") as [ver|]; [|discriminate].
  apply check_normalized_schema_clean in E2 as (e & es & -> & Hwf & ->).
  apply check_test_cases_field_clean in E3 as (t & ts & -> & Hf & ->).
  apply (check_cross_reference_clean e es t ts Hwf) in E4.
  destruct (eq_str status "ok"); [|discriminate].
  destruct ver as [| | | |ver|]; try discriminate.
  exists e, es, t, ts, ver. repeat split; assumption.
Qed.

(** X1.  The gate accepts a plan, with no error, exactly when the plan is
    well formed: its status is ok, its errors field is a list, its schema
    and its test cases are non-empty lists of well-formed elements, and
    every test case names no endpoint or one that the schema lists. *)
Theorem gate_accepts_exactly_well_formed_plans agent_output base_url :
  validate_agent1_output agent_output base_url = Ok (true, [])
  <-> well_formed_plan agent_output = true.
Proof.
  split.
  - intros H.
    destruct (accepted_plan_parts _ _ H)
      as (e & es & t & ts & ver & Hs & Hv & Hns & Htc & Hwf & Hf & Hn).
    unfold well_formed_plan. rewrite Hs, Hv, Hns, Htc.
    now rewrite Hwf, forallb_well_formed_test, Hf, Hn.
  - unfold validate_agent1_output, well_formed_plan.
    set (status := dict_get_default agent_output "status" PNone).
    intros H. apply andb_prop in H as [H H3]. apply andb_prop in H as [H1 H2].
    pose proof (eq_str_inv _ _ H1) as Hst. rewrite Hst. cbn [eq_str String.eqb].
    change (String.eqb "ok" "reject") with false.
    change (String.eqb "ok" "ok") with true. cbn [app].
    assert (Hm : missing_required agent_output = []).
    { apply missing_fields_nil. cbn [forallb required_fields].
      unfold dict_has. unfold status, dict_get_default in Hst.
      destruct (dict_get agent_output "status"); [|discriminate].
      destruct (dict_get agent_output "errors"); [|discriminate].
      destruct (dict_get agent_output "normalized_schema") as [[| | | |[|e es]|]|];
        try discriminate.
      destruct (dict_get agent_output "test_cases"); [|discriminate].
      reflexivity. }
    rewrite Hm. unfold dict_get_default.
    destruct (dict_get agent_output "errors") as [ver|]; [|discriminate].
    destruct (dict_get agent_output "normalized_schema") as [[| | | |[|e es]|]|];
      try discriminate.
    destruct (dict_get agent_output "test_cases") as [[| | | |[|t ts]|]|];
      try discriminate.
    apply andb_prop in H3 as [Hwf Ht].
    rewrite forallb_well_formed_test in Ht. apply andb_prop in Ht as [Hf Hn].
    assert (E2 : check_normalized_schema (PList (e :: es))
                 = Ok ([], PList (map normalize_method (e :: es))))
      by (apply check_normalized_schema_clean; now exists e, es).
    assert (E3 : check_test_cases_field (PList (t :: ts))
                 = Ok ([], PList (map normalize_method (t :: ts))))
      by (apply check_test_cases_field_clean; now exists t, ts).
    rewrite E2. cbn [mbind result_bind bind]. rewrite E3.
    cbn [mbind result_bind bind].
    apply (check_cross_reference_clean e es t ts Hwf) in Hn. rewrite Hn.
    cbn [mbind result_bind bind app].
    destruct ver; try discriminate. reflexivity.
Qed.

Lemma eq_hashable_str e s : eq_hashable e (PStr s) = true -> e = PStr s.
Proof.
  destruct e; cbn [eq_hashable]; try discriminate.
  intros H. apply String.eqb_eq in H. now subst.
Qed.

Lemma well_formed_endpoint_value v :
  well_formed_endpoint v = true ->
  exists d s, v = PDict d /\ dict_get d "endpoint" = Some (PStr s)
              /\ PyStr.startswith s "/" = true /\ endpoint_value v = PStr s.
Proof.
  destruct v as [| | | | |d]; try discriminate.
  unfold well_formed_endpoint, endpoint_value, dict_get_default.
  destruct (dict_get d "endpoint") as [[| | |s| |]|] eqn:Ee; try discriminate.
  intros H. apply andb_prop in H as [H _]. exists d, s.
  repeat split; assumption.
Qed.

(** X2.  In an accepted plan every test case is an object with an endpoint
    field, and that endpoint is either falsy or a path that starts with a
    slash and that an element of the schema names. *)
Theorem accepted_plan_tests_name_listed_endpoints
  (agent_output : pydict) (base_url : string) (tests : list pyval) (test : pyval) :
  validate_agent1_output agent_output base_url = Ok (true, []) ->
  dict_get agent_output "test_cases" = Some (PList tests) ->
  In test tests ->
  exists d e,
    test = PDict d /\ dict_get d "endpoint" = Some e
    /\ (truthy e = false
        \/ exists s schema d',
             e = PStr s /\ PyStr.startswith s "/" = true
             /\ dict_get agent_output "normalized_schema" = Some (PList schema)
             /\ In (PDict d') schema
             /\ dict_get d' "endpoint" = Some (PStr s)).
Proof.
  intros H Htests Hin.
  destruct (accepted_plan_parts _ _ H)
    as (e0 & es & t & ts & ver & _ & _ & Hns & Htc & Hwf & Hf & Hn).
  rewrite Htests in Htc. injection Htc as ->.
  rewrite forallb_forall in Hf, Hn.
  specialize (Hf test Hin). specialize (Hn test Hin).
  destruct test as [| | | | |d]; try discriminate.
  unfold well_formed_fields in Hf.
  apply andb_prop in Hf as [Hf _]. apply andb_prop in Hf as [Hf _].
  cbn [forallb required_test_fields] in Hf. apply andb_prop in Hf as [Hf _].
  unfold dict_has in Hf. unfold names_listed_endpoint, dict_get_default in Hn.
  destruct (dict_get d "endpoint") as [e|] eqn:Ee; [|discriminate].
  exists d, e. split; [reflexivity|]. split; [exact Ee|].
  destruct (truthy e); [right|now left].
  cbn [negb orb] in Hn. apply andb_prop in Hn as [_ Hn].
  apply existsb_exists in Hn as (x & Hx & Heq).
  apply in_map_iff in Hx as (v & <- & Hv).
  rewrite forallb_forall in Hwf.
  destruct (well_formed_endpoint_value v (Hwf v Hv)) as (d' & s & -> & Hd' & Hs & Hval).
  rewrite Hval in Heq. apply eq_hashable_str in Heq. subst e.
  exists s, (e0 :: es), d'. repeat split; assumption.
Qed.

Lemma accepted_plan_tests_name_listed_endpoints_witness :
  let users := PDict [("endpoint", PStr "/users"); ("method", PStr "get")] in
  let probe := PDict [("endpoint", PStr "/users"); ("method", PStr "get");
                      ("test_type", PStr "xss"); ("expected_failure", PBool true)] in
  let plan := [("status", PStr "ok"); ("normalized_schema", PList [users]);
               ("test_cases", PList [probe]); ("errors", PList [])] in
  exists d e,
    probe = PDict d /\ dict_get d "endpoint" = Some e
    /\ (truthy e = false
        \/ exists s schema d',
             e = PStr s /\ PyStr.startswith s "/" = true
             /\ dict_get plan "normalized_schema" = Some (PList schema)
             /\ In (PDict d') schema
             /\ dict_get d' "endpoint" = Some (PStr s)).
Proof.
  intros users probe plan.
  apply (accepted_plan_tests_name_listed_endpoints
           plan "http://api.example.com" [probe] probe).
  - reflexivity.
  - reflexivity.
  - now left.
Defined.

(** X3.  The verdict of the gate agrees with its error list: a plan is
    valid exactly when no error is reported, so that a refusal always
    carries at least one message. *)
Theorem verdict_agrees_with_errors
  (agent_output : pydict) (base_url : string) (is_valid : bool)
  (errors : list string) :
  validate_agent1_output agent_output base_url = Ok (is_valid, errors) ->
  (is_valid = true <-> errors = []).
Proof.
  unfold validate_agent1_output.
  destruct (eq_str _ "reject").
  - intros H. injection H as <- <-.
    destruct (missing_required agent_output); split; discriminate.
  - destruct (check_normalized_schema _) as [[e2 ns]|];
      cbn [mbind result_bind bind]; [|discriminate].
    destruct (check_test_cases_field _) as [[e3 tc]|];
      cbn [mbind result_bind bind]; [|discriminate].
    destruct (check_cross_reference ns tc) as [e4|];
      cbn [mbind result_bind bind]; [|discriminate].
    intros H. injection H as Hv He. rewrite He in Hv. subst is_valid.
    destruct errors; split; try reflexivity; discriminate.
Qed.

Lemma verdict_agrees_with_errors_witness :
  false = true <-> ["Schema rejected by AI"] = [].
Proof.
  apply (verdict_agrees_with_errors
           [("status", PStr "reject"); ("normalized_schema", PList []);
            ("test_cases", PList []); ("errors", PList [])]
           "http://api.example.com").
  reflexivity.
Defined.

(** X4.  On a plan whose schema and test cases are lists of objects, the
    endpoint and the method of an object being strings where it has them,
    the gate raises nothing: it returns a verdict and an error list. *)
Theorem gate_returns_on_objects
  (agent_output : pydict) (base_url : string) (schema tests : list pyval) :
  dict_get_default agent_output "normalized_schema" (PList []) = PList schema ->
  forallb is_object schema = true ->
  dict_get_default agent_output "test_cases" (PList []) = PList tests ->
  forallb is_object tests = true ->
  exists is_valid errors,
    validate_agent1_output agent_output base_url = Ok (is_valid, errors).
Proof.
  intros D2 Hobj D3 Hobjt.
  destruct (check_endpoints_objects schema 0 Hobj) as (e2 & schema' & E2 & Hs2).
  destruct (check_test_cases_objects tests 0 Hobjt) as (e3 & tests' & E3 & Hs3).
  pose proof (same_endpoint_objects _ _ Hs2) as Hobj'.
  pose proof (same_endpoint_objects _ _ Hs3) as Hobjt'.
  destruct (collect_objects schema' Hobj') as (eps & Eeps & _).
  destruct (hallucinated_reported eps tests' 0 Hobjt') as (e4 & E4 & _).
  unfold validate_agent1_output.
  destruct (eq_str _ "reject"); [eexists _, _; reflexivity|].
  cbv zeta. rewrite D2, D3.
  assert (C2 : exists e ns, check_normalized_schema (PList schema) = Ok (e, ns)
                            /\ (ns = PList schema' \/ schema = [] /\ ns = PList [])).
  { unfold check_normalized_schema. rewrite E2.
    destruct schema; eexists _, _; (split; [reflexivity|]); auto. }
  assert (C3 : exists e tc, check_test_cases_field (PList tests) = Ok (e, tc)
                            /\ (tc = PList tests' \/ tests = [] /\ tc = PList [])).
  { unfold check_test_cases_field. rewrite E3.
    destruct tests; eexists _, _; (split; [reflexivity|]); auto. }
  destruct C2 as (e2' & ns & -> & Hns). destruct C3 as (e3' & tc & -> & Htc).
  cbn [mbind result_bind bind].
  assert (C4 : exists e, check_cross_reference ns tc = Ok e).
  { unfold check_cross_reference.
    destruct Hns as [->|[_ ->]]; [|eexists; reflexivity].
    destruct Htc as [->|[_ ->]];
      [|rewrite andb_false_r; eexists; reflexivity].
    destruct (truthy (PList schema') && truthy (PList tests'));
      [|eexists; reflexivity].
    cbn [py_iter mbind result_bind bind]. rewrite Eeps.
    cbn [mbind result_bind bind]. rewrite E4. eexists; reflexivity. }
  destruct C4 as (e4' & ->). cbn [mbind result_bind bind].
  eexists _, _. reflexivity.
Qed.

Lemma gate_returns_on_objects_witness :
  let users := PDict [("endpoint", PStr "users"); ("method", PStr "fetch")] in
  let probe := PDict [("endpoint", PStr "/ghost")] in
  exists is_valid errors,
    validate_agent1_output
      [("status", PStr "ok"); ("normalized_schema", PList [users]);
       ("test_cases", PList [probe])] "http://api.example.com"
    = Ok (is_valid, errors).
Proof.
  intros users probe.
  apply (gate_returns_on_objects _ _ [users] [probe]); reflexivity.
Defined.

End GateSoundness.

(* ================================================================== *)
(** * The executor: base URL, outcome, stored body, leak detection *)
(* ================================================================== *)

Module ExecutorMore.
Import Py TestExecutor ValidationService TestSuite StrProps.

#[local] Arguments String.append !s1 s2 : simpl nomatch.

Lemma rstrip_app_char c u :
  PyStr.rstrip c (u ++ String c EmptyString) = PyStr.rstrip c u.
Proof.
  induction u as [|a u IH]; cbn [String.append PyStr.rstrip].
  - now rewrite Ascii.eqb_refl.
  - now rewrite IH.
Qed.

(** X5.  A slash at the end of the base URL changes nothing: the check of
    the base URL gives the same answer, and the executor requests the same
    URL for every test case. *)
Theorem trailing_slash_is_ignored (u : string) (tc : pydict) :
  validate_base_url (u ++ "/") = validate_base_url u
  /\ request_url (executor_base_url (u ++ "/")) tc
     = request_url (executor_base_url u) tc.
Proof.
  unfold executor_base_url, validate_base_url.
  rewrite (rstrip_app_char "/" u). split; [|reflexivity].
  destruct u as [|a u]; reflexivity.
Qed.

Lemma append_nonempty (p s : string) : p <> EmptyString -> p ++ s <> EmptyString.
Proof. destruct p; [congruence|discriminate]. Qed.

(** X6.  What the executor returns is coherent: the outcome is PASSED
    exactly when there is no failure reason, a reason is never the empty
    string, and the status code is missing exactly for a TIMEOUT or an
    ERROR. *)
Theorem outcome_is_coherent
  (json_loads : string -> option pyval) (recursion_limit : nat)
  (tc : pydict) (a : attempt) :
  let r := execute_test_case json_loads recursion_limit tc a in
  (result r = PASSED <-> failure_reason r = None)
  /\ (forall reason, failure_reason r = Some reason -> reason <> EmptyString)
  /\ (status_code r = None <-> result r = TIMEOUT \/ result r = ERROR).
Proof.
  destruct a as [status body hs| |message]; cbv zeta; cbn [execute_test_case].
  - destruct (_analyze_response status _ 0 _) as [res reason] eqn:E.
    cbn [result failure_reason status_code].
    unfold _analyze_response in E.
    repeat match type of E with
           | (if ?b then _ else _) = _ => destruct b
           end; injection E as <- <-;
      (split; [split; discriminate || reflexivity|]);
      (split; [|split; [discriminate|intros [?|?]; discriminate]]);
      intros reason H; try discriminate; injection H as <-;
      discriminate.
  - cbn [result failure_reason status_code].
    split; [split; discriminate|].
    split; [intros reason H; injection H as <-; discriminate|].
    split; [now left|reflexivity].
  - cbn [result failure_reason status_code].
    split; [split; discriminate|].
    split; [intros reason H; injection H as <-; discriminate|].
    split; [now right|reflexivity].
Qed.

Lemma slice_to_length n : forall s, (String.length (PyStr.slice_to n s) <= n)%nat.
Proof.
  unfold PyStr.slice_to.
  induction n as [|n IH]; intros [|c s]; cbn [String.substring String.length];
    try lia.
  specialize (IH s). lia.
Qed.

Lemma slice_to_prefix n : forall s, exists rest, s = PyStr.slice_to n s ++ rest.
Proof.
  unfold PyStr.slice_to.
  induction n as [|n IH]; intros [|c s]; cbn [String.substring].
  - now exists EmptyString.
  - now exists (String c s).
  - now exists EmptyString.
  - destruct (IH s) as [rest Hrest]. exists rest.
    cbn [String.append]. now rewrite <- Hrest.
Qed.

Lemma slice_to_short n : forall s, (String.length s <= n)%nat -> PyStr.slice_to n s = s.
Proof.
  unfold PyStr.slice_to.
  induction n as [|n IH]; intros [|c s] H; cbn [String.substring String.length] in *;
    try reflexivity; try lia.
  rewrite IH by lia. reflexivity.
Qed.

(** X7.  The body the executor keeps has at most 500 characters, and it is
    the start of the sanitized body, which for a body that is not JSON is
    the start of the body received and has at most 1000 characters. *)
Theorem stored_body_is_bounded
  (json_loads : string -> option pyval) (recursion_limit : nat) (tc : pydict)
  (status : Z) (body : string) (hs : list (string * string)) :
  let r := execute_test_case json_loads recursion_limit tc
             (Responded status body hs) in
  (String.length (response_body r) <= 500)%nat
  /\ (exists rest,
        _sanitize_response json_loads recursion_limit body
        = response_body r ++ rest)
  /\ (json_loads body = None ->
      (String.length (_sanitize_response json_loads recursion_limit body)
       <= 1000)%nat
      /\ exists rest,
           body = _sanitize_response json_loads recursion_limit body ++ rest).
Proof.
  cbv zeta. cbn [execute_test_case].
  destruct (_analyze_response status _ 0 _) as [res reason].
  cbn [response_body].
  split; [apply slice_to_length|]. split; [apply slice_to_prefix|].
  intros Hnot. unfold _sanitize_response. rewrite Hnot.
  destruct (String.eqb_spec body EmptyString) as [->|_].
  - split; [cbn; lia|now exists EmptyString].
  - split; [apply slice_to_length|apply slice_to_prefix].
Qed.

Lemma stored_body_is_bounded_witness :
  let loads : string -> option pyval := fun _ => None in
  (String.length (_sanitize_response loads 100 "upstream unavailable") <= 1000)%nat
  /\ exists rest,
       "upstream unavailable"
       = _sanitize_response loads 100 "upstream unavailable" ++ rest.
Proof.
  intros loads.
  apply (stored_body_is_bounded loads 100 [] 502 "upstream unavailable" []).
  reflexivity.
Defined.

(** X8.  The sanitizer redacts nothing in a body that is not JSON: such a
    body of at most 1000 characters is returned as it came. *)
Theorem non_json_body_is_kept
  (json_loads : string -> option pyval) (recursion_limit : nat) (body : string) :
  json_loads body = None ->
  (String.length body <= 1000)%nat ->
  _sanitize_response json_loads recursion_limit body = body.
Proof.
  intros Hnot Hlen. unfold _sanitize_response. rewrite Hnot.
  destruct (String.eqb_spec body EmptyString) as [->|_]; [reflexivity|].
  now apply slice_to_short.
Qed.

Lemma non_json_body_is_kept_witness :
  _sanitize_response (fun _ => None) 100 "password=hunter2&token=abc"
  = "password=hunter2&token=abc".
Proof.
  apply (non_json_body_is_kept (fun _ => None) 100 "password=hunter2&token=abc").
  - reflexivity.
  - cbn. lia.
Defined.

Lemma lower_upper_ascii c :
  PyStr.lower_ascii (PyStr.upper_ascii c) = PyStr.lower_ascii c.
Proof.
  destruct c as [[] [] [] [] [] [] [] []]; reflexivity.
Qed.

Lemma lower_upper s : PyStr.lower (PyStr.upper s) = PyStr.lower s.
Proof.
  induction s as [|c s IH]; [reflexivity|].
  cbn [PyStr.upper PyStr.lower]. now rewrite lower_upper_ascii, IH.
Qed.

Lemma lower_lower s : PyStr.lower (PyStr.lower s) = PyStr.lower s.
Proof.
  induction s as [|c s IH]; [reflexivity|].
  cbn [PyStr.lower]. rewrite IH. f_equal.
  destruct c as [[] [] [] [] [] [] [] []]; reflexivity.
Qed.

Lemma prefix_app sub s t :
  String.prefix sub s = true -> String.prefix sub (s ++ t) = true.
Proof.
  revert s. induction sub as [|a sub IH]; intros s H; [now destruct (s ++ t)|].
  destruct s as [|b s]; [discriminate|].
  cbn [String.prefix String.append] in *.
  destruct (ascii_dec a b); [now apply IH|discriminate].
Qed.

Lemma contains_app_r sub s t :
  PyStr.contains sub s = true -> PyStr.contains sub (s ++ t) = true.
Proof.
  induction s as [|c s IH]; intros H.
  - cbn [PyStr.contains] in H. rewrite orb_false_r in H.
    destruct sub; [|discriminate]. now destruct t.
  - cbn [PyStr.contains String.append] in *.
    apply orb_prop in H as [H|H].
    + change (String c (s ++ t)) with (String c s ++ t).
      now rewrite (prefix_app _ _ t H).
    + rewrite (IH H). apply orb_true_r.
Qed.

Lemma contains_app_l sub s t :
  PyStr.contains sub s = true -> PyStr.contains sub (t ++ s) = true.
Proof.
  intros H. induction t as [|c t IH]; [exact H|].
  cbn [String.append PyStr.contains]. rewrite IH. apply orb_true_r.
Qed.

(** X9.  On a body of ASCII characters the detection of a leaked stack
    trace does not depend on letter case: the body put in upper case, or in
    lower case, is detected exactly when the body is.  And ASCII text put
    before or after a body in which a leak is detected does not hide it. *)
Theorem leak_detection_is_robust (body before after : string) :
  (PyStr.isascii body = true ->
   _detects_stack_trace (PyStr.upper body) = _detects_stack_trace body
   /\ _detects_stack_trace (PyStr.lower body) = _detects_stack_trace body)
  /\ (PyStr.isascii (before ++ body ++ after) = true ->
      _detects_stack_trace body = true ->
      _detects_stack_trace (before ++ body ++ after) = true).
Proof.
  unfold _detects_stack_trace. split.
  - intros _. now rewrite lower_upper, lower_lower.
  - intros _ H. apply existsb_exists in H as (ind & Hin & Hc).
    apply existsb_exists. exists ind. split; [exact Hin|].
    rewrite !lower_app. now apply contains_app_l, contains_app_r.
Qed.

Lemma leak_detection_is_robust_witness :
  (_detects_stack_trace (PyStr.upper "Traceback (most recent call last)")
   = _detects_stack_trace "Traceback (most recent call last)"
   /\ _detects_stack_trace (PyStr.lower "Traceback (most recent call last)")
      = _detects_stack_trace "Traceback (most recent call last)")
  /\ _detects_stack_trace
       ("<html><body>" ++ "Traceback (most recent call last)" ++ "</body></html>")
     = true.
Proof.
  split.
  - apply (proj1 (leak_detection_is_robust
                    "Traceback (most recent call last)"
                    "<html><body>" "</body></html>")).
    reflexivity.
  - apply (proj2 (leak_detection_is_robust
                    "Traceback (most recent call last)"
                    "<html><body>" "</body></html>")); reflexivity.
Defined.

End ExecutorMore.

(* ================================================================== *)
(** * The suite: headers, order of the results, counts, stored rows *)
(* ================================================================== *)

Module SuiteProps.
Import Py TestExecutor StabilityScore TestSuite ScoreProps ExecutorProps.

Lemma header_get_set d key key' value :
  header_get (header_set d key value) key'
  = if String.eqb key key' then Some value else header_get d key'.
Proof.
  induction d as [|[k w] d IH]; cbn [header_set header_get]; [reflexivity|].
  destruct (String.eqb_spec k key) as [->|Hk]; cbn [header_get].
  - destruct (String.eqb_spec key key'); reflexivity.
  - rewrite IH. destruct (String.eqb_spec k key') as [->|Hk'];
      [|reflexivity].
    destruct (String.eqb_spec key key'); [congruence|reflexivity].
Qed.

Lemma safe_headers_fold items key : forall acc,
  header_get
    (fold_left (fun safe_headers kv =>
                  if is_safe_header (fst kv)
                  then header_set safe_headers (fst kv) (snd kv)
                  else safe_headers) items acc) key
  = match (if is_safe_header key then last_value items key else None) with
    | Some x => Some x
    | None => header_get acc key
    end.
Proof.
  induction items as [|[k w] items IH]; intros acc; cbn [fold_left last_value fst snd].
  - now destruct (is_safe_header key).
  - rewrite IH. destruct (is_safe_header key) eqn:Hkey.
    + destruct (last_value items key); [reflexivity|].
      destruct (String.eqb_spec k key) as [->|Hne].
      * rewrite Hkey, header_get_set, String.eqb_refl. reflexivity.
      * destruct (is_safe_header k); [|reflexivity].
        rewrite header_get_set. now destruct (String.eqb_spec k key).
    + destruct (is_safe_header k) eqn:Hk; [|reflexivity].
      rewrite header_get_set.
      destruct (String.eqb_spec k key) as [->|Hne]; [congruence|reflexivity].
Qed.

Lemma last_value_filter items key :
  last_value (_get_safe_headers items) key
  = if is_safe_header key then last_value items key else None.
Proof.
  unfold _get_safe_headers.
  induction items as [|[k w] items IH]; cbn [List.filter last_value fst].
  - now destruct (is_safe_header key).
  - fold (is_safe_header k). destruct (is_safe_header k) eqn:Hk.
    + cbn [last_value]. rewrite IH.
      destruct (is_safe_header key) eqn:Hkey; [reflexivity|].
      destruct (String.eqb_spec k key) as [->|Hne]; [congruence|reflexivity].
    + rewrite IH. destruct (is_safe_header key) eqn:Hkey; [|reflexivity].
      destruct (last_value items key); [reflexivity|].
      destruct (String.eqb_spec k key) as [->|Hne]; [congruence|reflexivity].
Qed.

(** X10.  The headers kept are those whose name, in lower case, is on
    the allow-list, each with the last value it has among the headers
    received; a name that is not on the list is never kept.  The kept
    headers read the same whether taken as the dict the loop fills or as
    the received items filtered in order. *)
Theorem safe_headers_lookup (items : list (string * string)) (key : string) :
  header_get (_get_safe_headers_loop items) key
  = (if is_safe_header key then last_value items key else None)
  /\ last_value (_get_safe_headers items) key
     = header_get (_get_safe_headers_loop items) key.
Proof.
  assert (H : header_get (_get_safe_headers_loop items) key
              = if is_safe_header key then last_value items key else None).
  { unfold _get_safe_headers_loop. rewrite safe_headers_fold.
    now destruct (if is_safe_header key then last_value items key else None). }
  split; [exact H|]. rewrite H. apply last_value_filter.
Qed.

Lemma execute_from_length json_loads recursion_limit target tcs : forall i,
  length (execute_from json_loads recursion_limit target i tcs) = length tcs.
Proof.
  induction tcs as [|tc tcs IH]; intros i; cbn [execute_from length];
    [reflexivity|].
  now rewrite IH.
Qed.

Lemma results_length_helper json_loads recursion_limit target tcs :
  length (execute_test_suite json_loads recursion_limit target tcs) = length tcs.
Proof. apply execute_from_length. Qed.

Lemma process_results_fold rid results : forall t,
  fold_left (process_result rid) results t
  = {| passed := passed t + tally is_passed results;
       failed := failed t + tally is_failed results;
       errors := errors t
                 + tally (fun r => negb (is_passed r) && negb (is_failed r)) results;
       to_analyze := (to_analyze t ++ List.filter is_failed results)%list;
       rows := (rows t ++ map (failure_row rid)
                            (List.filter (fun r => negb (is_passed r)) results))%list |}.
Proof.
  induction results as [|r results IH]; intros t.
  - destruct t. cbn [fold_left List.filter map]. unfold tally. cbn [List.filter length].
    rewrite !app_nil_r. cbn [passed failed errors to_analyze rows].
    f_equal; lia.
  - cbn [fold_left]. rewrite IH, !tally_cons. cbn [List.filter].
    unfold process_result, is_passed, is_failed.
    destruct (result r); cbn [passed failed errors to_analyze rows negb andb Z.b2z map];
      rewrite <- ?app_assoc; cbn [app]; f_equal; lia.
Qed.

Lemma tally_partition (l : list ExecutionResult) :
  tally is_passed l + tally is_failed l
  + tally (fun r => negb (is_passed r) && negb (is_failed r)) l
  = Z.of_nat (length l).
Proof.
  induction l as [|r l IH]; [reflexivity|].
  assert (Hp : is_passed r = match result r with PASSED => true | _ => false end)
    by reflexivity.
  assert (Hf : is_failed r = match result r with FAILED => true | _ => false end)
    by reflexivity.
  rewrite !tally_cons, Hp, Hf. cbn [length].
  destruct (result r); cbn [negb andb Z.b2z]; lia.
Qed.

Lemma tally_not_passed (l : list ExecutionResult) :
  tally is_failed l + tally (fun r => negb (is_passed r) && negb (is_failed r)) l
  = Z.of_nat (length (List.filter (fun r => negb (is_passed r)) l)).
Proof.
  induction l as [|r l IH]; [reflexivity|].
  assert (Hp : is_passed r = match result r with PASSED => true | _ => false end)
    by reflexivity.
  assert (Hf : is_failed r = match result r with FAILED => true | _ => false end)
    by reflexivity.
  rewrite !tally_cons. cbn [List.filter]. rewrite Hp, Hf.
  destruct (result r); cbn [negb andb Z.b2z length]; lia.
Qed.

Lemma tally_same (p q : ExecutionResult -> bool) l :
  (forall r, p r = q r) -> tally p l = tally q l.
Proof.
  intros H. induction l as [|r l IH]; [reflexivity|].
  now rewrite !tally_cons, H, IH.
Qed.

(** X12.  A run of the suite counts every test case once: [passed] is the
    number of results that are PASSED, [failed] the number that are FAILED
    and [errors] the number that are ERROR or TIMEOUT (a timeout counts as
    an error), so that the three add up to the number of test cases; it
    stores one row for each result that did not pass, in the order of the
    results, and hands over for analysis the results that are FAILED. *)
Theorem suite_counts_add_up
  (json_loads : string -> option pyval) (recursion_limit : nat)
  (target : nat -> pydict -> task)
  (sid uid rid : Z) (st : store) (schema : APISchema) (tcs : list pydict) :
  find_schema sid uid (schemas st) = Some schema ->
  test_cases schema = Some tcs ->
  exists r st',
    run_test_suite json_loads recursion_limit target sid uid rid st = (Ran r, st')
    /\ total_tests r = length tcs
    /\ passed (counts r) + failed (counts r) + errors (counts r)
       = Z.of_nat (length tcs)
    /\ Z.of_nat (length (rows (counts r))) = failed (counts r) + errors (counts r)
    /\ failures_to_analyze (test_results r)
       = List.filter is_failed (all_results (test_results r))
    /\ Agent2Service.failures (db st')
       = (Agent2Service.failures (db st)
          ++ map (failure_row rid)
               (List.filter (fun x => negb (is_passed x))
                  (all_results (test_results r))))%list
    /\ passed (counts r) = tally is_passed (all_results (test_results r))
    /\ failed (counts r) = tally is_failed (all_results (test_results r))
    /\ errors (counts r) = tally is_error (all_results (test_results r)).
Proof.
  intros Hs Ht. unfold run_test_suite. rewrite Hs, Ht.
  eexists _, _. split; [reflexivity|].
  cbn [total_tests counts test_results all_results failures_to_analyze db
       Agent2Service.failures].
  set (results := execute_test_suite json_loads recursion_limit target tcs).
  assert (Hlen : length results = length tcs)
    by apply results_length_helper.
  unfold process_results. rewrite process_results_fold.
  cbn [passed failed errors to_analyze rows app].
  split; [exact Hlen|]. split; [rewrite <- Hlen; apply tally_partition|].
  split; [rewrite length_map; symmetry; apply tally_not_passed|].
  do 4 (split; [reflexivity|]).
  cbn [Z.add]. apply tally_same. intros r.
  unfold is_passed, is_failed, is_error. now destruct (result r).
Qed.

Lemma suite_counts_add_up_witness :
  let probe := [("endpoint", PStr "/users"); ("method", PStr "GET");
                ("test_type", PStr "xss"); ("expected_failure", PBool true)] in
  let schema := {| schema_id := 1; owner_id := 7;
                   base_url := "http://api.example.com";
                   original_filename := "api.json"; schema_hash := "h";
                   normalized_schema := Some [[("endpoint", PStr "/users");
                                               ("method", PStr "GET")]];
                   test_cases := Some [probe; probe; probe] |} in
  let st := {| schemas := [schema];
               db := {| Agent2Service.runs := ∅; Agent2Service.failures := [];
                        Agent2Service.calls := [] |} |} in
  let target : nat -> pydict -> task := fun i _ =>
    match i with
    | O => Returned (Responded 403 "forbidden" [])
    | S O => Returned (Responded 200 "<script>" [])
    | _ => Returned TimedOut
    end in
  exists r st',
    run_test_suite (fun _ => None) 100 target 1 7 5 st = (Ran r, st')
    /\ total_tests r = 3%nat
    /\ passed (counts r) + failed (counts r) + errors (counts r) = 3
    /\ Z.of_nat (length (rows (counts r))) = failed (counts r) + errors (counts r)
    /\ failures_to_analyze (test_results r)
       = List.filter is_failed (all_results (test_results r))
    /\ Agent2Service.failures (db st')
       = (Agent2Service.failures (db st)
          ++ map (failure_row 5)
               (List.filter (fun x => negb (is_passed x))
                  (all_results (test_results r))))%list
    /\ passed (counts r) = tally is_passed (all_results (test_results r))
    /\ failed (counts r) = tally is_failed (all_results (test_results r))
    /\ errors (counts r) = tally is_error (all_results (test_results r)).
Proof.
  intros probe schema st target.
  apply (suite_counts_add_up (fun _ => None) 100 target 1 7 5 st schema
           [probe; probe; probe]); reflexivity.
Defined.

Lemma in_execute_from json_loads recursion_limit target tcs : forall i r,
  In r (execute_from json_loads recursion_limit target i tcs) ->
  (exists tc a, r = execute_test_case json_loads recursion_limit tc a)
  \/ (exists tc message prepared, r = task_failed tc message prepared).
Proof.
  induction tcs as [|tc tcs IH]; intros i r; cbn [execute_from]; [intros []|].
  intros [<-|H]; [|exact (IH _ _ H)].
  destruct (target i tc); [left|right]; eauto.
Qed.

(** The reason of a result that did not pass is there and is not empty. *)
Lemma failure_has_reason json_loads recursion_limit target tcs r :
  In r (execute_test_suite json_loads recursion_limit target tcs) ->
  is_passed r = false ->
  exists reason, failure_reason r = Some reason /\ reason <> EmptyString.
Proof.
  intros Hin Hnp.
  destruct (in_execute_from _ _ _ _ _ _ Hin) as [(tc & a & ->)|(tc & m & b & ->)].
  - unfold is_passed in Hnp. destruct a as [status body hs| |message];
      cbv zeta in *; cbn [execute_test_case] in *.
    + destruct (_analyze_response status _ 0 _) as [res reason] eqn:E.
      cbn [result failure_reason] in *. unfold _analyze_response in E.
      repeat match type of E with
             | (if ?b then _ else _) = _ => destruct b
             end; injection E as <- <-; try discriminate;
        (eexists; split; [reflexivity|discriminate]).
    + eexists; split; [reflexivity|discriminate].
    + eexists; split; [reflexivity|discriminate].
  - eexists; split; [reflexivity|discriminate].
Qed.

(** X13.  The reason stored with a failure is the reason the executor
    gave: for a result of the suite that did not pass, a reason is there,
    it is not empty, and the row keeps it as it is, so that the fallback
    text for a missing reason is never stored. *)
Theorem stored_reason_is_the_executors
  (json_loads : string -> option pyval) (recursion_limit : nat)
  (target : nat -> pydict -> task)
  (tcs : list pydict) (rid : Z) (r : ExecutionResult) :
  In r (execute_test_suite json_loads recursion_limit target tcs) ->
  is_passed r = false ->
  exists reason,
    failure_reason r = Some reason
    /\ reason <> EmptyString
    /\ Agent2Service.failure_reason (failure_row rid r) = PStr reason.
Proof.
  intros Hin Hnp.
  destruct (failure_has_reason _ _ _ _ _ Hin Hnp) as (reason & Hr & Hne).
  exists reason. split; [exact Hr|]. split; [exact Hne|].
  cbn [failure_row Agent2Service.failure_reason]. rewrite Hr.
  cbn [reason_or_unknown].
  destruct (String.eqb_spec reason EmptyString); [contradiction|reflexivity].
Qed.

Lemma stored_reason_is_the_executors_witness :
  let probe := [("endpoint", PStr "/users"); ("test_type", PStr "sql_injection")] in
  let target : nat -> pydict -> task := fun _ _ =>
    Returned (Responded 200 "rows: 3" []) in
  let r := execute_test_case (fun _ => None) 100 probe
             (Responded 200 "rows: 3" []) in
  exists reason,
    failure_reason r = Some reason
    /\ reason <> EmptyString
    /\ Agent2Service.failure_reason (failure_row 5 r) = PStr reason.
Proof.
  intros probe target r.
  apply (stored_reason_is_the_executors (fun _ => None) 100 target [probe] 5 r).
  - now left.
  - reflexivity.
Defined.

Lemma tally_zero (p : ExecutionResult -> bool) l :
  (forall r, In r l -> p r = false) -> tally p l = 0.
Proof.
  induction l as [|r l IH]; intros H; [reflexivity|].
  rewrite tally_cons, (H r (or_introl eq_refl)), IH; [reflexivity|].
  intros r' Hr'. apply H. now right.
Qed.

Lemma passed_hits_nothing json_loads recursion_limit target tcs r :
  In r (execute_test_suite json_loads recursion_limit target tcs) ->
  is_passed r = true ->
  counts_5xx r = false /\ counts_invalid_success r = false
  /\ counts_timeout r = false.
Proof.
  intros Hin Hp.
  assert (H0 : counters_hit r = 0).
  { destruct (in_execute_from _ _ _ _ _ _ Hin)
      as [(tc & a & ->)|(tc & m & b & ->)]; [|discriminate].
    apply passed_result_hits_none. unfold is_passed in Hp.
    now destruct (result (execute_test_case json_loads recursion_limit tc a)). }
  rewrite counters_hit_split in H0.
  destruct (counts_5xx r), (counts_invalid_success r), (counts_timeout r);
    cbn [Z.b2z] in H0; try discriminate H0; now repeat split.
Qed.

Lemma filter_nil_all {A : Type} (p : A -> bool) l :
  List.filter p l = [] -> forall x, In x l -> p x = false.
Proof.
  induction l as [|a l IH]; cbn [List.filter]; [intros _ x []|].
  destruct (p a) eqn:Ea; [discriminate|].
  intros H x [<-|Hx]; [exact Ea|now apply IH].
Qed.

(** X14.  The route that runs the tests of a schema with test cases
    answers with counts that add up to the number of test cases; it
    reports no failures exactly when every test passed, and then the
    stability score is 100. *)
Theorem clean_run_scores_100
  (json_loads : string -> option pyval) (recursion_limit : nat)
  (target : nat -> pydict -> task)
  (sid uid rid : Z) (st : store) (schema : APISchema)
  (tc : pydict) (tcs : list pydict) :
  find_schema sid uid (schemas st) = Some schema ->
  test_cases schema = Some (tc :: tcs) ->
  exists rep st',
    run_tests json_loads recursion_limit target sid uid rid st
    = (RunCompleted rep, st')
    /\ report_total rep = length (tc :: tcs)
    /\ report_passed rep + report_failed rep + report_errors rep
       = Z.of_nat (report_total rep)
    /\ (has_failures rep = false <-> report_passed rep = Z.of_nat (report_total rep))
    /\ (has_failures rep = false -> stability_score rep = inject_Z 100).
Proof.
  intros Hs Ht. unfold run_tests, run_test_suite. rewrite Hs, Ht.
  eexists _, _. split; [reflexivity|].
  cbn [report_total report_passed report_failed report_errors has_failures
       stability_score run_id total_tests counts test_results].
  set (results := execute_test_suite json_loads recursion_limit target (tc :: tcs)).
  pose proof (results_length_helper json_loads recursion_limit target (tc :: tcs))
    as Hlen.
  fold results in Hlen.
  unfold process_results. rewrite process_results_fold.
  cbn [passed failed errors to_analyze rows app].
  pose proof (tally_partition results) as Hsum.
  pose proof (tally_nonneg is_failed results) as Hf.
  pose proof (tally_nonneg (fun r => negb (is_passed r) && negb (is_failed r))
                results) as He.
  split; [exact Hlen|]. split; [exact Hsum|].
  assert (Hflag : (0 <? tally is_failed results)
                  || (0 <? tally (fun r => negb (is_passed r) && negb (is_failed r))
                             results) = false
                  <-> tally is_passed results = Z.of_nat (length results)).
  { rewrite orb_false_iff, !Z.ltb_ge. lia. }
  split; [exact Hflag|].
  intros Hclean. apply Hflag in Hclean.
  assert (Hall : forall r, In r results -> is_passed r = true).
  { pose proof (tally_not_passed results) as Hnp.
    assert (Hnil : List.filter (fun r => negb (is_passed r)) results = []).
    { apply length_zero_iff_nil. lia. }
    intros r Hr. pose proof (filter_nil_all _ _ Hnil r Hr) as H.
    now apply negb_false_iff in H. }
  rewrite score_value. cbv zeta.
  set (l := results_to_check _).
  assert (Hl : forall r, In r l -> In r results).
  { unfold l, results_to_check. cbn [all_results failures_to_analyze].
    destruct results as [|r0 rs] eqn:Er; [|auto].
    cbn [List.filter]. auto. }
  rewrite !tally_zero; [reflexivity| | |]; intros r Hr;
    destruct (passed_hits_nothing json_loads recursion_limit target (tc :: tcs) r
                (Hl r Hr) (Hall r (Hl r Hr))) as (H1 & H2 & H3); assumption.
Qed.

Lemma clean_run_scores_100_witness :
  let probe := [("endpoint", PStr "/users"); ("method", PStr "GET");
                ("test_type", PStr "xss"); ("expected_failure", PBool true)] in
  let schema := {| schema_id := 1; owner_id := 7;
                   base_url := "http://api.example.com";
                   original_filename := "api.json"; schema_hash := "h";
                   normalized_schema := Some [[("endpoint", PStr "/users");
                                               ("method", PStr "GET")]];
                   test_cases := Some [probe; probe] |} in
  let st := {| schemas := [schema];
               db := {| Agent2Service.runs := ∅; Agent2Service.failures := [];
                        Agent2Service.calls := [] |} |} in
  let target : nat -> pydict -> task := fun _ _ =>
    Returned (Responded 400 "rejected" []) in
  exists rep st',
    run_tests (fun _ => None) 100 target 1 7 5 st = (RunCompleted rep, st')
    /\ report_total rep = 2%nat
    /\ report_passed rep + report_failed rep + report_errors rep
       = Z.of_nat (report_total rep)
    /\ (has_failures rep = false <-> report_passed rep = Z.of_nat (report_total rep))
    /\ (has_failures rep = false -> stability_score rep = inject_Z 100).
Proof.
  intros probe schema st target.
  apply (clean_run_scores_100 (fun _ => None) 100 target 1 7 5 st schema probe
           [probe]);
    reflexivity.
Defined.

End SuiteProps.

(* ================================================================== *)
(** * From a run to its analysis *)
(* ================================================================== *)

Module PipelineProps.
Import Py TestExecutor StabilityScore TestSuite SuiteProps EnrichmentProps.

Lemma filter_all_false {A : Type} (p : A -> bool) l :
  (forall x, In x l -> p x = false) -> List.filter p l = [].
Proof.
  induction l as [|a l IH]; intros H; [reflexivity|].
  cbn [List.filter]. rewrite (H a (or_introl eq_refl)).
  apply IH. intros x Hx. apply H. now right.
Qed.

Lemma filter_all_true {A : Type} (p : A -> bool) l :
  (forall x, In x l -> p x = true) -> List.filter p l = l.
Proof.
  induction l as [|a l IH]; intros H; [reflexivity|].
  cbn [List.filter]. rewrite (H a (or_introl eq_refl)). f_equal.
  apply IH. intros x Hx. apply H. now right.
Qed.

(** The rows of a run are rows of that run that no one has analysed. *)
Lemma new_rows_are_fresh rid results f :
  In f (rows (process_results rid results)) ->
  Agent2Service.run_id f = rid /\ Agent2Service.root_cause f = PNone.
Proof.
  unfold process_results. rewrite process_results_fold. cbn [rows app].
  intros H. apply in_map_iff in H as (r & <- & _). now split.
Qed.

(** X15.  After a run, the first request to analyse its failures with a
    valid key submits to the Analyzer each row the run has stored, once
    and in order: as many calls as the run counts failed tests and errors
    together (timeouts and errors included, not only the FAILED results
    set apart for analysis), and none when every test passed. *)
Theorem analysis_follows_the_run
  (json_loads : string -> option pyval) (recursion_limit : nat)
  (target : nat -> pydict -> task)
  (model : Agent2Service.llm)
  (sid uid rid : Z) (st : store) (schema : APISchema) (tcs : list pydict) :
  find_schema sid uid (schemas st) = Some schema ->
  test_cases schema = Some tcs ->
  (forall f, In f (Agent2Service.failures (db st)) ->
             Agent2Service.run_id f <> rid) ->
  exists r st',
    run_test_suite json_loads recursion_limit target sid uid rid st = (Ran r, st')
    /\ Z.of_nat (length (rows (counts r))) = failed (counts r) + errors (counts r)
    /\ let out := SchemaRoutes.analyze_failures rid uid Agent2Service.KeyValid
                    model (db st') in
       Agent2Service.calls (snd out)
       = (Agent2Service.calls (db st)
          ++ map Agent2Service.failure_data_of (rows (counts r)))%list
       /\ (rows (counts r) = [] -> fst out = SchemaRoutes.NoFailures).
Proof.
  intros Hs Ht Hfresh. unfold run_test_suite. rewrite Hs, Ht.
  eexists _, _. split; [reflexivity|].
  cbn [counts].
  set (results := execute_test_suite json_loads recursion_limit target tcs).
  pose proof (new_rows_are_fresh rid results) as Hnew.
  split.
  { unfold process_results. rewrite process_results_fold.
    cbn [rows failed errors app]. rewrite length_map.
    symmetry. apply tally_not_passed. }
  set (new := rows (process_results rid results)) in *.
  set (old := Agent2Service.failures (db st)) in *.
  assert (Hrun : List.filter (SchemaRoutes.of_run rid) (old ++ new) = new).
  { rewrite List.filter_app, filter_all_false, filter_all_true; [reflexivity| |].
    - intros f Hf. unfold SchemaRoutes.of_run.
      destruct (Hnew f Hf) as [-> _]. apply Z.eqb_refl.
    - intros f Hf. unfold SchemaRoutes.of_run. apply Z.eqb_neq. now apply Hfresh. }
  assert (Hsel : List.filter (Agent2Service.unanalyzed rid) (old ++ new) = new).
  { rewrite List.filter_app, filter_all_false, filter_all_true; [reflexivity| |].
    - intros f Hf. unfold Agent2Service.unanalyzed.
      destruct (Hnew f Hf) as [-> ->]. now rewrite Z.eqb_refl.
    - intros f Hf. unfold Agent2Service.unanalyzed.
      assert (E : (Agent2Service.run_id f =? rid) = false)
        by (apply Z.eqb_neq; now apply Hfresh).
      now rewrite E. }
  cbv zeta. unfold SchemaRoutes.analyze_failures.
  cbn [db Agent2Service.runs Agent2Service.failures].
  rewrite lookup_insert_eq. cbn [Agent2Service.user_id Agent2Service.agent2_called].
  rewrite Z.eqb_refl. cbn [negb]. rewrite Hrun.
  destruct new as [|f0 new'] eqn:Enew.
  - cbn [length Nat.eqb fst snd map Agent2Service.calls].
    split; [now rewrite app_nil_r|reflexivity].
  - cbn [length Nat.eqb].
    unfold Agent2Service.analyze_failures_with_agent2.
    cbn [Agent2Service.failures Agent2Service.calls Agent2Service.runs].
    rewrite Hsel.
    pose proof (batch_spec true model (f0 :: new') (Agent2Service.calls (db st)))
      as [Hlog _].
    cbv zeta in Hlog.
    destruct (Agent2Service.analyze_failures_batch true model _ _)
      as [analyses log].
    cbn [snd] in Hlog. subst log.
    rewrite lookup_insert_eq. cbn [fst snd Agent2Service.calls].
    split; [reflexivity|discriminate].
Qed.

Lemma analysis_follows_the_run_witness :
  let probe := [("endpoint", PStr "/users"); ("method", PStr "GET");
                ("test_type", PStr "xss"); ("expected_failure", PBool true)] in
  let schema := {| schema_id := 1; owner_id := 7;
                   base_url := "http://api.example.com";
                   original_filename := "api.json"; schema_hash := "h";
                   normalized_schema := Some [[("endpoint", PStr "/users");
                                               ("method", PStr "GET")]];
                   test_cases := Some [probe; probe; probe] |} in
  let st := {| schemas := [schema];
               db := {| Agent2Service.runs := ∅; Agent2Service.failures := [];
                        Agent2Service.calls := [] |} |} in
  let target : nat -> pydict -> task := fun i _ =>
    match i with
    | O => Returned (Responded 403 "forbidden" [])
    | S O => Returned (Responded 200 "<script>" [])
    | _ => Returned TimedOut
    end in
  let model : Agent2Service.llm := fun _ _ => Agent2Service.ReplyNotJson in
  exists r st',
    run_test_suite (fun _ => None) 100 target 1 7 5 st = (Ran r, st')
    /\ Z.of_nat (length (rows (counts r))) = failed (counts r) + errors (counts r)
    /\ let out := SchemaRoutes.analyze_failures 5 7 Agent2Service.KeyValid
                    model (db st') in
       Agent2Service.calls (snd out)
       = (Agent2Service.calls (db st)
          ++ map Agent2Service.failure_data_of (rows (counts r)))%list
       /\ (rows (counts r) = [] -> fst out = SchemaRoutes.NoFailures).
Proof.
  intros probe schema st target model.
  apply (analysis_follows_the_run (fun _ => None) 100 target model 1 7 5 st schema
           [probe; probe; probe]); [reflexivity|reflexivity|].
  intros f [].
Defined.

End PipelineProps.

(* ================================================================== *)
(** * The score over longer lists, and the grade of a run *)
(* ================================================================== *)

Module ReportProps.
Import Py TestExecutor StabilityScore ScoreProps FinalReport.

Lemma tally_app (p : ExecutionResult -> bool) l l' :
  tally p (l ++ l') = tally p l + tally p l'.
Proof.
  unfold tally. rewrite List.filter_app, length_app. lia.
Qed.

(** X16.  More results never raise the score: when the results checked
    for one run are those of another followed by further results, its
    score is at most the score of the other. *)
Theorem score_never_rises (t t' : TestResults) (more : list ExecutionResult) :
  results_to_check t' = (results_to_check t ++ more)%list ->
  (calculate_stability_score t' <= calculate_stability_score t)%Q.
Proof.
  intros H. rewrite !score_value. cbv zeta. rewrite H, !tally_app.
  rewrite <- Zle_Qle. unfold clamp.
  pose proof (tally_nonneg counts_5xx more).
  pose proof (tally_nonneg counts_invalid_success more).
  pose proof (tally_nonneg counts_timeout more).
  lia.
Qed.

Lemma score_never_rises_witness :
  let slow := {| test_case := []; status_code := None;
                 response_body := EmptyString; headers := [];
                 result := TIMEOUT; failure_reason := Some "Request timeout" |} in
  let t := {| all_results := [slow]; failures_to_analyze := [] |} in
  let t' := {| all_results := [slow; slow; slow]; failures_to_analyze := [] |} in
  (calculate_stability_score t' <= calculate_stability_score t)%Q.
Proof.
  intros slow t t'.
  apply (score_never_rises t t' [slow; slow]). reflexivity.
Defined.

Lemma Qle_bool_inject a b : Qle_bool (inject_Z a) (inject_Z b) = (a <=? b).
Proof. unfold Qle_bool, inject_Z. cbn. now rewrite !Z.mul_1_r. Qed.

(** X17.  The grade of a run follows from its penalty 5a + 3b + 2c, with
    a, b and c the numbers of results the three counters take: EXCELLENT
    up to 10, GOOD up to 30, FAIR up to 50, POOR above. *)
Theorem grade_follows_penalty (t : TestResults) :
  let l := results_to_check t in
  let penalty := 5 * tally counts_5xx l + 3 * tally counts_invalid_success l
                 + 2 * tally counts_timeout l in
  overall_health (Some (calculate_stability_score t))
  = Some (if penalty <=? 10 then "EXCELLENT"
          else if penalty <=? 30 then "GOOD"
          else if penalty <=? 50 then "FAIR"
          else "POOR").
Proof.
  intros l penalty. rewrite score_value. cbv zeta. fold l.
  pose proof (tally_nonneg counts_5xx l).
  pose proof (tally_nonneg counts_invalid_success l).
  pose proof (tally_nonneg counts_timeout l).
  unfold overall_health, grade.
  change 90%Q with (inject_Z 90). change 70%Q with (inject_Z 70).
  change 50%Q with (inject_Z 50). rewrite !Qle_bool_inject.
  unfold clamp.
  destruct (penalty <=? 10) eqn:E1.
  - apply Z.leb_le in E1.
    assert (E : (90 <=? Z.max 0 (Z.min 100 (100 - 5 * tally counts_5xx l
                  - 3 * tally counts_invalid_success l
                  - 2 * tally counts_timeout l))) = true)
      by (apply Z.leb_le; unfold penalty in E1; lia).
    now rewrite E.
  - apply Z.leb_gt in E1.
    assert (E : (90 <=? Z.max 0 (Z.min 100 (100 - 5 * tally counts_5xx l
                  - 3 * tally counts_invalid_success l
                  - 2 * tally counts_timeout l))) = false)
      by (apply Z.leb_gt; unfold penalty in E1; lia).
    rewrite E. destruct (penalty <=? 30) eqn:E2.
    + apply Z.leb_le in E2.
      assert (E' : (70 <=? Z.max 0 (Z.min 100 (100 - 5 * tally counts_5xx l
                     - 3 * tally counts_invalid_success l
                     - 2 * tally counts_timeout l))) = true)
        by (apply Z.leb_le; unfold penalty in E2; lia).
      now rewrite E'.
    + apply Z.leb_gt in E2.
      assert (E' : (70 <=? Z.max 0 (Z.min 100 (100 - 5 * tally counts_5xx l
                     - 3 * tally counts_invalid_success l
                     - 2 * tally counts_timeout l))) = false)
        by (apply Z.leb_gt; unfold penalty in E2; lia).
      rewrite E'. destruct (penalty <=? 50) eqn:E3.
      * apply Z.leb_le in E3.
        assert (E'' : (50 <=? Z.max 0 (Z.min 100 (100 - 5 * tally counts_5xx l
                        - 3 * tally counts_invalid_success l
                        - 2 * tally counts_timeout l))) = true)
          by (apply Z.leb_le; unfold penalty in E3; lia).
        now rewrite E''.
      * apply Z.leb_gt in E3.
        assert (E'' : (50 <=? Z.max 0 (Z.min 100 (100 - 5 * tally counts_5xx l
                        - 3 * tally counts_invalid_success l
                        - 2 * tally counts_timeout l))) = false)
          by (apply Z.leb_gt; unfold penalty in E3; lia).
        now rewrite E''.
Qed.

End ReportProps.

(* ================================================================== *)
(** * The analysis: risk levels, untouched rows, a key that is not valid *)
(* ================================================================== *)

Module AnalysisProps.
Import Py Agent2Service SchemaRoutes AnalysisSpec DictProps EnrichmentProps.

Lemma analyze_failure_risk valid model log fd :
  known_risk (dict_get_default (fst (analyze_failure valid model log fd))
                "risk_level" RiskLevel_MEDIUM) = true.
Proof.
  unfold analyze_failure. destruct valid; cbn [negb fst]; [|reflexivity].
  destruct (model (length log) fd) as [v| |]; try reflexivity.
  destruct v as [| | | | |result]; try reflexivity.
  unfold dict_get_default.
  destruct (dict_get result "risk_level") as [x|] eqn:Ex.
  - destruct x as [| | |risk| |]; try reflexivity.
    destruct (existsb _ _) eqn:Er.
    + rewrite Ex. exact Er.
    + now rewrite dict_get_set_same.
  - cbn [PyStr.lower existsb String.eqb orb].
    now rewrite dict_get_set_same.
Qed.

Lemma batch_risk valid model fds : forall log,
  Forall (fun a => known_risk (dict_get_default a "risk_level" RiskLevel_MEDIUM)
                   = true)
         (fst (analyze_failures_batch valid model log fds)).
Proof.
  induction fds as [|fd fds IH]; intros log; cbn [analyze_failures_batch];
    [constructor|].
  pose proof (analyze_failure_risk valid model log fd) as Hr.
  destruct (analyze_failure valid model log fd) as [a log1]. cbn [fst] in Hr.
  specialize (IH log1).
  destruct (analyze_failures_batch valid model log1 fds) as [results log2].
  cbn [fst] in *. constructor; [|exact IH].
  unfold dict_get_default in *.
  now rewrite !dict_get_set_other by discriminate.
Qed.

Lemma store_analyses_in rid fs : forall results f',
  In f' (store_analyses rid fs results) ->
  In f' fs
  \/ exists f a, In f fs /\ unanalyzed rid f = true /\ In a results
                 /\ f' = with_analysis f a.
Proof.
  induction fs as [|f fs IH]; intros results f'; cbn [store_analyses];
    [intros []|].
  destruct (unanalyzed rid f) eqn:Eu.
  - destruct results as [|a results]; [now left|].
    intros [<-|H].
    + right. exists f, a. repeat split; [now left|exact Eu|now left].
    + destruct (IH _ _ H) as [Hin|(f0 & a0 & H1 & H2 & H3 & H4)].
      * left. now right.
      * right. exists f0, a0. repeat split; [now right|exact H2|now right|exact H4].
  - intros [<-|H]; [left; now left|].
    destruct (IH _ _ H) as [Hin|(f0 & a0 & H1 & H2 & H3 & H4)].
    + left. now right.
    + right. exists f0, a0. repeat split; [now right|exact H2|exact H3|exact H4].
Qed.

(** X18.  Whatever the Analyzer answers, a row that a request to analyse
    failures has written belongs to the run of the request and carries a
    risk level that is low, medium, high or critical up to letter case;
    every other row is a row that was there before. *)
Theorem stored_risk_is_known
  (rid uid : Z) (key : key_setup) (model : llm) (w : world) (f' : TestFailure) :
  In f' (failures (snd (analyze_failures rid uid key model w))) ->
  In f' (failures w)
  \/ (run_id f' = rid /\ known_risk (risk_level f') = true).
Proof.
  intros Hin.
  destruct (request_outcome rid uid key model w) as [[Hw _]|(run & Hout)].
  - rewrite Hw in Hin. now left.
  - cbv zeta in Hout. destruct Hout as (_ & _ & _ & Hout).
    rewrite Hout in Hin. cbn [snd failures] in Hin.
    apply store_analyses_in in Hin as [H|(f & a & Hf & Hu & Ha & ->)];
      [now left|right].
    split.
    + cbn [with_analysis run_id]. unfold unanalyzed in Hu.
      apply andb_prop in Hu as [Hu _]. now apply Z.eqb_eq.
    + cbn [with_analysis risk_level].
      match type of Ha with
      | In _ (fst (analyze_failures_batch ?v ?m ?l ?d)) =>
          pose proof (batch_risk v m d l) as Hall
      end.
      rewrite List.Forall_forall in Hall. exact (Hall a Ha).
Qed.

Lemma stored_risk_is_known_witness :
  let failure :=
    {| run_id := 1; endpoint := PStr "/users"; test_type := PStr "xss";
       request_payload := PDict []; response_snippet := "oops";
       status_code := PInt 500; failure_reason := PStr "5xx Server Error (500)";
       root_cause := PNone; risk_level := PNone; fix_suggestion := PNone |} in
  let answer := [("root_cause", PStr "unhandled exception");
                 ("risk_level", PStr "Catastrophic");
                 ("fix_suggestion", PStr "validate the input")] in
  let w := {| runs := <[1 := {| user_id := 7; agent2_called := false |}]> ∅;
              failures := [failure]; calls := [] |} in
  let model : llm := fun _ _ => ReplyJson (PDict answer) in
  let f' := with_analysis failure (dict_set answer "risk_level" RiskLevel_MEDIUM) in
  In f' (failures w) \/ (run_id f' = 1 /\ known_risk (risk_level f') = true).
Proof.
  intros failure answer w model f'.
  apply (stored_risk_is_known 1 7 KeyValid model w f').
  destruct (request_outcome 1 7 KeyValid model w) as [[_ Hnone]|(run & Hout)].
  - exfalso.
    apply (Hnone {| analyzed_count := 1;
                    analyses := Some (fst (analyze_failures_batch true model []
                                             [failure_data_of failure])) |} _
                 eq_refl eq_refl).
  - cbv zeta in Hout. destruct Hout as (_ & _ & _ & ->). now left.
Defined.

Lemma store_analyses_frame rid fs : forall results,
  Forall2 (fun f f' => same_row_data f f' /\ (unanalyzed rid f = false -> f' = f))
          fs (store_analyses rid fs results).
Proof.
  assert (Hrefl : forall l : list TestFailure,
             Forall2 (fun f f' => same_row_data f f'
                                  /\ (unanalyzed rid f = false -> f' = f)) l l).
  { induction l as [|x l IHl]; constructor; [|exact IHl].
    split; [now repeat split|reflexivity]. }
  induction fs as [|f fs IH]; intros results; cbn [store_analyses];
    [constructor|].
  destruct (unanalyzed rid f) eqn:Eu.
  - destruct results as [|a results]; [apply Hrefl|].
    constructor; [|apply IH]. split; [now repeat split|congruence].
  - constructor; [|apply IH]. split; [now repeat split|reflexivity].
Qed.

(** X19.  A request to analyse the failures of a run changes nothing but
    the three analysis columns of rows of that run that have no root
    cause, and the flag of that run: every row keeps its place and its
    other columns, rows of other runs and rows already analysed stay as
    they are, and so do the other runs. *)
Theorem analysis_touches_only_unanalyzed
  (rid uid : Z) (key : key_setup) (model : llm) (w : world) :
  let w' := snd (analyze_failures rid uid key model w) in
  Forall2 (fun f f' => same_row_data f f' /\ (unanalyzed rid f = false -> f' = f))
          (failures w) (failures w')
  /\ (forall rid', rid' <> rid -> runs w' !! rid' = runs w !! rid')
  /\ (forall run', runs w' !! rid = Some run' ->
                   exists run, runs w !! rid = Some run
                               /\ user_id run' = user_id run).
Proof.
  intros w'. unfold w'.
  destruct (request_outcome rid uid key model w) as [[Hw _]|(run & Hout)].
  - rewrite Hw. split; [|split].
    + clear. induction (failures w) as [|x l IHl]; constructor; [|exact IHl].
      split; [now repeat split|reflexivity].
    + reflexivity.
    + intros run' H. now exists run'.
  - cbv zeta in Hout. destruct Hout as (Hrun & _ & _ & ->).
    cbn [snd failures runs]. split; [apply store_analyses_frame|]. split.
    + intros rid' Hne. now rewrite lookup_insert_ne.
    + intros run' H. rewrite lookup_insert_eq in H. injection H as <-.
      exists run. now split.
Qed.

Lemma batch_invalid_key model fds : forall log,
  Forall reports_invalid_key (fst (analyze_failures_batch false model log fds)).
Proof.
  induction fds as [|fd fds IH]; intros log; cbn [analyze_failures_batch];
    [constructor|].
  cbn [analyze_failure negb]. specialize (IH log).
  destruct (analyze_failures_batch false model log fds) as [results log2].
  cbn [fst] in *. constructor; [|exact IH].
  unfold reports_invalid_key.
  rewrite !dict_get_set_other by discriminate. now repeat split.
Qed.

Lemma unanalyzed_is_of_run rid fs :
  (forall f, In f fs -> run_id f = rid -> root_cause f = PNone) ->
  List.filter (unanalyzed rid) fs = List.filter (of_run rid) fs.
Proof.
  induction fs as [|f fs IH]; intros H; [reflexivity|].
  cbn [List.filter].
  rewrite IH by (intros f' Hf'; apply H; now right).
  unfold unanalyzed, of_run.
  destruct (run_id f =? rid) eqn:E; [|reflexivity].
  rewrite (H f (or_introl eq_refl)) by now apply Z.eqb_eq. reflexivity.
Qed.

(** X20.  A request made with a key that is not valid still closes the
    run: on a run with failures, none analysed, it calls the Analyzer for
    none of them, writes for each the analysis that reports the key as
    not valid, and sets the flag of the run.  A later request, whatever
    its key, calls nothing and answers from the store with those
    entries. *)
Theorem invalid_key_closes_the_run
  (rid uid : Z) (key2 : key_setup) (model model2 : llm) (w : world) (run : TestRun) :
  runs w !! rid = Some run ->
  user_id run = uid ->
  agent2_called run = false ->
  List.filter (of_run rid) (failures w) <> [] ->
  (forall f, In f (failures w) -> run_id f = rid -> root_cause f = PNone) ->
  let first := analyze_failures rid uid KeyInvalid model w in
  let second := analyze_failures rid uid key2 model2 (snd first) in
  calls (snd first) = calls w
  /\ calls (snd second) = calls w
  /\ (exists run', runs (snd first) !! rid = Some run' /\ agent2_called run' = true)
  /\ exists entries,
       fst second = Cached entries
       /\ length entries = length (List.filter (of_run rid) (failures w))
       /\ Forall reports_invalid_key entries.
Proof.
  intros Hrun Hu Hflag Hne Hfresh first second.
  pose proof (unanalyzed_is_of_run rid (failures w) Hfresh) as Hsel.
  set (selected := List.filter (of_run rid) (failures w)) in *.
  destruct (batch_spec false model selected (calls w)) as [Hlog Hall].
  cbv zeta in Hlog, Hall. rewrite app_nil_r in Hlog.
  pose proof (batch_invalid_key model (map failure_data_of selected) (calls w))
    as Hinv.
  set (batch := analyze_failures_batch false model (calls w)
                  (map failure_data_of selected)) in *.
  set (run' := {| user_id := user_id run; agent2_called := true |}).
  assert (Hfirst : first =
            (Analyzed {| analyzed_count := length (fst batch);
                         analyses := Some (fst batch) |},
             {| runs := <[rid := run']> (runs w);
                failures := store_analyses rid (failures w) (fst batch);
                calls := snd batch |})).
  { unfold first, analyze_failures. rewrite Hrun, Hflag.
    rewrite <- Hu, Z.eqb_refl. cbn [negb]. fold selected.
    destruct selected as [|f0 fs0] eqn:Es; [now contradiction Hne|].
    cbn [length Nat.eqb]. unfold analyze_failures_with_agent2.
    rewrite Hsel, Hrun. fold batch.
    destruct batch as [results log]. reflexivity. }
  assert (Hrun' : runs (snd first) !! rid = Some run').
  { rewrite Hfirst. cbn [snd runs]. apply lookup_insert_eq. }
  assert (Hrows : map cached_entry
                    (List.filter (of_run rid) (failures (snd first)))
                  = map stored_view (fst batch)).
  { rewrite Hfirst. cbn [snd failures].
    apply stored_rows_are_the_analyses; [exact Hfresh|].
    rewrite Hsel. exact Hall. }
  assert (Hlen : length (fst batch) = length selected).
  { symmetry. exact (Forall2_length _ _ _ Hall). }
  assert (Hne' : List.filter (of_run rid) (failures (snd first)) <> []).
  { intros Hnil. rewrite Hnil in Hrows. cbn [map] in Hrows.
    symmetry in Hrows. apply map_eq_nil in Hrows.
    rewrite Hrows in Hlen. cbn [length] in Hlen.
    symmetry in Hlen. apply length_zero_iff_nil in Hlen. contradiction. }
  destruct (flag_set_answers_from_store rid uid key2 model2 (snd first) run'
              Hrun' eq_refl) as [Hsame Hcached].
  fold second in Hsame, Hcached.
  specialize (Hcached Hu Hne').
  split; [rewrite Hfirst; exact Hlog|].
  split; [rewrite Hsame, Hfirst; exact Hlog|].
  split; [exists run'; now split|].
  exists (map stored_view (fst batch)).
  split; [now rewrite Hcached, Hrows|].
  split; [now rewrite length_map|].
  apply List.Forall_forall. intros e He.
  apply in_map_iff in He as (a & <- & Ha).
  rewrite List.Forall_forall in Hinv. destruct (Hinv a Ha) as (H1 & H2 & H3).
  unfold reports_invalid_key, stored_view, dict_get_default.
  rewrite H1, H2, H3. now repeat split.
Qed.

Lemma invalid_key_closes_the_run_witness :
  let failure ep :=
    {| run_id := 1; endpoint := PStr ep; test_type := PStr "xss";
       request_payload := PDict []; response_snippet := "oops";
       status_code := PInt 500; failure_reason := PStr "5xx Server Error (500)";
       root_cause := PNone; risk_level := PNone; fix_suggestion := PNone |} in
  let run := {| user_id := 7; agent2_called := false |} in
  let w := {| runs := <[1 := run]> ∅;
              failures := [failure "/users"; failure "/orders"];
              calls := [] |} in
  let model : llm := fun _ _ => ReplyNotJson in
  let first := analyze_failures 1 7 KeyInvalid model w in
  let second := analyze_failures 1 7 KeyValid model (snd first) in
  calls (snd first) = calls w
  /\ calls (snd second) = calls w
  /\ (exists run', runs (snd first) !! 1 = Some run' /\ agent2_called run' = true)
  /\ exists entries,
       fst second = Cached entries
       /\ length entries = length (List.filter (of_run 1) (failures w))
       /\ Forall reports_invalid_key entries.
Proof.
  intros failure run w model.
  apply (invalid_key_closes_the_run 1 7 KeyValid model model w run).
  - apply lookup_insert_eq.
  - reflexivity.
  - reflexivity.
  - discriminate.
  - intros f [<-|[<-|[]]] _; reflexivity.
Defined.

End AnalysisProps.

(* ================================================================== *)
(** * The upload route: what is stored, and the cache *)
(* ================================================================== *)

Module UploadProps.
Import Py ValidationService GateSpec Upload GateSoundness.

Lemma accepted_without_errors agent_output base_url errors :
  validate_agent1_output agent_output base_url = Ok (true, errors) ->
  errors = [].
Proof.
  unfold validate_agent1_output.
  destruct (eq_str _ "reject"); [discriminate|].
  destruct (check_normalized_schema _) as [[e2 ns]|];
    cbn [mbind result_bind bind]; [|discriminate].
  destruct (check_test_cases_field _) as [[e3 tc]|];
    cbn [mbind result_bind bind]; [|discriminate].
  destruct (check_cross_reference ns tc) as [e4|];
    cbn [mbind result_bind bind]; [|discriminate].
  intros H. injection H as Hv He. rewrite He in Hv.
  destruct errors; [reflexivity|discriminate].
Qed.

Lemma map_PDict_cons (l : list pydict) (e : pyval) (es : list pyval) :
  map PDict l = e :: es -> l <> [].
Proof. destruct l; [discriminate|discriminate]. Qed.

Section Route.
Variable json_loads : string -> option pyval.
Variable yaml_safe_load : string -> option pyval.
Variable decode_error : string -> string.
Variable planner : nat -> pydict -> string -> Agent1Output.

(** X21.  Only a plan that the gate accepts is stored.  An upload that is
    not answered as processed leaves the table of schemas as it is; one
    that is processed adds one row, owned by the user, whose schema and
    test cases are non-empty lists of well-formed elements, each test
    case naming no endpoint or one that the stored schema lists. *)
Theorem only_accepted_plans_are_stored
  (base_url filename content : string) (uid new_id : Z) (st : state) :
  let out := upload_schema json_loads yaml_safe_load decode_error planner
                 base_url filename content uid new_id st in
  ((forall id, fst out <> Processed id) -> schemas (snd out) = schemas st)
  /\ (forall id, fst out = Processed id ->
        exists row eps tcs,
          id = new_id
          /\ schemas (snd out) = (schemas st ++ [row])%list
          /\ TestSuite.schema_id row = new_id
          /\ TestSuite.owner_id row = uid
          /\ TestSuite.base_url row = base_url
          /\ TestSuite.normalized_schema row = Some eps
          /\ TestSuite.test_cases row = Some tcs
          /\ eps <> [] /\ tcs <> []
          /\ forallb well_formed_endpoint (map PDict eps) = true
          /\ forallb (well_formed_test (map endpoint_value (map PDict eps)))
               (map PDict tcs) = true).
Proof.
  intros out. unfold out, upload_schema.
  destruct (_ || _); [split; [reflexivity|discriminate]|].
  destruct (String.eqb filename EmptyString); [split; [reflexivity|discriminate]|].
  destruct (negb _); [split; [reflexivity|discriminate]|].
  destruct (validate_schema_file_content _ _ _ _ _) as [message|[|kv parsed]];
    try (split; [reflexivity|discriminate]).
  destruct (find_cached _ _ _); [split; [reflexivity|discriminate]|].
  set (o := planner _ _ _).
  destruct (validate_agent1_output (to_dict o) base_url) as [[is_valid errs]|] eqn:E;
    [|split; [reflexivity|discriminate]].
  destruct (String.eqb (status o) "reject" || negb is_valid) eqn:Erej;
    [split; [reflexivity|discriminate]|].
  apply orb_false_elim in Erej as [_ Hvalid].
  apply negb_false_iff in Hvalid. subst is_valid.
  pose proof (accepted_without_errors _ _ _ E) as ->.
  destruct (accepted_plan_parts _ _ E)
    as (e & es & t & ts & ver & _ & _ & Hns & Htc & Hwf & Hf & Hn).
  cbn [fst snd schemas]. split; [intros H; now contradiction (H new_id)|].
  intros id H. injection H as <-.
  cbn [to_dict dict_get String.eqb Ascii.eqb Bool.eqb] in Hns, Htc.
  unfold optional_list in Hns, Htc.
  destruct (normalized_schema o) as [eps|]; [|discriminate].
  destruct (test_cases o) as [tcs|]; [|discriminate].
  injection Hns as Hns. injection Htc as Htc.
  eexists _, eps, tcs.
  split; [reflexivity|]. split; [reflexivity|].
  cbn [TestSuite.schema_id TestSuite.owner_id TestSuite.base_url
       TestSuite.normalized_schema TestSuite.test_cases].
  repeat (split; [reflexivity|]).
  split; [exact (map_PDict_cons _ _ _ Hns)|].
  split; [exact (map_PDict_cons _ _ _ Htc)|].
  rewrite Hns, Htc. split; [exact Hwf|].
  now rewrite forallb_well_formed_test, Hf, Hn.
Qed.

Lemma find_last {A : Type} (p : A -> bool) l x :
  List.find p l = None -> p x = true -> List.find p (l ++ [x]) = Some x.
Proof.
  induction l as [|a l IH]; cbn [List.find app]; intros Hl Hx.
  - now rewrite Hx.
  - destruct (p a); [discriminate|]. now apply IH.
Qed.

(** X22.  An upload that has been processed is answered from the cache
    when the same user sends it again: the second upload returns the id
    of the stored row, calls the Planner for nothing and changes
    nothing. *)
Theorem second_upload_is_cached
  (base_url filename content : string) (uid new_id new_id' id : Z) (st : state) :
  fst (upload_schema json_loads yaml_safe_load decode_error planner
                 base_url filename content uid new_id st) = Processed id ->
  let st1 := snd (upload_schema json_loads yaml_safe_load decode_error planner
                 base_url filename content uid new_id st) in
  upload_schema json_loads yaml_safe_load decode_error planner
    base_url filename content uid new_id' st1 = (AlreadyCached id, st1)
  /\ length (planner_calls st1) = S (length (planner_calls st)).
Proof.
  unfold upload_schema.
  destruct (_ || _); [discriminate|].
  destruct (String.eqb filename EmptyString); [discriminate|].
  destruct (negb _); [discriminate|].
  destruct (validate_schema_file_content _ _ _ _ _) as [message|[|kv parsed]];
    try discriminate.
  destruct (find_cached _ _ _) eqn:Ef; [discriminate|].
  set (o := planner _ _ _).
  destruct (validate_agent1_output (to_dict o) base_url) as [[is_valid errs]|];
    [|discriminate].
  destruct (String.eqb (status o) "reject" || negb is_valid); [discriminate|].
  cbn [fst snd schemas planner_calls]. intros H. injection H as <-.
  split; [|rewrite length_app; cbn [length]; lia].
  unfold find_cached in *.
  rewrite (find_last _ _ _ Ef).
  - reflexivity.
  - cbn [TestSuite.schema_hash TestSuite.owner_id].
    now rewrite String.eqb_refl, Z.eqb_refl.
Qed.

End Route.

Lemma only_accepted_plans_are_stored_witness :
  let users := [("endpoint", PStr "/users"); ("method", PStr "get")] in
  let probe := [("endpoint", PStr "/users"); ("method", PStr "get");
                ("test_type", PStr "xss"); ("expected_failure", PBool true)] in
  let plan := {| status := "ok"; normalized_schema := Some [users];
                 test_cases := Some [probe]; errors := Some [] |} in
  let loads : string -> option pyval := fun _ => Some (PDict [("openapi", PStr "3.0")]) in
  let st := {| schemas := []; planner_calls := [] |} in
  let out := upload_schema loads loads (fun _ => EmptyString) (fun _ _ _ => plan)
               "http://api.example.com" "api.json" "{}" 7 1 st in
  exists row eps tcs,
    1 = 1
    /\ schemas (snd out) = (schemas st ++ [row])%list
    /\ TestSuite.schema_id row = 1
    /\ TestSuite.owner_id row = 7
    /\ TestSuite.base_url row = "http://api.example.com"
    /\ TestSuite.normalized_schema row = Some eps
    /\ TestSuite.test_cases row = Some tcs
    /\ eps <> [] /\ tcs <> []
    /\ forallb well_formed_endpoint (map PDict eps) = true
    /\ forallb (well_formed_test (map endpoint_value (map PDict eps)))
         (map PDict tcs) = true.
Proof.
  intros users probe plan loads st out.
  apply (proj2 (only_accepted_plans_are_stored loads loads (fun _ => EmptyString)
                  (fun _ _ _ => plan)
                  "http://api.example.com" "api.json" "{}" 7 1 st) 1).
  unfold upload_schema.
  change (validate_agent1_output (to_dict plan) "http://api.example.com")
    with (@Ok (bool * list string) (true, [])).
  reflexivity.
Defined.

Lemma second_upload_is_cached_witness :
  let users := [("endpoint", PStr "/users"); ("method", PStr "get")] in
  let probe := [("endpoint", PStr "/users"); ("method", PStr "get");
                ("test_type", PStr "xss"); ("expected_failure", PBool true)] in
  let plan := {| status := "ok"; normalized_schema := Some [users];
                 test_cases := Some [probe]; errors := Some [] |} in
  let loads : string -> option pyval := fun _ => Some (PDict [("openapi", PStr "3.0")]) in
  let unused := {| status := "reject"; normalized_schema := None;
                   test_cases := None; errors := None |} in
  let planner : nat -> pydict -> string -> Agent1Output := fun n _ _ =>
    match n with O => plan | _ => unused end in
  let run := upload_schema loads loads (fun _ => EmptyString) planner
               "http://api.example.com" "api.json" "{}" 7 in
  let st1 := snd (run 1 {| schemas := []; planner_calls := [] |}) in
  run 2 st1 = (AlreadyCached 1, st1)
  /\ length (planner_calls st1) = 1%nat.
Proof.
  intros users probe plan loads unused planner run st1.
  apply (second_upload_is_cached loads loads (fun _ => EmptyString) planner
           "http://api.example.com" "api.json" "{}" 7 1 2 1
           {| schemas := []; planner_calls := [] |}).
  unfold upload_schema.
  change (validate_agent1_output (to_dict (planner 0%nat
            [("openapi", PStr "3.0")] "http://api.example.com"))
            "http://api.example.com")
    with (@Ok (bool * list string) (true, [])).
  reflexivity.
Defined.

End UploadProps.

(* ================================================================== *)
(** * Who a request is made by, and who may sign up *)
(* ================================================================== *)

Module AuthProps.
Import Py Security AuthRoutes.

#[local] Arguments String.append !s1 s2 : simpl nomatch.

Lemma prefix_split p : forall s,
  String.prefix p s = true -> exists t, s = p ++ t.
Proof.
  induction p as [|a p IH]; intros s H; [now exists s|].
  destruct s as [|b s]; [discriminate|].
  cbn [String.prefix] in H. destruct (ascii_dec a b) as [->|]; [|discriminate].
  destruct (IH s H) as [t ->]. now exists t.
Qed.

(** The first part of [s.split(sep)] is the text before the first
    separator. *)
Lemma split_first sep : forall s,
  exists tok parts rest,
    PyText.split sep s = tok :: parts
    /\ s = tok ++ rest
    /\ PyStr.has_char sep tok = false
    /\ (rest = EmptyString \/ exists r, rest = String sep r).
Proof.
  induction s as [|c s IH].
  - exists EmptyString, [], EmptyString. repeat split. now left.
  - cbn [PyText.split]. destruct (Ascii.eqb_spec c sep) as [->|Hne].
    + exists EmptyString, (PyText.split sep s), (String sep s).
      repeat split. right. now exists s.
    + destruct IH as (tok & parts & rest & -> & -> & Hno & Hrest).
      exists (String c tok), parts, rest. repeat split; [|exact Hrest].
      cbn [PyStr.has_char]. rewrite Hno.
      now destruct (Ascii.eqb_spec c sep).
Qed.

(** X23.  A request is taken to be made by a user only if its header is
    the word Bearer, one space, and a token that the verification accepts
    for the id of that user, who is in the table; the token is the text
    up to the next space or the end of the header.  Past the check of the
    prefix, taking the second part of the header never fails. *)
Theorem bearer_token_is_verified
  (verify_access_token : string -> option Z)
  (token : option string) (users : list User) :
  get_current_user verify_access_token token users <> inl IndexError
  /\ forall user,
       get_current_user verify_access_token token users = inr user ->
       exists tok rest,
         token = Some ("Bearer " ++ tok ++ rest)
         /\ PyStr.has_char " " tok = false
         /\ (rest = EmptyString \/ exists r, rest = String " " r)
         /\ verify_access_token tok = Some (user_id user)
         /\ In user users.
Proof.
  unfold get_current_user.
  destruct token as [token|]; [|split; [discriminate|discriminate]].
  destruct (String.eqb token EmptyString); [split; discriminate|].
  destruct (PyStr.startswith token "Bearer ") eqn:Hp; cbn [negb];
    [|split; discriminate].
  destruct (prefix_split _ _ Hp) as [t ->].
  destruct (split_first " " t) as (tok & parts & rest & Hs & -> & Hno & Hrest).
  assert (E : PyText.split " " ("Bearer " ++ tok ++ rest)
              = "Bearer" :: tok :: parts).
  { cbn [String.append PyText.split Ascii.eqb Bool.eqb]. now rewrite Hs. }
  rewrite E. cbn [nth_error].
  destruct (verify_access_token tok) as [uid|] eqn:Ev; [|split; discriminate].
  destruct (List.find _ users) as [u|] eqn:Ef; [|split; discriminate].
  split; [discriminate|].
  intros user H. injection H as <-.
  apply find_some in Ef as [Hin Hu]. apply Z.eqb_eq in Hu.
  exists tok, rest. repeat split; try assumption. now rewrite Hu.
Qed.

Lemma bearer_token_is_verified_witness :
  let ada := {| user_id := 7; full_name := "Ada"; email := "ada@example.com";
                password_hash := "h"; gemini_api_key := "k" |} in
  let verify : string -> option Z := fun t =>
    if String.eqb t "abc.def.ghi" then Some 7 else None in
  exists tok rest,
    Some "Bearer abc.def.ghi" = Some ("Bearer " ++ tok ++ rest)
    /\ PyStr.has_char " " tok = false
    /\ (rest = EmptyString \/ exists r, rest = String " " r)
    /\ verify tok = Some (user_id ada)
    /\ In ada [ada].
Proof.
  intros ada verify.
  apply (proj2 (bearer_token_is_verified verify (Some "Bearer abc.def.ghi") [ada])).
  reflexivity.
Defined.

Lemma find_none_not_in (mail : string) (users : list User) :
  List.find (fun u => String.eqb (email u) mail) users = None ->
  ~ In mail (map email users).
Proof.
  induction users as [|u users IH]; cbn [List.find map]; [intros _ []|].
  destruct (String.eqb_spec (email u) mail) as [|Hne]; [discriminate|].
  intros H [Hin|Hin]; [contradiction|now apply IH].
Qed.

(** X24.  Signing up never gives two accounts the same email: a table
    whose emails are distinct stays so, an email that is taken or a key
    that the validation does not answer with True leaves the table as it
    is, and an account that is created is added last, with the password
    and the key as the hashing and the encryption give them. *)
Theorem signup_keeps_emails_distinct
  (hash_password encrypt_api_key : string -> string)
  (validate_gemini_key : string -> option bool)
  (name mail password api_key : string) (new_id : Z) (users : list User) :
  List.NoDup (map email users) ->
  let out := create_user hash_password encrypt_api_key validate_gemini_key
               name mail password api_key new_id users in
  List.NoDup (map email (snd out))
  /\ (snd out = users
      \/ (validate_gemini_key api_key = Some true
          /\ ~ In mail (map email users)
          /\ snd out
             = (users ++ [{| user_id := new_id; full_name := name; email := mail;
                             password_hash := hash_password password;
                             gemini_api_key := encrypt_api_key api_key |}])%list)).
Proof.
  intros Hnd out. unfold out, create_user.
  destruct (List.find _ users) eqn:Ef; [split; [exact Hnd|now left]|].
  apply find_none_not_in in Ef.
  destruct (validate_gemini_key api_key) as [[|]|];
    try (split; [exact Hnd|now left]).
  cbn [snd]. split; [|right; now repeat split].
  rewrite map_app. cbn [map email].
  apply List.NoDup_app.
  - exact Hnd.
  - repeat constructor. intros [].
  - intros x Hx [<-|[]]. contradiction.
Qed.

Lemma signup_keeps_emails_distinct_witness :
  let ada := {| user_id := 7; full_name := "Ada"; email := "ada@example.com";
                password_hash := "h"; gemini_api_key := "k" |} in
  let eve := {| user_id := 8; full_name := "Eve"; email := "eve@example.com";
                password_hash := "hashed:pw"; gemini_api_key := "sealed:key" |} in
  let signup := create_user (fun p => "hashed:" ++ p) (fun k => "sealed:" ++ k)
                  (fun k => if String.eqb k "key" then Some true else Some false) in
  let out := signup "Eve" "eve@example.com" "pw" "key" 8 [ada] in
  let again := signup "Eve" "eve@example.com" "pw2" "key" 9 (snd out) in
  fst out = Created eve /\ snd out = [ada; eve]
  /\ fst again = EmailTaken /\ snd again = [ada; eve]
  /\ List.NoDup (map email (snd out))
  /\ (snd out = [ada]
      \/ ((if String.eqb "key" "key" then Some true else Some false) = Some true
          /\ ~ In "eve@example.com" (map email [ada])
          /\ snd out
             = ([ada] ++ [{| user_id := 8; full_name := "Eve";
                             email := "eve@example.com";
                             password_hash := "hashed:" ++ "pw";
                             gemini_api_key := "sealed:" ++ "key" |}])%list)).
Proof.
  intros ada eve signup out again.
  do 4 (split; [reflexivity|]).
  apply (signup_keeps_emails_distinct (fun p => "hashed:" ++ p)
           (fun k => "sealed:" ++ k)
           (fun k => if String.eqb k "key" then Some true else Some false)
           "Eve" "eve@example.com" "pw" "key" 8 [ada]).
  repeat constructor. intros [].
Defined.

End AuthProps.

(* ================================================================== *)
(** * Fences around a reply *)
(* ================================================================== *)

Module ReplyTextProps.
Import ReplyText.

#[local] Arguments String.append !s1 s2 : simpl nomatch.

Lemma length_app_str s t :
  String.length (s ++ t) = (String.length s + String.length t)%nat.
Proof. induction s as [|c s IH]; cbn [String.append String.length]; [reflexivity|lia]. Qed.

Lemma drop_app p s : PyText.drop (String.length p) (p ++ s) = s.
Proof. induction p as [|c p IH]; [reflexivity|exact IH]. Qed.

Lemma take_app p s : String.substring 0 (String.length p) (p ++ s) = p.
Proof.
  induction p as [|c p IH]; cbn [String.length String.append String.substring].
  - now destruct s.
  - now rewrite IH.
Qed.

Lemma endswith_app s suffix : PyText.endswith (s ++ suffix) suffix = true.
Proof.
  unfold PyText.endswith. rewrite length_app_str.
  replace (String.length s + String.length suffix - String.length suffix)%nat
    with (String.length s) by lia.
  rewrite drop_app, String.eqb_refl, andb_true_r.
  apply Nat.leb_le. lia.
Qed.

Lemma drop_last_app s suffix :
  PyText.drop_last (String.length suffix) (s ++ suffix) = s.
Proof.
  unfold PyText.drop_last. rewrite length_app_str.
  replace (String.length s + String.length suffix - String.length suffix)%nat
    with (String.length s) by lia.
  apply take_app.
Qed.

Lemma app_not_nil s t : t <> EmptyString -> s ++ t <> EmptyString.
Proof. destruct s; [now cbn|discriminate]. Qed.

Lemma rstrip_app_kept s t :
  PyText.rstrip t <> EmptyString ->
  PyText.rstrip (s ++ t) = s ++ PyText.rstrip t.
Proof.
  intros Ht. induction s as [|c s IH]; [reflexivity|].
  cbn [String.append PyText.rstrip]. rewrite IH.
  pose proof (app_not_nil s _ Ht) as Hne.
  destruct (s ++ PyText.rstrip t); [contradiction|reflexivity].
Qed.

Lemma rstrip_app_space s c :
  PyText.is_space c = true ->
  PyText.rstrip (s ++ String c EmptyString) = PyText.rstrip s.
Proof.
  intros Hc. induction s as [|a s IH]; cbn [String.append PyText.rstrip].
  - now rewrite Hc.
  - now rewrite IH.
Qed.

Lemma rstrip_trimmed s : ends_with_space s = false -> PyText.rstrip s = s.
Proof.
  induction s as [|c s IH]; [reflexivity|].
  cbn [ends_with_space PyText.rstrip]. destruct s as [|d s].
  - intros ->. reflexivity.
  - intros H. rewrite (IH H). reflexivity.
Qed.

Lemma lstrip_trimmed s : starts_with_space s = false -> PyText.lstrip s = s.
Proof. destruct s as [|c s]; [reflexivity|]. cbn. now intros ->. Qed.

Lemma strip_trimmed s : trimmed s = true -> PyText.strip s = s.
Proof.
  unfold trimmed. intros H. apply andb_prop in H as [H1 H2].
  apply negb_true_iff in H1, H2. unfold PyText.strip.
  now rewrite lstrip_trimmed, rstrip_trimmed.
Qed.

(** Stripping a trimmed text wrapped in one white-space character on
    each side gives the text back. *)
Lemma strip_wrapped body c d :
  PyText.is_space c = true -> PyText.is_space d = true ->
  trimmed body = true ->
  PyText.strip (String c EmptyString ++ body ++ String d EmptyString) = body.
Proof.
  intros Hc Hd Hb. unfold PyText.strip.
  cbn [String.append PyText.lstrip]. rewrite Hc.
  unfold trimmed in Hb. apply andb_prop in Hb as [H1 H2].
  apply negb_true_iff in H1, H2.
  destruct body as [|b body].
  - cbn [String.append PyText.lstrip PyText.rstrip]. now rewrite Hd.
  - cbn [starts_with_space] in H1.
    cbn [String.append PyText.lstrip]. rewrite H1.
    change (String b (body ++ String d EmptyString))
      with (String b body ++ String d EmptyString).
    rewrite rstrip_app_space by exact Hd. now apply rstrip_trimmed.
Qed.

Lemma rstrip_fence s : PyText.rstrip (s ++ "```") = s ++ "```".
Proof. now rewrite rstrip_app_kept. Qed.

Lemma strip_fenced opening s :
  PyText.strip (String "`" opening ++ s ++ "```") = String "`" opening ++ s ++ "```".
Proof.
  unfold PyText.strip.
  rewrite lstrip_trimmed by reflexivity.
  rewrite <- ReProps.append_assoc. apply rstrip_fence.
Qed.

(** What is left of a fenced text once the opening fence is gone. *)
Lemma clean_after_opening body :
  trimmed body = true ->
  let t := newline ++ body ++ newline ++ "```" in
  PyText.strip
    (let t := if PyStr.startswith t "```" then PyText.drop 3 t else t in
     if PyText.endswith t "```" then PyText.drop_last 3 t else t)
  = body.
Proof.
  intros Hb t. unfold t.
  assert (H1 : PyStr.startswith (newline ++ body ++ newline ++ "```") "```" = false)
    by reflexivity.
  rewrite H1. cbv zeta.
  assert (E : newline ++ body ++ newline ++ "```"
              = (newline ++ body ++ newline) ++ "```")
    by now rewrite !ReProps.append_assoc.
  rewrite E, endswith_app.
  change 3%nat with (String.length "```"). rewrite drop_last_app.
  now apply strip_wrapped.
Qed.

(** X25.  Cleaning a reply removes the fences around it and nothing
    else: a trimmed text put on a line of its own between an opening
    fence, with or without the word json, and a closing fence comes out
    as it was, and so does a trimmed text that neither starts nor ends
    with a fence. *)
Theorem fences_are_removed (body : string) :
  trimmed body = true ->
  clean_response ("```json" ++ newline ++ body ++ newline ++ "```") = body
  /\ clean_response ("```" ++ newline ++ body ++ newline ++ "```") = body
  /\ (PyStr.startswith body "```" = false ->
      PyText.endswith body "```" = false ->
      clean_response body = body).
Proof.
  intros Hb. split; [|split].
  - unfold clean_response.
    assert (E : "```json" ++ newline ++ body ++ newline ++ "```"
                = "```json" ++ (newline ++ body ++ newline) ++ "```")
      by now rewrite !ReProps.append_assoc.
    rewrite E, (strip_fenced "``json" (newline ++ body ++ newline)), <- E.
    assert (H1 : PyStr.startswith
                   ("```json" ++ newline ++ body ++ newline ++ "```") "```json"
                 = true) by apply UrlProps.prefix_append.
    rewrite H1. cbv zeta.
    change 7%nat with (String.length "```json"). rewrite drop_app.
    now apply clean_after_opening.
  - unfold clean_response.
    assert (E : "```" ++ newline ++ body ++ newline ++ "```"
                = "```" ++ (newline ++ body ++ newline) ++ "```")
      by now rewrite !ReProps.append_assoc.
    rewrite E, (strip_fenced "``" (newline ++ body ++ newline)), <- E.
    assert (H1 : PyStr.startswith
                   ("```" ++ newline ++ body ++ newline ++ "```") "```json"
                 = false) by reflexivity.
    assert (H2 : PyStr.startswith
                   ("```" ++ newline ++ body ++ newline ++ "```") "```"
                 = true) by apply UrlProps.prefix_append.
    rewrite H1. cbv zeta. rewrite H2.
    change 3%nat with (String.length "```") at 1. rewrite drop_app.
    assert (H3 : PyStr.startswith (newline ++ body ++ newline ++ "```") "```"
                 = false) by reflexivity.
    pose proof (clean_after_opening body Hb) as H. cbv zeta in H.
    rewrite H3 in H. exact H.
  - intros Hs He. unfold clean_response.
    rewrite (strip_trimmed body Hb).
    assert (H1 : PyStr.startswith body "```json" = false).
    { destruct (PyStr.startswith body "```json") eqn:E; [|reflexivity].
      unfold PyStr.startswith in *.
      destruct (AuthProps.prefix_split _ _ E) as [t ->].
      change ("```json" ++ t) with ("```" ++ "json" ++ t) in Hs.
      now rewrite (UrlProps.prefix_append "```" ("json" ++ t)) in Hs. }
    rewrite H1. cbv zeta. rewrite Hs, He. now apply strip_trimmed.
Qed.

Lemma fences_are_removed_witness :
  clean_response ("```json" ++ newline ++ "[1, 2]" ++ newline ++ "```") = "[1, 2]"
  /\ clean_response ("```" ++ newline ++ "[1, 2]" ++ newline ++ "```") = "[1, 2]"
  /\ (PyStr.startswith "[1, 2]" "```" = false ->
      PyText.endswith "[1, 2]" "```" = false ->
      clean_response "[1, 2]" = "[1, 2]").
Proof.
  apply (fences_are_removed "[1, 2]"). reflexivity.
Defined.

End ReplyTextProps.

(* ================================================================== *)
(** * The sanitizer applied twice, and to a document it need not change *)
(* ================================================================== *)

Module SanitizerMore.
Import Py TestExecutor SanitizerSpec SanitizerProps.

(** Induction on a document, with the elements of a list and the values of
    a dict as smaller documents. *)
Lemma pyval_nested_ind (P : pyval -> Prop) :
  P PNone -> (forall b, P (PBool b)) -> (forall z, P (PInt z)) ->
  (forall s, P (PStr s)) ->
  (forall l, Forall P l -> P (PList l)) ->
  (forall d, Forall (fun kv => P (snd kv)) d -> P (PDict d)) ->
  forall v, P v.
Proof.
  intros HN HB HI HS HL HD. fix F 1. intros [|b|z|s|l|d].
  - exact HN.
  - apply HB.
  - apply HI.
  - apply HS.
  - apply HL. induction l as [|x l IHl]; constructor; [apply F|exact IHl].
  - apply HD. induction d as [|[k x] d IHd]; constructor; [apply F|exact IHd].
Qed.

Lemma sanitize_twice v : sanitize_dict (sanitize_dict v) = sanitize_dict v.
Proof.
  induction v as [| | | |l IH|d IH] using pyval_nested_ind; try reflexivity.
  - cbn [sanitize_dict]. f_equal. rewrite map_map.
    induction IH as [|x l Hx _ IHl]; [reflexivity|].
    cbn [map]. now rewrite Hx, IHl.
  - rewrite !sanitize_dict_items. f_equal. rewrite map_map.
    induction IH as [|[k x] d Hx _ IHd]; [reflexivity|].
    cbn [map]. rewrite IHd. f_equal.
    unfold sanitize_item. cbn [fst snd] in *.
    destruct (is_sensitive k); [reflexivity|]. now rewrite Hx.
Qed.

Lemma sanitize_clean v : has_sensitive_key v = false -> sanitize_dict v = v.
Proof.
  induction v as [| | | |l IH|d IH] using pyval_nested_ind; try reflexivity.
  - cbn [has_sensitive_key sanitize_dict]. intros H. f_equal.
    induction IH as [|x l Hx _ IHl]; [reflexivity|].
    cbn [existsb map] in *. apply orb_false_elim in H as [H1 H2].
    now rewrite Hx, IHl.
  - rewrite sanitize_dict_items. cbn [has_sensitive_key]. intros H. f_equal.
    induction IH as [|[k x] d Hx _ IHd]; [reflexivity|].
    cbn [existsb map] in *. apply orb_false_elim in H as [H1 H2].
    apply orb_false_elim in H1 as [Hk Hv].
    rewrite IHd by exact H2. f_equal.
    unfold sanitize_item. cbn [fst snd] in *. now rewrite Hk, Hx.
Qed.

(** X26.  Sanitizing is idempotent, and it changes nothing but what
    sensitive keys hold: a document sanitized twice is the document
    sanitized once, a sanitized document shows its sensitive keys as
    before, and a document with no sensitive key, at any depth, is left
    as it is. *)
Theorem sanitizer_is_idempotent (data : pyval) :
  sanitize_dict (sanitize_dict data) = sanitize_dict data
  /\ has_sensitive_key (sanitize_dict data) = has_sensitive_key data
  /\ (has_sensitive_key data = false -> sanitize_dict data = data).
Proof.
  split; [apply sanitize_twice|]. split; [|apply sanitize_clean].
  induction data as [| | | |l IH|d IH] using pyval_nested_ind; try reflexivity.
  - cbn [sanitize_dict has_sensitive_key].
    induction IH as [|x l Hx _ IHl]; [reflexivity|].
    cbn [map existsb]. now rewrite Hx, IHl.
  - rewrite sanitize_dict_items. cbn [has_sensitive_key].
    induction IH as [|[k x] d Hx _ IHd]; [reflexivity|].
    cbn [map existsb]. rewrite IHd. f_equal.
    unfold sanitize_item. cbn [fst snd] in *.
    destruct (is_sensitive k); [reflexivity|]. now rewrite Hx.
Qed.

Lemma sanitizer_is_idempotent_witness :
  let data := PDict [("user", PDict [("name", PStr "ann"); ("id", PInt 7)]);
                     ("tags", PList [PStr "a"; PDict [("n", PNone)]])] in
  sanitize_dict data = data.
Proof.
  intros data.
  apply (proj2 (proj2 (sanitizer_is_idempotent data))). reflexivity.
Defined.

End SanitizerMore.
